(** * Stress-test file client: wire protocol, transfer workflow, statistics

    A shallow embedding of [stress_test_client.py]: the [FileClient]
    transport and its three operations, the per-worker transfer workflow
    [worker_task], and the orchestration and statistics of [run_full_test].

    Python [bytes] are [list byte], Python [str] is [string] (text whose
    code points are below 256, one character each), exceptions are carried
    by the [result] type with the text of [str(e)], and every effect
    (sockets, files, the clock) goes through an explicit [world]. *)

From Stdlib Require Import List String Ascii NArith ZArith QArith.
From Stdlib.Strings Require Import Byte.
From Stdlib Require Import DecimalString DecimalNat DecimalPos DecimalFacts.
From Stdlib Require Import Bool Arith Lia Permutation.
Import ListNotations.

Local Open Scope list_scope.
Local Open Scope string_scope.
Local Open Scope nat_scope.

(** ** Results of fallible calls *)

Inductive result (A : Type) : Type :=
| Ok (a : A)
| Raise (msg : string).

Arguments Ok {A} a.
Arguments Raise {A} msg.

Definition bytes := list byte.

(** ** The base64 codec of the standard library

    [base64.b64encode] is the RFC 4648 encoding with the standard alphabet
    and [=] padding.  [base64.b64decode] in its default, non-validating mode
    is the scanner of [binascii.a2b_base64]: characters outside the alphabet
    are skipped, a pad that completes a quad stops the scan, and leftover
    data characters are an error. *)

Module Base64.

Local Open Scope N_scope.

Definition alphabet : string :=
  "ABCDEFGHIJKLMNOPQRSTUVWXYZabcdefghijklmnopqrstuvwxyz0123456789+/".

Definition pad : ascii := "="%char.

(** Sextet to alphabet character. *)
Definition b2a (n : N) : ascii :=
  match String.get (N.to_nat n) alphabet with
  | Some c => c
  | None => pad
  end.

(** Alphabet character to sextet; [None] for every other character. *)
Definition a2b (c : ascii) : option N :=
  let n := N_of_ascii c in
  if (65 <=? n) && (n <=? 90) then Some (n - 65)
  else if (97 <=? n) && (n <=? 122) then Some (n - 71)
  else if (48 <=? n) && (n <=? 57) then Some (n + 4)
  else if n =? 43 then Some 62
  else if n =? 47 then Some 63
  else None.

(** Storing into an [unsigned char]. *)
Definition byte_of_N (n : N) : byte :=
  match Byte.of_N (n mod 256) with
  | Some b => b
  | None => x00
  end.

Definition sextet0 (a : N) : N := N.shiftr a 2.
Definition sextet1 (a b : N) : N := N.lor (N.shiftl (N.land a 3) 4) (N.shiftr b 4).
Definition sextet2 (b c : N) : N := N.lor (N.shiftl (N.land b 15) 2) (N.shiftr c 6).
Definition sextet3 (c : N) : N := N.land c 63.

Fixpoint b64encode (bs : bytes) : string :=
  match bs with
  | [] => EmptyString
  | [a] =>
      let x := Byte.to_N a in
      String (b2a (sextet0 x)) (String (b2a (sextet1 x 0))
        (String pad (String pad EmptyString)))
  | [a; b] =>
      let x := Byte.to_N a in
      let y := Byte.to_N b in
      String (b2a (sextet0 x)) (String (b2a (sextet1 x y))
        (String (b2a (sextet2 y 0)) (String pad EmptyString)))
  | a :: b :: c :: rest =>
      let x := Byte.to_N a in
      let y := Byte.to_N b in
      let z := Byte.to_N c in
      String (b2a (sextet0 x)) (String (b2a (sextet1 x y))
        (String (b2a (sextet2 y z)) (String (b2a (sextet3 z))
          (b64encode rest))))
  end.

Definition emit (b : byte) (r : result bytes) : result bytes :=
  match r with
  | Ok l => Ok (b :: l)
  | Raise m => Raise m
  end.

(** [%zd] of a count. *)
Definition decimal (n : N) : string := NilEmpty.string_of_uint (N.to_uint n).

(** The scanning loop of [a2b_base64] with [strict_mode] off.  [quad_pos]
    counts the data characters of the current quad, [leftchar] holds the bits
    not yet written, [pads] the pads seen since the last data character,
    [written] the bytes put out so far, from which the error for a single
    leftover data character computes the count it prints. *)
Fixpoint a2b_loop (s : string) (quad_pos : N) (leftchar : N) (pads : N)
  (written : N) : result bytes :=
  match s with
  | EmptyString =>
      if quad_pos =? 0 then Ok []
      else if quad_pos =? 1 then
        Raise ("Invalid base64-encoded string: number of data characters ("
               ++ decimal (written / 3 * 4 + 1)
               ++ ") cannot be 1 more than a multiple of 4")
      else Raise "Incorrect padding"
  | String c s' =>
      if Ascii.eqb c pad then
        if 2 <=? quad_pos then
          if 4 <=? quad_pos + (pads + 1) then Ok []
          else a2b_loop s' quad_pos leftchar (pads + 1) written
        else a2b_loop s' quad_pos leftchar pads written
      else
        match a2b c with
        | None => a2b_loop s' quad_pos leftchar pads written
        | Some v =>
            if quad_pos =? 0 then a2b_loop s' 1 v 0 written
            else if quad_pos =? 1 then
              emit (byte_of_N (N.lor (N.shiftl leftchar 2) (N.shiftr v 4)))
                   (a2b_loop s' 2 (N.land v 15) 0 (written + 1))
            else if quad_pos =? 2 then
              emit (byte_of_N (N.lor (N.shiftl leftchar 4) (N.shiftr v 2)))
                   (a2b_loop s' 3 (N.land v 3) 0 (written + 1))
            else
              emit (byte_of_N (N.lor (N.shiftl leftchar 6) v))
                   (a2b_loop s' 0 0 0 (written + 1))
        end
  end.

Definition is_ascii (c : ascii) : bool := N_of_ascii c <? 128.

Fixpoint all_ascii (s : string) : bool :=
  match s with
  | EmptyString => true
  | String c s' => is_ascii c && all_ascii s'
  end.

(** [base64.b64decode(s)] for a [str] argument: the text is first encoded as
    ASCII, which raises on any other character. *)
Definition b64decode (s : string) : result bytes :=
  if all_ascii s then a2b_loop s 0 0 0 0
  else Raise "string argument should contain only ASCII characters".

End Base64.


(** ** Text helpers *)

Definition CR : ascii := ascii_of_nat 13.
Definition LF : ascii := ascii_of_nat 10.
Definition CRLF : string := String CR (String LF EmptyString).

(** The frame terminator, [\r\n\r\n]. *)
Definition terminator : string := CRLF ++ CRLF.

(** [needle in hay] on two [str]. *)
Fixpoint contains (needle hay : string) : bool :=
  if String.prefix needle hay then true
  else match hay with
       | EmptyString => false
       | String _ hay' => contains needle hay'
       end.

(** Truth value of a [str] or of decoded [bytes]: non-empty. *)
Definition truthy (s : string) : bool :=
  match s with
  | EmptyString => false
  | String _ _ => true
  end.

(** [str(n)] for a non-negative [int]. *)
Definition str_of_nat (n : nat) : string :=
  NilEmpty.string_of_uint (Nat.to_uint n).

(** ** Values returned by [json.loads] *)

#[warnings="-register-all"]
Inductive json : Type :=
| JNull
| JBool (b : bool)
| JNum (n : Z)
| JStr (s : string)
| JList (items : list json)
| JDict (fields : list (string * json)).

Module Py.

Definition type_name (j : json) : string :=
  match j with
  | JNull => "NoneType"
  | JBool _ => "bool"
  | JNum _ => "int"
  | JStr _ => "str"
  | JList _ => "list"
  | JDict _ => "dict"
  end.

Fixpoint lookup (key : string) (fields : list (string * json)) : option json :=
  match fields with
  | [] => None
  | (k, v) :: rest => if String.eqb k key then Some v else lookup key rest
  end.

(** [repr(s)] of a [str] whose code points are below 256: apostrophes
    around the text, or double quotes when the text has an apostrophe and no
    double quote; the quote in use and the backslash are escaped, tab, line
    feed and carriage return are written [\t], [\n], [\r], and every other
    character that is not printable is written [\xhh]. *)
Definition apostrophe : ascii := ascii_of_nat 39.
Definition double_quote : ascii := ascii_of_nat 34.
Definition backslash : ascii := ascii_of_nat 92.

Fixpoint has_char (c : ascii) (s : string) : bool :=
  match s with
  | EmptyString => false
  | String d s' => Ascii.eqb d c || has_char c s'
  end.

Definition hex_digit (n : nat) : ascii :=
  match String.get n "0123456789abcdef" with
  | Some c => c
  | None => "0"%char
  end.

(** [str.isprintable] on one character. *)
Definition printable (c : ascii) : bool :=
  let n := nat_of_ascii c in
  if n <? 32 then false
  else if n <? 127 then true
  else if n <? 161 then false
  else negb (n =? 173).

Definition repr_char (quote c : ascii) : string :=
  let n := nat_of_ascii c in
  if Ascii.eqb c quote || Ascii.eqb c backslash then
    String backslash (String c EmptyString)
  else if n =? 9 then String backslash "t"
  else if n =? 10 then String backslash "n"
  else if n =? 13 then String backslash "r"
  else if printable c then String c EmptyString
  else String backslash
         (String "x" (String (hex_digit (n / 16))
                        (String (hex_digit (n mod 16)) EmptyString))).

Fixpoint repr_chars (quote : ascii) (s : string) : string :=
  match s with
  | EmptyString => EmptyString
  | String c s' => repr_char quote c ++ repr_chars quote s'
  end.

Definition repr (s : string) : string :=
  let quote :=
    if has_char apostrophe s && negb (has_char double_quote s)
    then double_quote else apostrophe in
  String quote (repr_chars quote s ++ String quote EmptyString).

(** [j == s] for a [str] literal [s]. *)
Definition eq_str (j : json) (s : string) : bool :=
  match j with
  | JStr t => String.eqb t s
  | _ => false
  end.

(** [j.get(key)]: [None] when the key is missing, [AttributeError]
    when [j] is not a dict. *)
Definition dict_get (j : json) (key : string) : result (option json) :=
  match j with
  | JDict fields => Ok (lookup key fields)
  | _ => Raise ("'" ++ type_name j ++ "' object has no attribute 'get'")
  end.

(** [j[key]] with a [str] key. *)
Definition getitem (j : json) (key : string) : result json :=
  match j with
  | JDict fields =>
      match lookup key fields with
      | Some v => Ok v
      | None => Raise (repr key)
      end
  | JList _ => Raise "list indices must be integers or slices, not str"
  | JStr _ => Raise "string indices must be integers, not 'str'"
  | _ => Raise ("'" ++ type_name j ++ "' object is not subscriptable")
  end.

(** [name in j]: element of a list, substring of a str, key of a dict. *)
Definition str_in (name : string) (j : json) : result bool :=
  match j with
  | JList items => Ok (existsb (fun x => eq_str x name) items)
  | JStr s => Ok (contains name s)
  | JDict fields => Ok (existsb (fun kv => String.eqb (fst kv) name) fields)
  | _ => Raise ("argument of type '" ++ type_name j ++ "' is not iterable")
  end.

(** [base64.b64decode(j)]: only a str (or bytes) is accepted. *)
Definition b64decode (j : json) : result bytes :=
  match j with
  | JStr s => Base64.b64decode s
  | _ => Raise ("argument should be a bytes-like object or ASCII string, not '"
                ++ type_name j ++ "'")
  end.

End Py.

(** ** The UTF-8 codec of [bytes.decode()] and [str.encode()]

    [bytes.decode()] decodes UTF-8 strictly and yields code points; the
    first ill-formed sequence raises [UnicodeDecodeError], whose text names
    the offending byte or byte range and one of three reasons.  The decoder
    follows CPython's: a truncated sequence at the end of the data is
    [unexpected end of data] unless its second or third byte already rules
    the sequence out. *)

Module Utf8.

Local Open Scope N_scope.

Definition continuation (b : N) : bool := (128 <=? b) && (b <? 192).

Definition hex2 (b : N) : string :=
  String (Py.hex_digit (N.to_nat (b / 16)))
    (String (Py.hex_digit (N.to_nat (b mod 16))) EmptyString).

(** [str(UnicodeDecodeError('utf-8', data, start, start + width, reason))];
    [first] is the byte at [start]. *)
Definition decode_error (first start width : N) (reason : string) : string :=
  if width =? 1 then
    "'utf-8' codec can't decode byte 0x" ++ hex2 first ++ " in position "
    ++ Base64.decimal start ++ ": " ++ reason
  else
    "'utf-8' codec can't decode bytes in position " ++ Base64.decimal start
    ++ "-" ++ Base64.decimal (start + width - 1) ++ ": " ++ reason.

Definition invalid_start : string := "invalid start byte".
Definition invalid_continuation : string := "invalid continuation byte".
Definition unexpected_end : string := "unexpected end of data".

Definition point (cp : N) (r : result (list N)) : result (list N) :=
  match r with
  | Ok l => Ok (cp :: l)
  | Raise m => Raise m
  end.

(** The second byte rules out a three-byte, respectively four-byte,
    sequence: not a continuation byte, an overlong form, a surrogate, or a
    code point past U+10FFFF. *)
Definition bad_second3 (ch ch2 : N) : bool :=
  negb (continuation ch2) || (if ch2 <? 160 then ch =? 224 else ch =? 237).

Definition bad_second4 (ch ch2 : N) : bool :=
  negb (continuation ch2) || (if ch2 <? 144 then ch =? 240 else ch =? 244).

Fixpoint decode_from (pos : N) (s : list N) : result (list N) :=
  match s with
  | [] => Ok []
  | ch :: s1 =>
      if ch <? 128 then point ch (decode_from (pos + 1) s1)
      else if ch <? 224 then
        if ch <? 194 then Raise (decode_error ch pos 1 invalid_start)
        else
          match s1 with
          | [] => Raise (decode_error ch pos 1 unexpected_end)
          | ch2 :: s2 =>
              if continuation ch2 then
                point (N.shiftl ch 6 + ch2 - 12416) (decode_from (pos + 2) s2)
              else Raise (decode_error ch pos 1 invalid_continuation)
          end
      else if ch <? 240 then
        match s1 with
        | [] => Raise (decode_error ch pos 1 unexpected_end)
        | [ch2] =>
            if bad_second3 ch ch2
            then Raise (decode_error ch pos 1 invalid_continuation)
            else Raise (decode_error ch pos 2 unexpected_end)
        | ch2 :: ch3 :: s3 =>
            if bad_second3 ch ch2
            then Raise (decode_error ch pos 1 invalid_continuation)
            else if continuation ch3 then
              point (N.shiftl ch 12 + N.shiftl ch2 6 + ch3 - 925824)
                    (decode_from (pos + 3) s3)
            else Raise (decode_error ch pos 2 invalid_continuation)
        end
      else if ch <? 245 then
        match s1 with
        | [] => Raise (decode_error ch pos 1 unexpected_end)
        | [ch2] =>
            if bad_second4 ch ch2
            then Raise (decode_error ch pos 1 invalid_continuation)
            else Raise (decode_error ch pos 2 unexpected_end)
        | [ch2; ch3] =>
            if bad_second4 ch ch2
            then Raise (decode_error ch pos 1 invalid_continuation)
            else if continuation ch3
            then Raise (decode_error ch pos 3 unexpected_end)
            else Raise (decode_error ch pos 2 invalid_continuation)
        | ch2 :: ch3 :: ch4 :: s4 =>
            if bad_second4 ch ch2
            then Raise (decode_error ch pos 1 invalid_continuation)
            else if continuation ch3 then
              if continuation ch4 then
                point (N.shiftl ch 18 + N.shiftl ch2 12 + N.shiftl ch3 6
                       + ch4 - 63447168)
                      (decode_from (pos + 4) s4)
              else Raise (decode_error ch pos 3 invalid_continuation)
            else Raise (decode_error ch pos 2 invalid_continuation)
        end
      else Raise (decode_error ch pos 1 invalid_start)
  end.

(** [data.decode()] *)
Definition decode (data : bytes) : result (list N) :=
  decode_from 0 (map Byte.to_N data).

(** [s.encode()] for text whose code points are below 256. *)
Definition encode_char (c : ascii) : bytes :=
  let n := N_of_ascii c in
  if n <? 128 then [Base64.byte_of_N n]
  else [Base64.byte_of_N (192 + N.shiftr n 6);
        Base64.byte_of_N (128 + N.land n 63)].

Fixpoint encode (s : string) : bytes :=
  match s with
  | EmptyString => []
  | String c s' => List.app (encode_char c) (encode s')
  end.

(** The text of code points, when all are below 256. *)
Fixpoint text_of (points : list N) : option string :=
  match points with
  | [] => Some EmptyString
  | cp :: points' =>
      if cp <? 256 then option_map (String (ascii_of_N cp)) (text_of points')
      else None
  end.

End Utf8.

(** ** State and exceptions

    A computation runs on a state, may change it, and either returns a value
    or raises; what it did to the state before raising stays done. *)

Definition M (S A : Type) : Type := S -> result A * S.

Definition ret {S A} (a : A) : M S A := fun s => (Ok a, s).

Definition raise {S A} (msg : string) : M S A := fun s => (Raise msg, s).

Definition bind {S A B} (m : M S A) (k : A -> M S B) : M S B :=
  fun s => match m s with
           | (Ok a, s') => k a s'
           | (Raise msg, s') => (Raise msg, s')
           end.

(** [try: body / except Exception as e: handler(str(e))]. *)
Definition try_except {S A} (body : M S A) (handler : string -> M S A) : M S A :=
  fun s => match body s with
           | (Ok a, s') => (Ok a, s')
           | (Raise msg, s') => handler msg s'
           end.

(** [try: body / finally: cleanup]. *)
Definition try_finally {S A} (body : M S A) (cleanup : S -> S) : M S A :=
  fun s => let '(r, s') := body s in (r, cleanup s').

Definition lift_result {S A} (r : result A) : M S A := fun s => (r, s).

Definition gets {S A} (f : S -> A) : M S A := fun s => (Ok (f s), s).

Definition modify {S} (f : S -> S) : M S unit := fun s => (Ok tt, f s).

Declare Scope monad_scope.
Delimit Scope monad_scope with monad.
Notation "x <- m ;; k" := (bind m (fun x => k))
  (at level 61, m at next level, right associativity) : monad_scope.
Notation "m ;;; k" := (bind m (fun _ => k))
  (at level 61, right associativity) : monad_scope.

(** ** The environment of one client

    Everything outside the program is scripted: how the n-th connection
    attempt goes, what the clock reads, which files exist, which bytes
    [os.urandom] hands out.  [trace] records the I/O the program performed. *)

(** One iteration of [data = sock.recv(8192)] followed by [data.decode()]:
    the decoded text (empty when the peer has closed), or an exception from
    either call. *)
Inductive recv_event : Type :=
| RecvText (data : string)
| RecvRaise (msg : string).

(** What an accepted connection does once the request is written. *)
Inductive session : Type :=
| SendFails (msg : string)
| Replies (events : list recv_event).

Inductive conn : Type :=
| Refused (msg : string)
| Accepted (serve : string -> session).

Inductive io_event : Type :=
| EvConnect
| EvSendall (data : string)
| EvClose
| EvLog (msg : string).

Record world : Type := mkWorld {
  net : nat -> conn;
  conns : nat;
  clock : nat -> Q;
  ticks : nat;
  fs : string -> option bytes;
  entropy : nat -> byte;
  drawn : nat;
  trace : list io_event
}.

Definition log_event (e : io_event) (w : world) : world :=
  mkWorld (net w) (conns w) (clock w) (ticks w) (fs w) (entropy w) (drawn w)
          (trace w ++ [e]).

Definition next_conn (w : world) : world :=
  mkWorld (net w) (S (conns w)) (clock w) (ticks w) (fs w) (entropy w)
          (drawn w) (trace w).

Definition next_tick (w : world) : world :=
  mkWorld (net w) (conns w) (clock w) (S (ticks w)) (fs w) (entropy w)
          (drawn w) (trace w).

Definition draw (n : nat) (w : world) : world :=
  mkWorld (net w) (conns w) (clock w) (ticks w) (fs w) (entropy w)
          (n + drawn w) (trace w).

Definition store_file (name : string) (data : bytes) (w : world) : world :=
  mkWorld (net w) (conns w) (clock w) (ticks w)
          (fun n => if String.eqb n name then Some data else fs w n)
          (entropy w) (drawn w) (trace w).

(** Number of connections opened and the requests written, in order. *)
Fixpoint connections (tr : list io_event) : nat :=
  match tr with
  | [] => 0
  | EvConnect :: tr' => S (connections tr')
  | _ :: tr' => connections tr'
  end.

Fixpoint requests (tr : list io_event) : list string :=
  match tr with
  | [] => []
  | EvSendall data :: tr' => data :: requests tr'
  | _ :: tr' => requests tr'
  end.

Module Sys.

Local Open Scope monad_scope.

(** [time.time()] *)
Definition time_time : M world Q :=
  fun w => (Ok (clock w (ticks w)), next_tick w).

(** [os.path.exists(name)] *)
Definition path_exists (name : string) : M world bool :=
  gets (fun w => match fs w name with Some _ => true | None => false end).

(** [with open(name, 'rb') as f: f.read()] *)
Definition read_file (name : string) : M world bytes :=
  fun w => match fs w name with
           | Some data => (Ok data, w)
           | None => (Raise ("[Errno 2] No such file or directory: "
                             ++ Py.repr name), w)
           end.

(** [with open(name, 'wb') as f: f.write(data)] *)
Definition write_file (name : string) (data : bytes) : M world unit :=
  modify (store_file name data).

(** [os.urandom(n)] *)
Definition urandom (n : nat) : M world bytes :=
  fun w => (Ok (map (fun i => entropy w (drawn w + i)) (seq 0 n)), draw n w).

(** [logging.error(msg)] *)
Definition logging_error (msg : string) : M world unit :=
  modify (log_event (EvLog msg)).

(** [sock = socket.socket(...); sock.connect(address)] *)
Definition sock_connect : M world (string -> session) :=
  fun w => let w' := log_event EvConnect (next_conn w) in
           match net w (conns w) with
           | Refused msg => (Raise msg, w')
           | Accepted serve => (Ok serve, w')
           end.

(** [sock.sendall(data)]; a successful write fixes what will be received. *)
Definition sock_sendall (sock : string -> session) (data : string)
  : M world (list recv_event) :=
  fun w => let w' := log_event (EvSendall data) w in
           match sock data with
           | SendFails msg => (Raise msg, w')
           | Replies events => (Ok events, w')
           end.

(** [sock.close()] *)
Definition sock_close : world -> world := log_event EvClose.

End Sys.

(** ** [class FileClient] *)

Definition error_response (msg : string) : json :=
  JDict [("status", JStr "ERROR"); ("data", JStr msg)].

(** The receive loop of [send_command].  The script of an accepted
    connection is finite; once it is used up the peer has closed and [recv]
    returns no data. *)
Fixpoint recv_loop (events : list recv_event) (data_received : string)
  : result string :=
  match events with
  | [] => Ok data_received
  | RecvRaise msg :: _ => Raise msg
  | RecvText data :: events' =>
      if truthy data then
        let data_received := data_received ++ data in
        if contains terminator data_received then Ok data_received
        else recv_loop events' data_received
      else Ok data_received
  end.

Section Client.

(** [json.loads], left abstract: any parser of response text. *)
Variable json_loads : string -> result json.

Local Open Scope monad_scope.

Definition send_command (command_str : string) : M world json :=
  sock <- Sys.sock_connect ;;
  try_finally
    (try_except
       (events <- Sys.sock_sendall sock command_str ;;
        data_received <- lift_result (recv_loop events "") ;;
        hasil <- lift_result (json_loads data_received) ;;
        ret hasil)
       (fun e =>
          Sys.logging_error ("Error: " ++ e) ;;;
          ret (error_response e)))
    Sys.sock_close.

Definition remote_list : M world json :=
  let command_str := "LIST" ++ CRLF ++ CRLF in
  send_command command_str.

Definition remote_get (filename : string) : M world (option bytes) :=
  let command_str := "GET " ++ filename ++ CRLF ++ CRLF in
  hasil <- send_command command_str ;;
  status <- lift_result (Py.getitem hasil "status") ;;
  if Py.eq_str status "OK" then
    data_file <- lift_result (Py.getitem hasil "data_file") ;;
    isifile <- lift_result (Py.b64decode data_file) ;;
    ret (Some isifile)
  else ret None.

(** [file_data] is [None] when the caller passes no payload. *)
Definition remote_upload (filename : string) (file_data : option bytes)
  : M world json :=
  let upload (file_data : bytes) :=
    let encoded_content := Base64.b64encode file_data in
    let command_str :=
      "UPLOAD " ++ filename ++ CRLF ++ encoded_content ++ CRLF ++ CRLF in
    send_command command_str in
  match file_data with
  | Some data => upload data
  | None =>
      fun w => match Sys.read_file filename w with
               | (Ok data, w') => upload data w'
               | (Raise e, w') => (Ok (error_response e), w')
               end
  end.

(** ** The transfer workflow *)

Definition generate_test_file (filename : string) (size_mb : nat)
  : M world string :=
  let size := size_mb * 1024 * 1024 in
  data <- Sys.urandom size ;;
  Sys.write_file filename data ;;;
  ret filename.

(** [results['upload']] *)
Record upload_outcome : Type := mkUpload {
  up_success : bool;
  up_time : Q;
  up_bytes : Z;
  up_server_response : json
}.

(** [results['download']]: the dict has either an [error] or the three
    measurements, according to [success]. *)
Inductive download_outcome : Type :=
| DownloadFailed (error : string)
| DownloadOk (time : Q) (nbytes : Z) (data_valid : bool).

Definition dl_success (d : download_outcome) : bool :=
  match d with
  | DownloadFailed _ => false
  | DownloadOk _ _ _ => true
  end.

(** The [results] dict of one worker; [None] is a key not set. *)
Record worker_result : Type := mkResult {
  worker_id : nat;
  upload : option upload_outcome;
  download : option download_outcome;
  error : option string
}.

(** The state of a running worker: its [results] dict and its environment. *)
Record wstate : Type := mkWstate {
  results : worker_result;
  env : world
}.

Definition io {A} (m : M world A) : M wstate A :=
  fun st => let '(r, w) := m (env st) in (r, mkWstate (results st) w).

Definition set_upload (u : upload_outcome) : M wstate unit :=
  modify (fun st =>
    let r := results st in
    mkWstate (mkResult (worker_id r) (Some u) (download r) (error r)) (env st)).

Definition set_download (d : download_outcome) : M wstate unit :=
  modify (fun st =>
    let r := results st in
    mkWstate (mkResult (worker_id r) (upload r) (Some d) (error r)) (env st)).

Definition set_error (e : string) : M wstate unit :=
  modify (fun st =>
    let r := results st in
    mkWstate (mkResult (worker_id r) (upload r) (download r) (Some e)) (env st)).

Fixpoint bytes_eqb (a b : bytes) : bool :=
  match a, b with
  | [], [] => true
  | x :: a', y :: b' => Byte.eqb x y && bytes_eqb a' b'
  | _, _ => false
  end.

Definition len (b : bytes) : Z := Z.of_nat (List.length b).

(** [f"testfile_{worker_id}_{file_size_mb}mb.dat"] *)
Definition testfile_name (worker_id file_size_mb : nat) : string :=
  "testfile_" ++ str_of_nat worker_id ++ "_" ++ str_of_nat file_size_mb
  ++ "mb.dat".

(** [f"source_{file_size_mb}mb.dat"] *)
Definition source_name (file_size_mb : nat) : string :=
  "source_" ++ str_of_nat file_size_mb ++ "mb.dat".

(** "Generate source file if not exists" *)
Definition ensure_source (test_filename : string) (file_size_mb : nat)
  : M wstate unit :=
  present <- io (Sys.path_exists test_filename) ;;
  if present then ret tt
  else _ <- io (generate_test_file test_filename file_size_mb) ;; ret tt.

(** "PHASE 1: UPLOAD", up to the assignment of [results['upload']]; yields
    the source payload and [results['upload']['success']]. *)
Definition upload_phase (filename test_filename : string)
  : M wstate (bytes * bool) :=
  start_upload <- io Sys.time_time ;;
  file_data <- io (Sys.read_file test_filename) ;;
  upload_result <- io (remote_upload filename (Some file_data)) ;;
  end_upload <- io Sys.time_time ;;
  let upload_time := (end_upload - start_upload)%Q in
  status <- lift_result (Py.dict_get upload_result "status") ;;
  let success := match status with
                 | Some v => Py.eq_str v "OK"
                 | None => false
                 end in
  set_upload (mkUpload success upload_time (len file_data) upload_result) ;;;
  ret (file_data, success).

(** "PHASE 2: VERIFY FILE EXISTS": [filename in list_result.get('data', [])] *)
Definition verify_phase (filename : string) : M wstate bool :=
  list_result <- io remote_list ;;
  data <- lift_result (Py.dict_get list_result "data") ;;
  lift_result
    (Py.str_in filename (match data with Some v => v | None => JList [] end)).

(** "PHASE 3: DOWNLOAD" *)
Definition download_phase (filename : string) (file_data : bytes)
  : M wstate unit :=
  start_download <- io Sys.time_time ;;
  download_result <- io (remote_get filename) ;;
  end_download <- io Sys.time_time ;;
  let download_time := (end_download - start_download)%Q in
  match download_result with
  | None => set_download (DownloadFailed "Server returned None")
  | Some downloaded =>
      set_download
        (DownloadOk download_time (len downloaded)
           (bytes_eqb (firstn 10 downloaded) (firstn 10 file_data)))
  end.

(** The body of the [try] block of [worker_task].  A [return results] inside
    the block is a branch that ends the body. *)
Definition worker_body (file_size_mb : nat) (filename test_filename : string)
  : M wstate unit :=
  ensure_source test_filename file_size_mb ;;;
  uploaded <- upload_phase filename test_filename ;;
  let '(file_data, success) := uploaded in
  if negb success then
    set_download (DownloadFailed "Upload failed, skipping download")
  else
    listed <- verify_phase filename ;;
    if negb listed then
      set_download (DownloadFailed "File not found on server after upload")
    else download_phase filename file_data.

(** The handler of [except Exception as e] in [worker_task]. *)
Definition worker_handler (worker_id : nat) (e : string) : M wstate unit :=
  set_error e ;;;
  io (Sys.logging_error ("Worker " ++ str_of_nat worker_id ++ " failed: " ++ e)).

Definition worker_task (file_size_mb worker_id : nat) : M world worker_result :=
  let filename := testfile_name worker_id file_size_mb in
  let test_filename := source_name file_size_mb in
  fun w =>
    let st0 := mkWstate (mkResult worker_id None None None) w in
    let '(r, st) :=
      try_except
        (worker_body file_size_mb filename test_filename)
        (worker_handler worker_id)
        st0 in
    match r with
    | Ok _ => (Ok (results st), env st)
    | Raise e => (Raise e, env st)
    end.

(** ** The worker pool of [run_full_test]

    Worker [i] runs [worker_task] in its own environment [envs i].
    [completed] is the order in which [as_completed] yields the futures, a
    rearrangement of [0 .. num_workers-1] chosen by the scheduler. *)

(** [executor_class(max_workers=num_workers)] *)
Definition make_executor (num_workers : nat) : result unit :=
  if Nat.eqb num_workers 0 then Raise "max_workers must be greater than 0"
  else Ok tt.

(** [for future in as_completed(futures): all_results.append(future.result())];
    [future.result()] raises again what the worker raised. *)
Fixpoint gather (file_size_mb : nat) (envs : nat -> world)
  (completed : list nat) : result (list worker_result) :=
  match completed with
  | [] => Ok []
  | i :: rest =>
      match fst (worker_task file_size_mb i (envs i)) with
      | Raise e => Raise e
      | Ok r =>
          match gather file_size_mb envs rest with
          | Raise e => Raise e
          | Ok rs => Ok (r :: rs)
          end
      end
  end.

Definition run_workers (file_size_mb num_workers : nat) (envs : nat -> world)
  (completed : list nat) : result (list worker_result) :=
  match make_executor num_workers with
  | Raise e => Raise e
  | Ok _ => gather file_size_mb envs completed
  end.

End Client.

(** ** Statistics of [run_full_test] *)

Module Stats.

Definition Qltb (a b : Q) : bool := negb (Qle_bool b a).

(** [max(xs)]: raises on an empty sequence, otherwise keeps the first
    greatest element. *)
Definition py_max (xs : list Q) : result Q :=
  match xs with
  | [] => Raise "max() arg is an empty sequence"
  | x :: rest => Ok (fold_left (fun m y => if Qltb m y then y else m) rest x)
  end.

Definition sum (xs : list Z) : Z := fold_left Z.add xs 0%Z.

(** [r.get('upload', {}).get('success', False)] *)
Definition upload_ok (r : worker_result) : bool :=
  match upload r with
  | Some u => up_success u
  | None => false
  end.

(** [r.get('download', {}).get('success', False)] *)
Definition download_ok (r : worker_result) : bool :=
  match download r with
  | Some d => dl_success d
  | None => false
  end.

(** [r['upload']['bytes'] for r in all_results if <upload succeeded>] *)
Definition upload_bytes (all_results : list worker_result) : list Z :=
  flat_map (fun r => match upload r with
                     | Some u => if up_success u then [up_bytes u] else []
                     | None => []
                     end) all_results.

(** [r['download']['bytes'] for r in all_results if <download succeeded>] *)
Definition download_bytes (all_results : list worker_result) : list Z :=
  flat_map (fun r => match download r with
                     | Some (DownloadOk _ n _) => [n]
                     | _ => []
                     end) all_results.

(** [r['upload']['time'] for r in all_results if 'upload' in r] *)
Definition upload_times (all_results : list worker_result) : list Q :=
  flat_map (fun r => match upload r with
                     | Some u => [up_time u]
                     | None => []
                     end) all_results.

(** [r['download']['time'] for r in all_results
     if 'download' in r and r['download']['success']] *)
Definition download_times (all_results : list worker_result) : list Q :=
  flat_map (fun r => match download r with
                     | Some (DownloadOk t _ _) => [t]
                     | _ => []
                     end) all_results.

(** [total / max_time if max_time > 0 else 0] *)
Definition throughput_of (total : Z) (max_time : Q) : Q :=
  if Qltb 0 max_time then (inject_Z total / max_time)%Q else 0%Q.

Record phase_stats : Type := mkPhase {
  successful : nat;
  failed : Z;
  total_time : Q;
  throughput : Q;
  total_bytes : Z
}.

Record report : Type := mkReport {
  file_size_mb : nat;
  num_workers : nat;
  pool_type : string;
  upload_stats : phase_stats;
  download_stats : phase_stats
}.

(** The part of [run_full_test] below the comment "Calculate statistics". *)
Definition statistics (file_size_mb num_workers : nat)
  (use_process_pool : bool) (all_results : list worker_result)
  : result report :=
  let successful_uploads := List.length (filter upload_ok all_results) in
  let successful_downloads := List.length (filter download_ok all_results) in
  let total_upload_bytes := sum (upload_bytes all_results) in
  let total_download_bytes := sum (download_bytes all_results) in
  match py_max (upload_times all_results) with
  | Raise e => Raise e
  | Ok max_upload_time =>
      match py_max (download_times all_results) with
      | Raise e => Raise e
      | Ok max_download_time =>
          let avg_upload_throughput :=
            throughput_of total_upload_bytes max_upload_time in
          let avg_download_throughput :=
            throughput_of total_download_bytes max_download_time in
          Ok (mkReport file_size_mb num_workers
                (if use_process_pool then "Process" else "Thread")
                (mkPhase successful_uploads
                   (Z.of_nat num_workers - Z.of_nat successful_uploads)
                   max_upload_time avg_upload_throughput total_upload_bytes)
                (mkPhase successful_downloads
                   (Z.of_nat num_workers - Z.of_nat successful_downloads)
                   max_download_time avg_download_throughput
                   total_download_bytes))
      end
  end.

End Stats.

(** [run_full_test]: run the pool, then reduce its results. *)
Definition run_full_test (json_loads : string -> result json)
  (file_size_mb num_workers : nat) (use_process_pool : bool)
  (envs : nat -> world) (completed : list nat) : result Stats.report :=
  match run_workers json_loads file_size_mb num_workers envs completed with
  | Raise e => Raise e
  | Ok all_results =>
      Stats.statistics file_size_mb num_workers use_process_pool all_results
  end.

(** ** Auxiliary notions used to state the properties *)

(** What one exchange on an accepted connection produces inside the [try]
    block of [send_command]: the parsed response, or the exception. *)
Definition exchange (json_loads : string -> result json)
  (serve : string -> session) (command_str : string) : result json :=
  match serve command_str with
  | SendFails msg => Raise msg
  | Replies events =>
      match recv_loop events "" with
      | Raise msg => Raise msg
      | Ok data_received => json_loads data_received
      end
  end.

(** The text of the first [k] reads of a script, joined. *)
Fixpoint joined (events : list recv_event) : string :=
  match events with
  | [] => ""
  | RecvText data :: events' => data ++ joined events'
  | RecvRaise _ :: events' => joined events'
  end.

(** The peer has closed by read number [k] of a script: that read returns
    no data, or the script is over. *)
Definition peer_closed (events : list recv_event) (k : nat) : Prop :=
  nth_error events k = None \/ nth_error events k = Some (RecvText "").

(** [c not in s] for a single character [c]. *)
Fixpoint lacks (c : ascii) (s : string) : bool :=
  match s with
  | EmptyString => true
  | String x s' => negb (Ascii.eqb x c) && lacks c s'
  end.

(** A script delivering [s] one character per read. *)
Fixpoint one_by_one (s : string) : list recv_event :=
  match s with
  | EmptyString => []
  | String c s' => RecvText (String c EmptyString) :: one_by_one s'
  end.

(** What one turn of the receive loop makes of a chunk of bytes that [recv]
    returned: its text, or the exception of [data.decode()]; nothing when
    the text has a code point that [string] does not hold.  [received] does
    so for the chunks of a whole delivery. *)
Definition chunk_event (data : bytes) : option recv_event :=
  match Utf8.decode data with
  | Raise msg => Some (RecvRaise msg)
  | Ok points => option_map RecvText (Utf8.text_of points)
  end.

Fixpoint received (chunks : list bytes) : option (list recv_event) :=
  match chunks with
  | [] => Some []
  | data :: chunks' =>
      match chunk_event data, received chunks' with
      | Some e, Some es => Some (e :: es)
      | _, _ => None
      end
  end.

(** Pieces of text put together. *)
Fixpoint cat (pieces : list string) : string :=
  match pieces with
  | [] => EmptyString
  | p :: pieces' => p ++ cat pieces'
  end.

(** A server that answers every request with the given reads. *)
Definition replying (events : list recv_event) : nat -> conn :=
  fun _ => Accepted (fun _ => Replies events).

(** The JSON text of a list holding the one-character string [e-acute],
    whose UTF-8 form takes two bytes. *)
Definition accented : string :=
  "[" ++ String Py.double_quote
           (String (ascii_of_nat 233) (String Py.double_quote "]")).

(** The requests a call adds to the trace when it opens one connection in
    world [w] and writes [frame]: nothing when the connection is refused. *)
Definition written (w : world) (frame : string) : list string :=
  match net w (conns w) with
  | Refused _ => []
  | Accepted _ => [frame]
  end.

(** A parser for examples: it knows a few response texts. *)
Definition sample_loads (s : string) : result json :=
  if String.eqb s ("ok" ++ terminator) then Ok (JDict [("status", JStr "OK")])
  else if String.eqb s ("list" ++ terminator) then
    Ok (JDict [("status", JStr "OK");
               ("data", JList [JStr "testfile_0_0mb.dat"])])
  else if String.eqb s ("file" ++ terminator) then
    Ok (JDict [("status", JStr "OK"); ("data_file", JStr "")])
  else if String.eqb s ("cut" ++ terminator) then
    Ok (JDict [("status", JStr "OK"); ("data_file", JStr "A")])
  else if String.eqb s ("err" ++ terminator) then
    Ok (JDict [("status", JStr "ERROR"); ("data", JStr "File not found")])
  else Raise "Expecting value: line 1 column 1 (char 0)".

(** Worlds for examples: a fresh client with the given network and files. *)
Definition fresh_world (net : nat -> conn) (fs : string -> option bytes)
  : world :=
  mkWorld net 0 (fun n => inject_Z (Z.of_nat n)) 0 fs (fun _ => x00) 0 [].

Definition no_files : string -> option bytes := fun _ => None.

Definition unreachable : nat -> conn :=
  fun _ => Refused "[Errno 111] Connection refused".

(** A server that answers every request with the text [reply]. *)
Definition answering (reply : string) : nat -> conn :=
  fun _ => Accepted (fun _ => Replies [RecvText (reply ++ terminator)]).

(** A stub server for one workflow: it accepts the upload, lists the file and
    sends the (empty) file back one character at a time. *)
Definition stub_server : nat -> conn :=
  fun n => match n with
           | 0 => Accepted (fun _ => Replies [RecvText ("ok" ++ terminator)])
           | 1 => Accepted (fun _ => Replies [RecvText "li"; RecvText "st";
                                              RecvText terminator])
           | 2 => Accepted (fun _ => Replies (one_by_one ("file" ++ terminator)))
           | _ => Refused "[Errno 111] Connection refused"
           end.

(** Results for examples: a worker whose upload was answered with ERROR, and
    three workers that moved 10 MB each way in 1 s, 2 s and 1.5 s. *)
Definition failed_upload_result : worker_result :=
  mkResult 0
    (Some (mkUpload false 1 10485760
             (JDict [("status", JStr "ERROR"); ("data", JStr "disk full")])))
    (Some (DownloadFailed "Upload failed, skipping download"))
    None.

Definition success_result (id : nat) (seconds : Q) : worker_result :=
  mkResult id
    (Some (mkUpload true seconds 10485760 (JDict [("status", JStr "OK")])))
    (Some (DownloadOk seconds 10485760 true))
    None.

Definition three_successes : list worker_result :=
  [success_result 0 1; success_result 1 2; success_result 2 (3 # 2)].

(** ** Further notions used to state properties *)

(** Two phase statistics, respectively two reports, that say the same:
    counts and byte totals are equal, times and throughputs are equal as
    numbers. *)
Definition same_phase (p p' : Stats.phase_stats) : Prop :=
  Stats.successful p = Stats.successful p'
  /\ Stats.failed p = Stats.failed p'
  /\ Stats.total_bytes p = Stats.total_bytes p'
  /\ (Stats.total_time p == Stats.total_time p')%Q
  /\ (Stats.throughput p == Stats.throughput p')%Q.

Definition same_report (r r' : Stats.report) : Prop :=
  Stats.file_size_mb r = Stats.file_size_mb r'
  /\ Stats.num_workers r = Stats.num_workers r'
  /\ Stats.pool_type r = Stats.pool_type r'
  /\ same_phase (Stats.upload_stats r) (Stats.upload_stats r')
  /\ same_phase (Stats.download_stats r) (Stats.download_stats r').

(** For examples: a file system holding one file, a parser that also knows
    the response carrying the three bytes of "Man", and a server that accepts
    an upload, lists the file and sends those bytes back. *)
Definition one_file (name : string) (data : bytes) : string -> option bytes :=
  fun n => if String.eqb n name then Some data else None.

Definition man_loads (s : string) : result json :=
  if String.eqb s ("man" ++ terminator) then
    Ok (JDict [("status", JStr "OK"); ("data_file", JStr "TWFu")])
  else sample_loads s.

Definition man_server : nat -> conn :=
  fun n => match n with
           | 0 => Accepted (fun _ => Replies [RecvText ("ok" ++ terminator)])
           | 1 => Accepted (fun _ => Replies [RecvText ("list" ++ terminator)])
           | 2 => Accepted (fun _ => Replies [RecvText ("man" ++ terminator)])
           | _ => Refused "[Errno 111] Connection refused"
           end.

(** A server that accepts the upload and then answers with text that is not
    a response. *)
Definition garbling_server : nat -> conn :=
  fun n => match n with
           | 0 => Accepted (fun _ => Replies [RecvText ("ok" ++ terminator)])
           | _ => Accepted (fun _ => Replies [RecvText ("garbled" ++ terminator)])
           end.

(** ** [run_all_test.py]: the parser of the client's report

    Text is a sequence of characters with code points below 256; the [str]
    methods used by [parse_result] are written out on such text. *)

Module Text.

Local Open Scope N_scope.

(** [c.isspace()] for a character below 256. *)
Definition is_space (c : ascii) : bool :=
  let n := N_of_ascii c in
  ((9 <=? n) && (n <=? 13)) || ((28 <=? n) && (n <=? 32))
  || (n =? 133) || (n =? 160).

(** [c.lower()] for a character below 256. *)
Definition lower_char (c : ascii) : ascii :=
  let n := N_of_ascii c in
  if ((65 <=? n) && (n <=? 90))
     || ((192 <=? n) && (n <=? 222) && negb (n =? 215))
  then ascii_of_N (n + 32) else c.

Fixpoint lower (s : string) : string :=
  match s with
  | EmptyString => EmptyString
  | String c s' => String (lower_char c) (lower s')
  end.

Fixpoint mem (c : ascii) (chars : string) : bool :=
  match chars with
  | EmptyString => false
  | String x chars' => Ascii.eqb x c || mem c chars'
  end.

Fixpoint lstrip_by (p : ascii -> bool) (s : string) : string :=
  match s with
  | EmptyString => EmptyString
  | String c s' => if p c then lstrip_by p s' else s
  end.

Fixpoint rstrip_by (p : ascii -> bool) (s : string) : string :=
  match s with
  | EmptyString => EmptyString
  | String c s' =>
      match rstrip_by p s' with
      | EmptyString => if p c then EmptyString else String c EmptyString
      | r => String c r
      end
  end.

(** [s.strip()] and [s.strip(chars)] *)
Definition strip (s : string) : string :=
  rstrip_by is_space (lstrip_by is_space s).

Definition strip_chars (chars s : string) : string :=
  rstrip_by (fun c => mem c chars) (lstrip_by (fun c => mem c chars) s).

(** [s.startswith(p)] and [s.endswith(p)] *)
Definition startswith (p s : string) : bool := String.prefix p s.

Fixpoint endswith (p s : string) : bool :=
  if String.eqb p s then true
  else match s with
       | EmptyString => false
       | String _ s' => endswith p s'
       end.

(** [s.split(sep)] for a one-character separator: never an empty list. *)
Fixpoint split_on (sep : ascii) (s : string) : list string :=
  match s with
  | EmptyString => [EmptyString]
  | String c s' =>
      if Ascii.eqb c sep then EmptyString :: split_on sep s'
      else match split_on sep s' with
           | h :: t => String c h :: t
           | [] => [String c EmptyString]
           end
  end.

(** [s.split(sep, 1)] when [sep] occurs: the text before and after the
    first [sep]. *)
Fixpoint split_once (sep : ascii) (s : string) : option (string * string) :=
  match s with
  | EmptyString => None
  | String c s' =>
      if Ascii.eqb c sep then Some (EmptyString, s')
      else match split_once sep s' with
           | Some (a, b) => Some (String c a, b)
           | None => None
           end
  end.

(** The word that starts at the head of [s] (empty when [s] starts with
    white space) and the words after it. *)
Fixpoint words_from (s : string) : string * list string :=
  match s with
  | EmptyString => (EmptyString, [])
  | String c s' =>
      let '(w, ws) := words_from s' in
      if is_space c then
        (EmptyString, match w with EmptyString => ws | _ => w :: ws end)
      else (String c w, ws)
  end.

(** [s.split()] *)
Definition split_ws (s : string) : list string :=
  let '(w, ws) := words_from s in
  match w with
  | EmptyString => ws
  | _ => w :: ws
  end.

(** [s.replace(old, new)]: every occurrence, left to right, without
    overlap; [skip] counts the characters of a match still to be passed. *)
Fixpoint replace_from (old new : string) (skip : nat) (s : string) : string :=
  match s with
  | EmptyString => EmptyString
  | String c s' =>
      match skip with
      | S k => replace_from old new k s'
      | O =>
          if String.prefix old s
          then new ++ replace_from old new (Nat.pred (String.length old)) s'
          else String c (replace_from old new O s')
      end
  end.

Fixpoint interleave (new s : string) : string :=
  match s with
  | EmptyString => new
  | String c s' => new ++ String c (interleave new s')
  end.

Definition replace (old new s : string) : string :=
  match old with
  | EmptyString => interleave new s
  | _ => replace_from old new O s
  end.

End Text.

(** A [dict] with [str] keys and values, in insertion order. *)
Definition dict := list (string * string).

(** [d[key] = value] *)
Fixpoint dict_set (key value : string) (d : dict) : dict :=
  match d with
  | [] => [(key, value)]
  | (k, v) :: d' =>
      if String.eqb k key then (k, value) :: d'
      else (k, v) :: dict_set key value d'
  end.

(** [d.get(key, default)] *)
Fixpoint dict_get (key default : string) (d : dict) : string :=
  match d with
  | [] => default
  | (k, v) :: d' => if String.eqb k key then v else dict_get key default d'
  end.

Module Driver.

Definition key_mapping : list (string * string) :=
  [("total_time", "time_s");
   ("throughput", "throughput_mb_s");
   ("total_bytes", "total_bytes_mb")].

(** [for old, new in key_mapping.items(): if key.endswith(old): ...] *)
Definition map_key (key : string) : string :=
  fold_left (fun key on =>
               if Text.endswith (fst on) key
               then Text.replace (fst on) (snd on) key else key)
            key_mapping key.

Definition units : list string := ["MB/s"; "MB"; "seconds"].

(** "Clean numeric values" *)
Definition clean_value (value : string) : result string :=
  if existsb (fun unit => contains unit value) units then
    match Text.split_ws value with
    | first :: _ => Ok first
    | [] => Raise "list index out of range"
    end
  else Ok value.

(** The key under which a value is stored, given the current section. *)
Definition section_key (current_section : option string) (key : string)
  : string :=
  match current_section with
  | Some section =>
      if truthy section && negb (String.eqb section "stress_test_results")
      then section ++ "_" ++ key
      else key
  | None => key
  end.

(** One turn of the loop over the lines, on the pair of [current_section]
    and [result]. *)
Definition parse_line (st : option string * dict) (line : string)
  : result (option string * dict) :=
  let '(current_section, result) := st in
  let line := Text.strip line in
  if Text.startswith "===" line && Text.endswith "===" line then
    Ok (Some (Text.replace " " "_"
                (Text.lower (Text.strip (Text.strip_chars "= " line)))),
        result)
  else if contains ":" line then
    match Text.split_once ":" line with
    | None => Raise "not enough values to unpack (expected 2, got 1)"
    | Some (key, value) =>
        let key := Text.strip key in
        let value := Text.strip value in
        let key := Text.replace " " "_" (Text.lower key) in
        let key := map_key key in
        match clean_value value with
        | Raise e => Raise e
        | Ok value =>
            Ok (current_section,
                dict_set (section_key current_section key) value result)
        end
    end
  else Ok st.

Fixpoint parse_lines (st : option string * dict) (lines : list string)
  : result dict :=
  match lines with
  | [] => Ok (snd st)
  | line :: lines' =>
      match parse_line st line with
      | Raise e => Raise e
      | Ok st' => parse_lines st' lines'
      end
  end.

(** [parse_result(output)]; [output] is [None] or the client's stdout. *)
Definition parse_result (output : option string) : result dict :=
  match output with
  | None => Ok []
  | Some text =>
      if truthy text then parse_lines (None, []) (Text.split_on LF text)
      else Ok []
  end.

End Driver.

(** Notions used to state the properties of the parser. *)

(** The last character of [s] exists and is not removed by [p]. *)
Fixpoint ends_outside (p : ascii -> bool) (s : string) : bool :=
  match s with
  | EmptyString => false
  | String c EmptyString => negb (p c)
  | String _ s' => ends_outside p s'
  end.

(** The characters of a formatted number: digits, point and sign. *)
Definition numeral_char (c : ascii) : bool :=
  let n := N_of_ascii c in
  (((48 <=? n) && (n <=? 57)) || (n =? 46) || (n =? 45))%N.

Fixpoint numeral_chars (s : string) : bool :=
  match s with
  | EmptyString => true
  | String c s' => numeral_char c && numeral_chars s'
  end.

(** A formatted number: not empty, made of such characters. *)
Definition numeral (s : string) : bool := truthy s && numeral_chars s.

(** ** The report printed by the client

    The [print] calls at the end of [stress_test_client.py], as the text
    they write to standard output.  [fmt2] stands for the formatting of a
    float with [:.2f]. *)

Module Report.

(** [str(n)] for an [int]. *)
Definition str_of_Z (z : Z) : string := NilEmpty.string_of_int (Z.to_int z).

(** What the calls [print(s)] for the [s] of a list write, in order. *)
Fixpoint printed (args : list string) : string :=
  match args with
  | [] => EmptyString
  | s :: args' => s ++ String LF (printed args')
  end.

(** The prints of the head of the report and of one phase after its
    heading, given the formatted values. *)
Definition head_lines (file_size workers pool : string) : list string :=
  [ String LF "=== Stress Test Results ===";
    "File Size: " ++ file_size ++ " MB";
    "Workers: " ++ workers;
    "Pool Type: " ++ pool ].

Definition phase_lines
  (successful failed total_time throughput total_bytes : string)
  : list string :=
  [ "Successful: " ++ successful;
    "Failed: " ++ failed;
    "Total Time: " ++ total_time ++ " seconds";
    "Throughput: " ++ throughput ++ " MB/s";
    "Total Bytes: " ++ total_bytes ++ " MB" ].

Section Print.

Variable fmt2 : Q -> string.

Definition phase_prints (p : Stats.phase_stats) : list string :=
  phase_lines
    (str_of_nat (Stats.successful p))
    (str_of_Z (Stats.failed p))
    (fmt2 (Stats.total_time p))
    (fmt2 (Stats.throughput p / 1024 / 1024)%Q)
    (fmt2 (inject_Z (Stats.total_bytes p) / 1024 / 1024)%Q).

Definition print_report (rep : Stats.report) : string :=
  printed
    (List.app
       (head_lines (str_of_nat (Stats.file_size_mb rep))
          (str_of_nat (Stats.num_workers rep)) (Stats.pool_type rep))
       (String LF "=== Upload Statistics ==="
        :: List.app (phase_prints (Stats.upload_stats rep))
             (String LF "=== Download Statistics ==="
              :: phase_prints (Stats.download_stats rep)))).

End Print.

End Report.

(** The statistics columns of the CSV row that [main] builds from the parsed
    report. *)
Definition row_statistics (result : dict) : dict :=
  [ ("pool_type", dict_get "pool_type" "thread" result);
    ("upload_successful", dict_get "upload_statistics_successful" "" result);
    ("upload_failed", dict_get "upload_statistics_failed" "" result);
    ("upload_time_s", dict_get "upload_statistics_time_s" "" result);
    ("upload_throughput_mb_s",
     dict_get "upload_statistics_throughput_mb_s" "" result);
    ("upload_total_bytes_mb",
     dict_get "upload_statistics_total_bytes_mb" "" result);
    ("download_successful",
     dict_get "download_statistics_successful" "" result);
    ("download_failed", dict_get "download_statistics_failed" "" result);
    ("download_time_s", dict_get "download_statistics_time_s" "" result);
    ("download_throughput_mb_s",
     dict_get "download_statistics_throughput_mb_s" "" result);
    ("download_total_bytes_mb",
     dict_get "download_statistics_total_bytes_mb" "" result) ].

(** A label of a report line: it starts with a character that is neither
    white space nor [=], ends with one that is not white space, and has no
    colon. *)
Definition label_ok (label : string) : bool :=
  match label with
  | EmptyString => false
  | String c _ => negb (Text.is_space c) && negb (Ascii.eqb c "=")
  end
  && ends_outside Text.is_space label
  && lacks ":" label.

(** A formatter for examples: two decimals, towards zero, of a value that is
    not negative. *)
Definition fmt2_sample (q : Q) : string :=
  let cents := (Qnum (q * 100) / Z.pos (Qden (q * 100)))%Z in
  Report.str_of_Z (cents / 100) ++ "."
  ++ str_of_nat (Z.to_nat ((cents / 10) mod 10))
  ++ str_of_nat (Z.to_nat (cents mod 10)).

(** The same with one decimal. *)
Definition fmt1_sample (q : Q) : string :=
  let tenths := (Qnum (q * 10) / Z.pos (Qden (q * 10)))%Z in
  Report.str_of_Z (tenths / 10) ++ "."
  ++ str_of_nat (Z.to_nat (tenths mod 10)).

(** ** [run_all_test.py]: the test matrix

    The driver acts on processes, the clock and a CSV file.  Whether a
    command can be launched, what a process that ran printed, whether the
    server is alive when polled and what the clock reads are scripted;
    [dtrace] records what the driver did.  A CSV record is the list of its
    cells, before quoting; the file is taken to have been opened, and
    printing, sleeping and stopping a server are taken not to raise. *)

Module Matrix.

Inductive devent : Type :=
| DPrint (text : string)
| DRun (cmd : list string)
| DPopen (cmd : list string)
| DTerminate
| DWait
| DSleep (seconds : nat)
| DWriteRecord (cells : list string).

Record dworld : Type := mkDworld {
  launch_error : nat -> list string -> option string;
  stdout_of : nat -> string;
  launches : nat;
  server_alive : nat -> bool;
  polls : nat;
  now : nat -> Q;
  reads : nat;
  dtrace : list devent
}.

Definition log (e : list devent) (w : dworld) : dworld :=
  mkDworld (launch_error w) (stdout_of w) (launches w) (server_alive w)
           (polls w) (now w) (reads w) (dtrace w ++ e).

Definition launched (w : dworld) : dworld :=
  mkDworld (launch_error w) (stdout_of w) (S (launches w)) (server_alive w)
           (polls w) (now w) (reads w) (dtrace w).

Definition act (e : devent) : M dworld unit := modify (log [e]).

(** [time.time()] *)
Definition time_time : M dworld Q :=
  fun w => (Ok (now w (reads w)),
            mkDworld (launch_error w) (stdout_of w) (launches w)
                     (server_alive w) (polls w) (now w) (S (reads w))
                     (dtrace w)).

(** [server_proc.poll() is None] *)
Definition poll_is_none : M dworld bool :=
  fun w => (Ok (server_alive w (polls w)),
            mkDworld (launch_error w) (stdout_of w) (launches w)
                     (server_alive w) (S (polls w)) (now w) (reads w)
                     (dtrace w)).

(** [subprocess.run(cmd, capture_output=True, text=True).stdout]; launching
    the command may raise. *)
Definition subprocess_run (cmd : list string) : M dworld string :=
  fun w =>
    match launch_error w (launches w) cmd with
    | Some e => (Raise e, launched w)
    | None => (Ok (stdout_of w (launches w)), log [DRun cmd] (launched w))
    end.

(** [subprocess.Popen(cmd)] *)
Definition subprocess_Popen (cmd : list string) : M dworld unit :=
  fun w =>
    match launch_error w (launches w) cmd with
    | Some e => (Raise e, launched w)
    | None => (Ok tt, log [DPopen cmd] (launched w))
    end.

(** [csv.DictWriter(csvfile, fieldnames).writerow(rowdict)]: a key outside
    [fieldnames] raises [ValueError]; a field without a key is left empty. *)
Definition writerow (fieldnames : list string) (rowdict : dict)
  : M dworld unit :=
  match filter (fun k => negb (existsb (String.eqb k) fieldnames))
          (map fst rowdict) with
  | [] => act (DWriteRecord (map (fun k => dict_get k "" rowdict) fieldnames))
  | wrong =>
      raise ("dict contains fields not in fieldnames: "
             ++ String.concat ", " (map (fun k => "'" ++ k ++ "'") wrong))
  end.

Local Open Scope monad_scope.

Definition server_cmd (server_type : string) (workers : nat) : list string :=
  if String.eqb server_type "thread"
  then ["python3"; "file_server_threadpool.py"; str_of_nat workers]
  else ["python3"; "file_server_processpool.py"; str_of_nat workers].

Definition start_server (server_type : string) (workers : nat)
  : M dworld unit :=
  subprocess_Popen (server_cmd server_type workers).

Definition client_cmd (server_address : string) (file_size workers : nat)
  (use_process_pool : bool) : list string :=
  let cmd :=
    ["python3"; "stress_test_client.py";
     "--server"; server_address;
     "--file-size"; str_of_nat file_size;
     "--workers"; str_of_nat workers] in
  if use_process_pool then List.app cmd ["--use-process-pool"] else cmd.

Definition run_client_test (server_address : string) (file_size workers : nat)
  (use_process_pool : bool) : M dworld (option string) :=
  try_except
    (stdout <- subprocess_run
                 (client_cmd server_address file_size workers
                    use_process_pool) ;;
     ret (Some stdout))
    (fun e => act (DPrint ("Client test failed: " ++ e)) ;;; ret None).

Definition test_configs : list (nat * nat) :=
  [(10, 1); (10, 5); (10, 50);
   (50, 1); (50, 5); (50, 50);
   (100, 1); (100, 5); (100, 50)].

Definition server_types : list string := ["thread"; "process"].

Definition server_workers : list nat := [1; 5; 50].

(** [itertools.product(xs, ys)] *)
Definition product {A B} (xs : list A) (ys : list B) : list (A * B) :=
  flat_map (fun x => map (fun y => (x, y)) ys) xs.

Definition fieldnames : list string :=
  ["test_case"; "file_size_mb"; "client_workers"; "server_type";
   "server_workers"; "pool_type";
   "upload_successful"; "upload_failed"; "upload_time_s";
   "upload_throughput_mb_s"; "upload_total_bytes_mb";
   "download_successful"; "download_failed"; "download_time_s";
   "download_throughput_mb_s"; "download_total_bytes_mb";
   "server_status"; "notes"].

Definition pkill_cmd : list string := ["pkill"; "-f"; "file_server"].

(** The first five entries of a row. *)
Definition case_entries (test_num file_size c_workers : nat) (s_type : string)
  (s_workers : nat) : dict :=
  [("test_case", str_of_nat test_num);
   ("file_size_mb", str_of_nat file_size);
   ("client_workers", str_of_nat c_workers);
   ("server_type", s_type);
   ("server_workers", str_of_nat s_workers)].

Section Main.

Variable fmt1 : Q -> string.

(** The branch [if not output]. *)
Definition no_output (elapsed : Q) (test_num file_size c_workers : nat)
  (s_type : string) (s_workers : nat) : M dworld nat :=
  act (DPrint ("Test failed after " ++ fmt1 elapsed ++ "s")) ;;;
  writerow fieldnames
    (List.app (case_entries test_num file_size c_workers s_type s_workers)
       [("notes", "Test failed - no output")]) ;;;
  ret (S test_num).

(** The [try] block of one test case; it yields the next [test_num]. *)
Definition case_body (test_num file_size c_workers : nat) (s_type : string)
  (s_workers : nat) : M dworld nat :=
  start_time <- time_time ;;
  output <- run_client_test "localhost:6666" file_size c_workers false ;;
  end_time <- time_time ;;
  let elapsed := (end_time - start_time)%Q in
  match output with
  | Some text =>
      if truthy text then
        result <- lift_result (Driver.parse_result output) ;;
        alive <- poll_is_none ;;
        let row :=
          List.app (case_entries test_num file_size c_workers s_type s_workers)
            (List.app (row_statistics result)
               [("server_status", if alive then "Running" else "Crashed");
                ("notes", "Completed in " ++ fmt1 elapsed ++ "s")]) in
        writerow fieldnames row ;;;
        act (DPrint ("Test completed in " ++ fmt1 elapsed ++ " seconds")) ;;;
        ret (S test_num)
      else no_output elapsed test_num file_size c_workers s_type s_workers
  | None => no_output elapsed test_num file_size c_workers s_type s_workers
  end.

(** The handler of [except Exception as e]. *)
Definition case_handler (test_num : nat) (e : string) : M dworld nat :=
  act (DPrint ("Error during test case " ++ str_of_nat test_num ++ ": " ++ e)) ;;;
  writerow fieldnames
    [("test_case", str_of_nat test_num); ("notes", "Error: " ++ e)] ;;;
  ret (S test_num).

(** The [finally] block. *)
Definition case_cleanup : dworld -> dworld := log [DTerminate; DWait; DSleep 1].

(** One turn of the inner loop. *)
Definition one_case (test_num : nat) (case : (nat * nat) * (string * nat))
  : M dworld nat :=
  let '((file_size, c_workers), (s_type, s_workers)) := case in
  act (DPrint (String LF ("=== Test Case " ++ str_of_nat test_num ++ " ==="))) ;;;
  act (DPrint ("File: " ++ str_of_nat file_size ++ "MB | Clients: "
                ++ str_of_nat c_workers)) ;;;
  act (DPrint ("Server: " ++ s_type ++ " (" ++ str_of_nat s_workers
                ++ " workers)")) ;;;
  subprocess_run pkill_cmd ;;;
  act (DSleep 1) ;;;
  start_server s_type s_workers ;;;
  act (DSleep 2) ;;;
  try_finally
    (try_except
       (case_body test_num file_size c_workers s_type s_workers)
       (case_handler test_num))
    case_cleanup.

(** The two nested loops, over the cases in order. *)
Fixpoint run_cases (test_num : nat) (cases : list ((nat * nat) * (string * nat)))
  : M dworld nat :=
  match cases with
  | [] => ret test_num
  | case :: cases' =>
      next <- one_case test_num case ;;
      run_cases next cases'
  end.

Definition matrix : list ((nat * nat) * (string * nat)) :=
  product test_configs (product server_types server_workers).

(** [main()]; it yields the last value of [test_num]. *)
Definition main : M dworld nat :=
  act (DWriteRecord fieldnames) ;;;
  run_cases 1 matrix.

End Main.

(** The records written to the CSV file, and the starts and stops of
    servers, in a trace. *)
Fixpoint records (tr : list devent) : list (list string) :=
  match tr with
  | [] => []
  | DWriteRecord cells :: tr' => cells :: records tr'
  | _ :: tr' => records tr'
  end.

Fixpoint server_events (tr : list devent) : list devent :=
  match tr with
  | [] => []
  | DPopen cmd :: tr' => DPopen cmd :: server_events tr'
  | DTerminate :: tr' => DTerminate :: server_events tr'
  | _ :: tr' => server_events tr'
  end.

(** From [w] to [w'] the trace grew by [mid], and what can be launched is
    the same. *)
Definition extends (w w' : dworld) (mid : list devent) : Prop :=
  launch_error w' = launch_error w /\ dtrace w' = List.app (dtrace w) mid.

(** The first five cells of the row of a numbered case, and the starts and
    stops of servers that a case run to its end leaves in the trace. *)
Definition case_cells (numbered : nat * ((nat * nat) * (string * nat)))
  : list string :=
  let '(test_num, ((file_size, c_workers), (s_type, s_workers))) := numbered in
  map snd (case_entries test_num file_size c_workers s_type s_workers).

Definition server_span (case : (nat * nat) * (string * nat)) : list devent :=
  let '(_, (s_type, s_workers)) := case in
  [DPopen (server_cmd s_type s_workers); DTerminate].

(** Every launch of [cmd] succeeds. *)
Definition launchable (w : dworld) (cmd : list string) : Prop :=
  forall n, launch_error w n cmd = None.

(** A world for examples: every command starts, every client prints
    nothing, the server stays alive, the clock advances by one second per
    reading. *)
Definition quiet_world : dworld :=
  mkDworld (fun _ _ => None) (fun _ => EmptyString) 0 (fun _ => true) 0
           (fun n => inject_Z (Z.of_nat n)) 0 [].

(** A world for examples where every client prints the report of one
    worker that uploaded and downloaded 10 MB in two seconds each. *)
Definition report_world : dworld :=
  mkDworld (fun _ _ => None)
           (fun _ =>
              match Stats.statistics 10 1 false [success_result 0 2] with
              | Ok rep => Report.print_report fmt2_sample rep
              | Raise _ => EmptyString
              end)
           0 (fun _ => true) 0 (fun n => inject_Z (Z.of_nat n)) 0 [].

End Matrix.

(** * Properties *)

(** ** Base64 *)

Module Base64Facts.

Import Base64.
Local Open Scope N_scope.

Lemma below_check (n : nat) (P : N -> bool) :
  forallb P (map N.of_nat (seq 0 n)) = true ->
  forall x, x < N.of_nat n -> P x = true.
Proof.
  intros Hall x Hx.
  rewrite forallb_forall in Hall. apply Hall.
  rewrite <- (N2Nat.id x). apply in_map. apply in_seq. lia.
Qed.

Lemma below_check2 (n m : nat) (P : N -> N -> bool) :
  forallb (fun x => forallb (P x) (map N.of_nat (seq 0 m)))
          (map N.of_nat (seq 0 n)) = true ->
  forall x y, x < N.of_nat n -> y < N.of_nat m -> P x y = true.
Proof.
  intros Hall x y Hx Hy.
  apply (below_check m (P x)); [|exact Hy].
  apply (below_check n (fun x => forallb (P x) (map N.of_nat (seq 0 m))));
    assumption.
Qed.

Lemma sextet_ok_all s : s < 64 ->
  (match a2b (b2a s) with
   | Some v => v =? s
   | None => false
   end && negb (Ascii.eqb (b2a s) pad) && is_ascii (b2a s))%bool = true.
Proof.
  apply (below_check 64
           (fun s => match a2b (b2a s) with
                     | Some v => v =? s
                     | None => false
                     end && negb (Ascii.eqb (b2a s) pad) && is_ascii (b2a s))%bool).
  vm_compute. reflexivity.
Qed.

Lemma a2b_b2a s : s < 64 -> a2b (b2a s) = Some s.
Proof.
  intros H. apply sextet_ok_all in H.
  apply andb_prop in H as [H _]. apply andb_prop in H as [H _].
  destruct (a2b (b2a s)); [|discriminate].
  apply N.eqb_eq in H. now subst.
Qed.

Lemma b2a_not_pad s : s < 64 -> Ascii.eqb (b2a s) pad = false.
Proof.
  intros H. apply sextet_ok_all in H.
  apply andb_prop in H as [H _]. apply andb_prop in H as [_ H].
  now apply negb_true_iff in H.
Qed.

Lemma b2a_ascii s : s < 64 -> is_ascii (b2a s) = true.
Proof.
  intros H. apply sextet_ok_all in H.
  now apply andb_prop in H as [_ H].
Qed.

Lemma to_N_below a : Byte.to_N a < 256.
Proof. pose proof (Byte.to_N_bounded a). lia. Qed.

Lemma byte_of_to_N a : byte_of_N (Byte.to_N a) = a.
Proof.
  unfold byte_of_N. rewrite N.mod_small by apply to_N_below.
  now rewrite Byte.of_to_N.
Qed.

(** Ranges of the four sextets cut from three bytes. *)
Lemma sextet0_below x : x < 256 -> sextet0 x < 64.
Proof.
  intros H. apply N.ltb_lt.
  apply (below_check 256 (fun x => sextet0 x <? 64)); [now vm_compute|exact H].
Qed.

Lemma sextet1_below x y : x < 256 -> y < 256 -> sextet1 x y < 64.
Proof.
  intros Hx Hy. apply N.ltb_lt.
  apply (below_check2 256 256 (fun x y => sextet1 x y <? 64));
    [now vm_compute|exact Hx|exact Hy].
Qed.

Lemma sextet2_below x y : x < 256 -> y < 256 -> sextet2 x y < 64.
Proof.
  intros Hx Hy. apply N.ltb_lt.
  apply (below_check2 256 256 (fun x y => sextet2 x y <? 64));
    [now vm_compute|exact Hx|exact Hy].
Qed.

Lemma sextet3_below x : x < 256 -> sextet3 x < 64.
Proof.
  intros H. apply N.ltb_lt.
  apply (below_check 256 (fun x => sextet3 x <? 64)); [now vm_compute|exact H].
Qed.

(** The scanner's three writes put the bytes back together. *)
Lemma join0 x y : x < 256 -> y < 256 ->
  N.lor (N.shiftl (sextet0 x) 2) (N.shiftr (sextet1 x y) 4) = x.
Proof.
  intros Hx Hy. apply N.eqb_eq.
  apply (below_check2 256 256
           (fun x y => N.lor (N.shiftl (sextet0 x) 2)
                             (N.shiftr (sextet1 x y) 4) =? x));
    [now vm_compute|exact Hx|exact Hy].
Qed.

Lemma join1 x y z : x < 256 -> y < 256 -> z < 256 ->
  N.lor (N.shiftl (N.land (sextet1 x y) 15) 4) (N.shiftr (sextet2 y z) 2) = y.
Proof.
  intros Hx Hy Hz.
  assert (H1 : N.land (sextet1 x y) 15 = N.shiftr y 4).
  { apply N.eqb_eq.
    apply (below_check2 256 256
             (fun x y => N.land (sextet1 x y) 15 =? N.shiftr y 4));
      [now vm_compute|exact Hx|exact Hy]. }
  rewrite H1. apply N.eqb_eq.
  apply (below_check2 256 256
           (fun y z => N.lor (N.shiftl (N.shiftr y 4) 4)
                             (N.shiftr (sextet2 y z) 2) =? y));
    [now vm_compute|exact Hy|exact Hz].
Qed.

Lemma join2 y z : y < 256 -> z < 256 ->
  N.lor (N.shiftl (N.land (sextet2 y z) 3) 6) (sextet3 z) = z.
Proof.
  intros Hy Hz. apply N.eqb_eq.
  apply (below_check2 256 256
           (fun y z => N.lor (N.shiftl (N.land (sextet2 y z) 3) 6)
                             (sextet3 z) =? z));
    [now vm_compute|exact Hy|exact Hz].
Qed.

(** One data character moves the scanner by one position in the quad. *)
Lemma scan_data0 s rest l p n : s < 64 ->
  a2b_loop (String (b2a s) rest) 0 l p n = a2b_loop rest 1 s 0 n.
Proof.
  intros H. cbn [a2b_loop].
  rewrite (b2a_not_pad s H), (a2b_b2a s H). reflexivity.
Qed.

Lemma scan_data1 s rest l p n : s < 64 ->
  a2b_loop (String (b2a s) rest) 1 l p n =
  emit (byte_of_N (N.lor (N.shiftl l 2) (N.shiftr s 4)))
       (a2b_loop rest 2 (N.land s 15) 0 (n + 1)).
Proof.
  intros H. cbn [a2b_loop].
  rewrite (b2a_not_pad s H), (a2b_b2a s H). reflexivity.
Qed.

Lemma scan_data2 s rest l p n : s < 64 ->
  a2b_loop (String (b2a s) rest) 2 l p n =
  emit (byte_of_N (N.lor (N.shiftl l 4) (N.shiftr s 2)))
       (a2b_loop rest 3 (N.land s 3) 0 (n + 1)).
Proof.
  intros H. cbn [a2b_loop].
  rewrite (b2a_not_pad s H), (a2b_b2a s H). reflexivity.
Qed.

Lemma scan_data3 s rest l p n : s < 64 ->
  a2b_loop (String (b2a s) rest) 3 l p n =
  emit (byte_of_N (N.lor (N.shiftl l 6) s)) (a2b_loop rest 0 0 0 (n + 1)).
Proof.
  intros H. cbn [a2b_loop].
  rewrite (b2a_not_pad s H), (a2b_b2a s H). reflexivity.
Qed.

(** Induction over a byte sequence three bytes at a time. *)
Lemma bytes_ind3 (P : bytes -> Prop) :
  P [] -> (forall a, P [a]) -> (forall a b, P [a; b]) ->
  (forall a b c rest, P rest -> P (a :: b :: c :: rest)) ->
  forall bs, P bs.
Proof.
  intros H0 H1 H2 H3. fix IH 1.
  intros [|a [|b [|c rest]]].
  - exact H0.
  - apply H1.
  - apply H2.
  - apply H3. apply IH.
Qed.

Lemma scan_encoded bs : forall l p n, a2b_loop (b64encode bs) 0 l p n = Ok bs.
Proof.
  induction bs as [|a|a b|a b c rest IH] using bytes_ind3; intros l p n.
  - reflexivity.
  - pose proof (to_N_below a) as Ha.
    cbn [b64encode].
    rewrite scan_data0 by now apply sextet0_below.
    rewrite scan_data1 by (apply sextet1_below; [exact Ha|reflexivity]).
    rewrite join0 by (exact Ha || reflexivity).
    rewrite byte_of_to_N. reflexivity.
  - pose proof (to_N_below a) as Ha. pose proof (to_N_below b) as Hb.
    cbn [b64encode].
    rewrite scan_data0 by now apply sextet0_below.
    rewrite scan_data1 by now apply sextet1_below.
    rewrite scan_data2 by (apply sextet2_below; [exact Hb|reflexivity]).
    rewrite join0 by assumption.
    rewrite (join1 _ _ 0) by (assumption || reflexivity).
    rewrite !byte_of_to_N. reflexivity.
  - pose proof (to_N_below a) as Ha. pose proof (to_N_below b) as Hb.
    pose proof (to_N_below c) as Hc.
    cbn [b64encode].
    rewrite scan_data0 by now apply sextet0_below.
    rewrite scan_data1 by now apply sextet1_below.
    rewrite scan_data2 by now apply sextet2_below.
    rewrite scan_data3 by now apply sextet3_below.
    rewrite join0, join1, join2 by assumption.
    rewrite !byte_of_to_N, IH. reflexivity.
Qed.

Lemma encoded_all_ascii bs : all_ascii (b64encode bs) = true.
Proof.
  induction bs as [|a|a b|a b c rest IH] using bytes_ind3.
  - reflexivity.
  - pose proof (to_N_below a) as Ha.
    cbn [b64encode all_ascii].
    rewrite !b2a_ascii;
      [reflexivity | apply sextet1_below; [exact Ha|reflexivity]
      | now apply sextet0_below].
  - pose proof (to_N_below a) as Ha. pose proof (to_N_below b) as Hb.
    cbn [b64encode all_ascii].
    rewrite !b2a_ascii;
      [reflexivity | apply sextet2_below; [exact Hb|reflexivity]
      | now apply sextet1_below | now apply sextet0_below].
  - pose proof (to_N_below a) as Ha. pose proof (to_N_below b) as Hb.
    pose proof (to_N_below c) as Hc.
    cbn [b64encode all_ascii].
    rewrite !b2a_ascii;
      [rewrite IH; reflexivity | now apply sextet3_below
      | now apply sextet2_below | now apply sextet1_below
      | now apply sextet0_below].
Qed.

Lemma b64decode_b64encode bs : b64decode (b64encode bs) = Ok bs.
Proof.
  unfold b64decode. rewrite encoded_all_ascii. apply scan_encoded.
Qed.

(** The codec on the usual test vector, and the scanner's leniency. *)
Example b64encode_vectors :
  b64encode [x4d; x61; x6e] = "TWFu"
  /\ b64encode [x4d; x61] = "TWE="
  /\ b64encode [x4d] = "TQ=="
  /\ b64encode [] = "".
Proof. repeat split. Qed.

Example b64decode_vectors :
  b64decode "TWFu" = Ok [x4d; x61; x6e]
  /\ b64decode "TWE=" = Ok [x4d; x61]
  /\ b64decode "T W-Fu" = Ok [x4d; x61; x6e]
  /\ b64decode "TQ==TWFu" = Ok [x4d]
  /\ b64decode "A"
     = Raise "Invalid base64-encoded string: number of data characters (1) cannot be 1 more than a multiple of 4"
  /\ b64decode "TWFuTWFuQ"
     = Raise "Invalid base64-encoded string: number of data characters (9) cannot be 1 more than a multiple of 4"
  /\ b64decode "TWE" = Raise "Incorrect padding"
  /\ b64decode "TQ=" = Raise "Incorrect padding".
Proof. repeat split. Qed.

End Base64Facts.

(** ** Transport *)

Section TransportFacts.

Variable json_loads : string -> result json.

Lemma send_command_refused command_str w msg :
  net w (conns w) = Refused msg ->
  send_command json_loads command_str w =
  (Raise msg, log_event EvConnect (next_conn w)).
Proof.
  intros H. unfold send_command, bind, Sys.sock_connect.
  rewrite H. reflexivity.
Qed.

Lemma send_command_accepted command_str w serve :
  net w (conns w) = Accepted serve ->
  send_command json_loads command_str w =
  let w1 := log_event (EvSendall command_str)
              (log_event EvConnect (next_conn w)) in
  match exchange json_loads serve command_str with
  | Ok hasil => (Ok hasil, log_event EvClose w1)
  | Raise e =>
      (Ok (error_response e),
       log_event EvClose (log_event (EvLog ("Error: " ++ e)) w1))
  end.
Proof.
  intros H.
  unfold send_command, bind, try_finally, try_except, exchange,
    Sys.sock_connect, Sys.sock_sendall, lift_result, ret,
    Sys.logging_error, modify, Sys.sock_close.
  rewrite H.
  destruct (serve command_str) as [msg|events]; [reflexivity|].
  destruct (recv_loop events "") as [buf|msg]; [|reflexivity].
  destruct (json_loads buf); reflexivity.
Qed.

Lemma requests_app tr1 tr2 :
  requests (tr1 ++ tr2) = (requests tr1 ++ requests tr2)%list.
Proof.
  induction tr1 as [|e tr1 IH]; [reflexivity|].
  destruct e; simpl; now rewrite IH.
Qed.

Lemma connections_app tr1 tr2 :
  connections (tr1 ++ tr2) = connections tr1 + connections tr2.
Proof.
  induction tr1 as [|e tr1 IH]; [reflexivity|].
  destruct e; simpl; now rewrite IH.
Qed.

(** What a call of [send_command] adds to the trace. *)
Lemma send_command_requests command_str w :
  requests (trace (snd (send_command json_loads command_str w))) =
  (requests (trace w) ++
   match net w (conns w) with
   | Refused _ => []
   | Accepted _ => [command_str]
   end)%list.
Proof.
  destruct (net w (conns w)) as [msg|serve] eqn:H.
  - rewrite (send_command_refused _ _ _ H). simpl.
    rewrite requests_app. reflexivity.
  - rewrite (send_command_accepted _ _ _ H). cbv zeta.
    destruct (exchange json_loads serve command_str); simpl;
      rewrite !requests_app; simpl; rewrite <- !app_assoc; reflexivity.
Qed.

Lemma send_command_connections command_str w :
  connections (trace (snd (send_command json_loads command_str w))) =
  S (connections (trace w)).
Proof.
  destruct (net w (conns w)) as [msg|serve] eqn:H.
  - rewrite (send_command_refused _ _ _ H). simpl.
    rewrite connections_app. simpl. lia.
  - rewrite (send_command_accepted _ _ _ H). cbv zeta.
    destruct (exchange json_loads serve command_str); simpl;
      rewrite !connections_app; simpl; lia.
Qed.

(** The value of a call: the exception of a refused connection, else the
    response of the exchange or the error response made from its exception. *)
Lemma send_command_result command_str w :
  fst (send_command json_loads command_str w) =
  match net w (conns w) with
  | Refused msg => Raise msg
  | Accepted serve =>
      match exchange json_loads serve command_str with
      | Ok hasil => Ok hasil
      | Raise e => Ok (error_response e)
      end
  end.
Proof.
  destruct (net w (conns w)) as [msg|serve] eqn:H.
  - now rewrite (send_command_refused _ _ _ H).
  - rewrite (send_command_accepted _ _ _ H). cbv zeta.
    destruct (exchange json_loads serve command_str); reflexivity.
Qed.

End TransportFacts.

(** ** Protocol client *)

Section ClientFacts.

Variable json_loads : string -> result json.

Lemma remote_get_trace filename w :
  trace (snd (remote_get json_loads filename w)) =
  trace (snd (send_command json_loads ("GET " ++ filename ++ CRLF ++ CRLF) w)).
Proof.
  unfold remote_get, bind, lift_result, ret.
  destruct (send_command json_loads _ w) as [[hasil|e] w']; [|reflexivity].
  destruct (Py.getitem hasil "status") as [status|e]; [|reflexivity].
  destruct (Py.eq_str status "OK"); [|reflexivity].
  destruct (Py.getitem hasil "data_file") as [df|e]; [|reflexivity].
  destruct (Py.b64decode df); reflexivity.
Qed.

(** C9.  The request frames are exactly [LIST\r\n\r\n] for list,
    [GET <f>\r\n\r\n] for fetch and [UPLOAD <f>\r\n<base64(p)>\r\n\r\n] for
    store: each call writes that one frame, and nothing else, on the
    connection it opens. *)
Theorem request_frames (f : string) (p : bytes) (w : world) :
  requests (trace (snd (remote_list json_loads w))) =
    (requests (trace w) ++ written w ("LIST" ++ CRLF ++ CRLF))%list
  /\ requests (trace (snd (remote_get json_loads f w))) =
    (requests (trace w) ++ written w ("GET " ++ f ++ CRLF ++ CRLF))%list
  /\ requests (trace (snd (remote_upload json_loads f (Some p) w))) =
    (requests (trace w)
     ++ written w ("UPLOAD " ++ f ++ CRLF ++ Base64.b64encode p
                   ++ CRLF ++ CRLF))%list.
Proof.
  repeat split.
  - unfold remote_list. apply send_command_requests.
  - rewrite remote_get_trace. apply send_command_requests.
  - unfold remote_upload. apply send_command_requests.
Qed.

(** C1.  The payload of a store command is reversible byte for byte: the
    payload line that [remote_upload] puts on the wire for [B] is
    [b64encode B], and decoding that text, as [remote_get] decodes the
    [data_file] of a response, gives back exactly [B]. *)
Theorem store_payload_round_trip (filename : string) (B : bytes) (w : world) :
  requests (trace (snd (remote_upload json_loads filename (Some B) w))) =
    (requests (trace w)
     ++ written w ("UPLOAD " ++ filename ++ CRLF ++ Base64.b64encode B
                   ++ CRLF ++ CRLF))%list
  /\ Base64.b64decode (Base64.b64encode B) = Ok B
  /\ Py.b64decode (JStr (Base64.b64encode B)) = Ok B.
Proof.
  repeat split.
  - unfold remote_upload. apply send_command_requests.
  - apply Base64Facts.b64decode_b64encode.
  - apply Base64Facts.b64decode_b64encode.
Qed.


End ClientFacts.

(** ** Receiving a frame *)

Lemma append_nil_r (s : string) : s ++ "" = s.
Proof. induction s as [|c s IH]; [reflexivity|]. simpl. now rewrite IH. Qed.

Lemma append_assoc (a b c : string) : (a ++ b) ++ c = a ++ (b ++ c).
Proof. induction a as [|x a IH]; [reflexivity|]. simpl. now rewrite IH. Qed.

Lemma truthy_false (s : string) : truthy s = false -> s = "".
Proof. destruct s; [reflexivity|discriminate]. Qed.

(** The receive loop started with [acc] in the buffer: it stops after [k]
    reads, all of them non-empty text, with the buffer holding [acc] and
    that text; it stops because the terminator is in the buffer or because
    the peer has closed, and no earlier buffer held the terminator. *)
Lemma recv_loop_stops events : forall acc buf,
  recv_loop events acc = Ok buf ->
  exists k,
    buf = acc ++ joined (firstn k events)
    /\ (contains terminator buf = true \/ peer_closed events k)
    /\ (forall j, j < k ->
          exists data, nth_error events j = Some (RecvText data)
                       /\ truthy data = true)
    /\ (forall j, 0 < j < k ->
          contains terminator (acc ++ joined (firstn j events)) = false).
Proof.
  induction events as [|e events IH]; intros acc buf H.
  - inversion H; subst. exists 0. simpl. rewrite append_nil_r.
    repeat split; try (intros; lia). right. left. reflexivity.
  - destruct e as [data|msg]; [|discriminate].
    cbn [recv_loop] in H.
    destruct (truthy data) eqn:Hd.
    + destruct (contains terminator (acc ++ data)) eqn:Ht.
      * inversion H; subst. exists 1. simpl. rewrite append_nil_r.
        repeat split; try (intros; lia).
        -- left. exact Ht.
        -- intros j Hj. assert (j = 0) by lia. subst. exists data. now split.
      * apply IH in H as (k & Hbuf & Hstop & Hdata & Hearly).
        exists (S k). rewrite firstn_cons. cbn [joined].
        rewrite <- append_assoc.
        repeat split.
        -- exact Hbuf.
        -- destruct Hstop as [Hs|Hs]; [left; exact Hs|right; exact Hs].
        -- intros [|j] Hj; [exists data; now split|].
           apply Hdata. lia.
        -- intros [|[|j]] Hj; [lia| |].
           ++ simpl. now rewrite append_nil_r.
           ++ rewrite firstn_cons. cbn [joined]. rewrite <- append_assoc.
              apply (Hearly (S j)). lia.
    + inversion H; subst. exists 0. simpl. rewrite append_nil_r.
      repeat split; try (intros; lia).
      right. right. simpl. now rewrite (truthy_false _ Hd).
Qed.

(** When the loop raises, a read raised: the reads before it were not empty
    and were accumulated without the terminator showing up. *)
Lemma recv_loop_raises events : forall acc msg,
  recv_loop events acc = Raise msg ->
  exists k,
    nth_error events k = Some (RecvRaise msg)
    /\ (forall j, j < k ->
          exists data, nth_error events j = Some (RecvText data)
                       /\ truthy data = true)
    /\ (forall j, 0 < j <= k ->
          contains terminator (acc ++ joined (firstn j events)) = false).
Proof.
  induction events as [|e events IH]; intros acc msg H; [discriminate|].
  destruct e as [data|msg'].
  - cbn [recv_loop] in H.
    destruct (truthy data) eqn:Hd; [|discriminate].
    destruct (contains terminator (acc ++ data)) eqn:Ht; [discriminate|].
    apply IH in H as (k & Hk & Hdata & Hearly).
    exists (S k). split; [exact Hk|]. split.
    + intros [|j] Hj; [exists data; now split|]. apply Hdata. lia.
    + intros [|[|j]] Hj; [lia| |].
      * simpl. now rewrite append_nil_r.
      * rewrite firstn_cons. cbn [joined]. rewrite <- append_assoc.
        apply (Hearly (S j)). lia.
  - cbn [recv_loop] in H. inversion H; subst.
    exists 0. split; [reflexivity|]. split; intros j Hj; lia.
Qed.

(** Text without a carriage return cannot hold the start of a terminator. *)
Lemma contains_skip (acc t : string) :
  lacks CR acc = true ->
  contains terminator (acc ++ t) = contains terminator t.
Proof.
  induction acc as [|x acc IH]; intros H; [reflexivity|].
  cbn [lacks] in H. apply andb_prop in H as [Hx Hacc].
  apply negb_true_iff, Ascii.eqb_neq in Hx.
  change (contains terminator (String x (acc ++ t)) =
          contains terminator t).
  cbn [contains]. change terminator with (String CR (String LF CRLF)).
  cbn [String.prefix].
  destruct (ascii_dec CR x) as [Heq|_]; [now subst|].
  now apply IH.
Qed.

Lemma lacks_app (c : ascii) (a b : string) :
  lacks c (a ++ b) = (lacks c a && lacks c b)%bool.
Proof.
  induction a as [|x a IH]; [reflexivity|].
  simpl. now rewrite IH, andb_assoc.
Qed.

(** A frame whose body has no carriage return, delivered one character per
    read, is accumulated whole before the loop stops. *)
Lemma one_by_one_frame (body : string) : forall acc,
  lacks CR body = true ->
  lacks CR acc = true ->
  recv_loop (one_by_one (body ++ terminator)) acc
  = Ok (acc ++ body ++ terminator).
Proof.
  induction body as [|c body IH]; intros acc Hbody Hacc.
  - change (recv_loop
              [RecvText (String CR ""); RecvText (String LF "");
               RecvText (String CR ""); RecvText (String LF "")] acc
            = Ok (acc ++ terminator)).
    cbn [recv_loop truthy].
    rewrite (contains_skip acc _ Hacc).
    rewrite (append_assoc acc), (contains_skip acc _ Hacc).
    rewrite (append_assoc acc), (contains_skip acc _ Hacc).
    rewrite (append_assoc acc), (contains_skip acc _ Hacc).
    reflexivity.
  - cbn [lacks] in Hbody. apply andb_prop in Hbody as [Hc Hbody].
    change (recv_loop (RecvText (String c "")
                       :: one_by_one (body ++ terminator)) acc
            = Ok (acc ++ String c (body ++ terminator))).
    cbn [recv_loop truthy].
    rewrite (contains_skip acc _ Hacc).
    assert (Hone : contains terminator (String c "") = false).
    { apply negb_true_iff, Ascii.eqb_neq in Hc.
      cbn [contains]. change terminator with (String CR (String LF CRLF)).
      cbn [String.prefix].
      destruct (ascii_dec CR c) as [Heq|_]; [now subst|reflexivity]. }
    rewrite Hone, IH; [|exact Hbody|].
    + now rewrite append_assoc.
    + rewrite lacks_app, Hacc. cbn [lacks]. now rewrite Hc.
Qed.

(** Delivered one character at a time or in a single read, such a frame
    reaches the decoder as the same text. *)
Lemma chunking_independent (body : string) :
  lacks CR body = true ->
  recv_loop (one_by_one (body ++ terminator)) "" = Ok (body ++ terminator)
  /\ recv_loop [RecvText (body ++ terminator)] "" = Ok (body ++ terminator).
Proof.
  intros H. split.
  - now apply (one_by_one_frame body "").
  - cbn [recv_loop]. change ("" ++ (body ++ terminator)) with (body ++ terminator).
    rewrite (contains_skip body _ H).
    destruct body; reflexivity.
Qed.

Section TransportClaims.

Variable json_loads : string -> result json.

(** C4 (amended).  A failure to establish the connection is raised by
    [send_command] to its caller, with no response value; once the
    connection is open, every failure of the exchange (writing, reading,
    parsing) is turned into a status-ERROR response. *)
Theorem send_command_failures (command_str : string) (w : world) :
  fst (send_command json_loads command_str w) =
  match net w (conns w) with
  | Refused msg => Raise msg
  | Accepted serve =>
      match exchange json_loads serve command_str with
      | Ok hasil => Ok hasil
      | Raise e => Ok (JDict [("status", JStr "ERROR"); ("data", JStr e)])
      end
  end.
Proof. apply send_command_result. Qed.

(** X19.  On an open connection whose request was written, [send_command]
    reads until the frame is complete or the peer has closed, and only then
    consults the decoder.  There is a number [k] of reads, all of them
    non-empty text, such that no shorter accumulation held the terminator,
    and either the loop stopped after them, because their accumulation
    holds the terminator or because read [k] found the peer closed, and the
    decoder is given exactly that accumulation; or read [k] itself raised
    before any terminator was seen, the decoder is not consulted and the
    result is the error response of that read's exception. *)
Theorem reads_until_frame_or_close (command_str : string) (w : world)
  (serve : string -> session) (events : list recv_event) :
  net w (conns w) = Accepted serve ->
  serve command_str = Replies events ->
  exists k,
    (forall j, j < k ->
       exists data, nth_error events j = Some (RecvText data)
                    /\ truthy data = true)
    /\ (forall j, 0 < j < k ->
          contains terminator (joined (firstn j events)) = false)
    /\ (((contains terminator (joined (firstn k events)) = true
          \/ peer_closed events k)
         /\ recv_loop events "" = Ok (joined (firstn k events))
         /\ fst (send_command json_loads command_str w) =
            match json_loads (joined (firstn k events)) with
            | Ok hasil => Ok hasil
            | Raise e => Ok (error_response e)
            end)
        \/ (exists msg,
              nth_error events k = Some (RecvRaise msg)
              /\ contains terminator (joined (firstn k events)) = false
              /\ recv_loop events "" = Raise msg
              /\ fst (send_command json_loads command_str w)
                 = Ok (error_response msg))).
Proof.
  intros Hnet Hserve.
  rewrite send_command_result, Hnet. unfold exchange. rewrite Hserve.
  destruct (recv_loop events "") as [buf|msg] eqn:Hloop.
  - destruct (recv_loop_stops _ _ _ Hloop) as (k & Hbuf & Hstop & Hd & He).
    cbn [String.append] in Hbuf, He. subst buf.
    exists k. split; [exact Hd|]. split; [exact He|].
    left. split; [exact Hstop|]. split; reflexivity.
  - destruct (recv_loop_raises _ _ _ Hloop) as (k & Hk & Hd & He).
    cbn [String.append] in He.
    exists k. split; [exact Hd|].
    split; [intros j Hj; apply He; lia|].
    right. exists msg. split; [exact Hk|].
    split; [|split; reflexivity].
    destruct k as [|k]; [reflexivity|]. apply He. lia.
Qed.

(** C5.  The receive loop decodes every chunk on its own, so what it does
    depends on where the bytes are cut.  The ten bytes of [accented] and the
    terminator, arriving in one read, are accumulated and handed to the
    decoder.  The same bytes cut after the third, inside the two-byte
    character, are not accumulated: [data.decode()] raises on the first
    read, the loop ends there although the terminator has not been seen and
    the peer has not closed, the decoder is never consulted, and the result
    is the error response of the [UnicodeDecodeError]. *)
Theorem split_character_aborts (command_str : string) :
  let data := Utf8.encode (accented ++ terminator) in
  let cut := "'utf-8' codec can't decode byte 0xc3 in position 2: unexpected end of data" in
  let rest := "'utf-8' codec can't decode byte 0xa9 in position 0: invalid start byte" in
  List.app (firstn 3 data) (skipn 3 data) = data
  /\ received [data] = Some [RecvText (accented ++ terminator)]
  /\ received [firstn 3 data; skipn 3 data]
     = Some [RecvRaise cut; RecvRaise rest]
  /\ fst (send_command json_loads command_str
            (fresh_world (replying [RecvText (accented ++ terminator)])
               no_files))
     = match json_loads (accented ++ terminator) with
       | Ok hasil => Ok hasil
       | Raise e => Ok (error_response e)
       end
  /\ fst (send_command json_loads command_str
            (fresh_world (replying [RecvRaise cut; RecvRaise rest]) no_files))
     = Ok (error_response cut).
Proof.
  cbv zeta. split; [reflexivity|].
  split; [vm_compute; reflexivity|].
  split; [vm_compute; reflexivity|].
  split.
  - rewrite send_command_result. reflexivity.
  - rewrite send_command_result. reflexivity.
Qed.

End TransportClaims.

Section FetchClaims.

Variable json_loads : string -> result json.

(** C8 (amended).  On a response whose status is OK and whose [data_file]
    decodes, [remote_get] returns the decoded bytes; on a response whose
    status is anything else it returns [None]; when the [data_file] of an OK
    response does not decode, the decoder's exception is raised out of
    [remote_get], which does not return [None] then. *)
Theorem fetch_outcomes (filename : string) (w w' : world)
  (fields : list (string * json)) :
  send_command json_loads ("GET " ++ filename ++ CRLF ++ CRLF) w
    = (Ok (JDict fields), w') ->
  (forall s b,
      Py.lookup "status" fields = Some (JStr "OK") ->
      Py.lookup "data_file" fields = Some (JStr s) ->
      Base64.b64decode s = Ok b ->
      remote_get json_loads filename w = (Ok (Some b), w'))
  /\ (forall v,
        Py.lookup "status" fields = Some v ->
        Py.eq_str v "OK" = false ->
        remote_get json_loads filename w = (Ok None, w'))
  /\ (forall s e,
        Py.lookup "status" fields = Some (JStr "OK") ->
        Py.lookup "data_file" fields = Some (JStr s) ->
        Base64.b64decode s = Raise e ->
        remote_get json_loads filename w = (Raise e, w')).
Proof.
  intros Hsend. unfold remote_get, bind, lift_result, ret.
  rewrite Hsend. cbn [Py.getitem].
  repeat split.
  - intros s b Hst Hdf Hdec. rewrite Hst. cbn [Py.eq_str String.eqb].
    simpl. rewrite Hdf. cbn [Py.b64decode]. now rewrite Hdec.
  - intros v Hst Hne. rewrite Hst, Hne. reflexivity.
  - intros s e Hst Hdf Hdec. rewrite Hst. simpl. rewrite Hdf.
    cbn [Py.b64decode]. now rewrite Hdec.
Qed.

End FetchClaims.

(** ** Transfer workflow *)

Lemma bytes_eqb_eq (a b : bytes) : bytes_eqb a b = true <-> a = b.
Proof.
  revert b. induction a as [|x a IH]; intros [|y b]; simpl;
    try (split; [discriminate|discriminate]); [tauto|].
  rewrite andb_true_iff, IH. split.
  - intros [Hx Hab]. apply Byte.byte_dec_bl in Hx. now subst.
  - intros H. inversion H; subst. split; [now apply Byte.byte_dec_lb|reflexivity].
Qed.

Section WorkflowFacts.

Variable json_loads : string -> result json.

Lemma ensure_source_ok test_filename size st :
  exists st1,
    ensure_source test_filename size st = (Ok tt, st1)
    /\ results st1 = results st
    /\ trace (env st1) = trace (env st)
    /\ net (env st1) = net (env st)
    /\ conns (env st1) = conns (env st).
Proof.
  unfold ensure_source, bind, io, Sys.path_exists, gets, generate_test_file,
    Sys.urandom, Sys.write_file, modify, ret.
  destruct (fs (env st) test_filename); eexists; repeat split.
Qed.

Lemma upload_phase_cases filename test_filename st :
  match upload_phase json_loads filename test_filename st with
  | (Ok (file_data, success), st') =>
      exists u fields,
        results st' = mkResult (worker_id (results st)) (Some u)
                               (download (results st)) (error (results st))
        /\ up_success u = success
        /\ up_bytes u = len file_data
        /\ up_server_response u = JDict fields
        /\ success = match Py.lookup "status" fields with
                     | Some v => Py.eq_str v "OK"
                     | None => false
                     end
        /\ fs (env st) test_filename = Some file_data
        /\ connections (trace (env st')) = S (connections (trace (env st)))
        /\ requests (trace (env st')) =
           (requests (trace (env st))
            ++ [("UPLOAD " ++ filename ++ CRLF ++ Base64.b64encode file_data
                 ++ CRLF ++ CRLF)%string])%list
  | (Raise e, st') => results st' = results st
  end.
Proof.
  unfold upload_phase, bind, io, Sys.time_time, Sys.read_file, lift_result,
    set_upload, modify, ret, remote_upload.
  cbn [env results fs next_tick].
  destruct (fs (env st) test_filename) as [file_data|] eqn:Hfs;
    [|reflexivity].
  cbn [env results].
  set (frame := "UPLOAD " ++ filename ++ CRLF ++ Base64.b64encode file_data
                ++ CRLF ++ CRLF).
  pose proof (send_command_connections json_loads frame (next_tick (env st)))
    as Hconn.
  pose proof (send_command_requests json_loads frame (next_tick (env st)))
    as Hreq.
  pose proof (send_command_result json_loads frame (next_tick (env st)))
    as Hres.
  destruct (send_command json_loads frame (next_tick (env st)))
    as [[hasil|e] w1]; [|reflexivity].
  cbn [fst snd] in *.
  destruct hasil; try reflexivity.
  cbn [Py.dict_get env results].
  exists (mkUpload
            match Py.lookup "status" fields with
            | Some v => Py.eq_str v "OK"
            | None => false
            end
            (clock w1 (ticks w1) - clock (env st) (ticks (env st)))%Q
            (len file_data) (JDict fields)), fields.
  cbn [up_success up_bytes up_server_response trace next_tick].
  repeat split.
  - exact Hconn.
  - rewrite Hreq. cbn [trace next_tick net conns].
    cbn [net conns next_tick] in Hres.
    destruct (net (env st) (conns (env st))); [discriminate|reflexivity].
Qed.

Lemma verify_phase_frame filename st :
  results (snd (verify_phase json_loads filename st)) = results st.
Proof.
  unfold verify_phase, bind, io, lift_result.
  destruct (remote_list json_loads (env st)) as [[list_result|e] w1];
    [|reflexivity].
  cbn [results env].
  destruct (Py.dict_get list_result "data") as [data|e]; reflexivity.
Qed.

Lemma download_phase_cases filename file_data st :
  download_phase json_loads filename file_data st =
  let r := results st in
  let start_download := clock (env st) (ticks (env st)) in
  match remote_get json_loads filename (next_tick (env st)) with
  | (Raise e, w1) => (Raise e, mkWstate r w1)
  | (Ok None, w1) =>
      (Ok tt,
       mkWstate (mkResult (worker_id r) (upload r)
                   (Some (DownloadFailed "Server returned None")) (error r))
                (next_tick w1))
  | (Ok (Some downloaded), w1) =>
      (Ok tt,
       mkWstate (mkResult (worker_id r) (upload r)
                   (Some (DownloadOk
                            (clock w1 (ticks w1) - start_download)%Q
                            (len downloaded)
                            (bytes_eqb (firstn 10 downloaded)
                                       (firstn 10 file_data))))
                   (error r))
                (next_tick w1))
  end.
Proof.
  unfold download_phase, bind, io, Sys.time_time, set_download, modify.
  cbn [env results].
  destruct (remote_get json_loads filename (next_tick (env st)))
    as [[[downloaded|]|e] w1]; reflexivity.
Qed.

Lemma worker_body_cases size filename test_filename st0 :
  worker_body json_loads size filename test_filename st0 =
  match upload_phase json_loads filename test_filename
          (snd (ensure_source test_filename size st0)) with
  | (Raise e, st2) => (Raise e, st2)
  | (Ok (file_data, false), st2) =>
      set_download (DownloadFailed "Upload failed, skipping download") st2
  | (Ok (file_data, true), st2) =>
      match verify_phase json_loads filename st2 with
      | (Raise e, st3) => (Raise e, st3)
      | (Ok false, st3) =>
          set_download
            (DownloadFailed "File not found on server after upload") st3
      | (Ok true, st3) => download_phase json_loads filename file_data st3
      end
  end.
Proof.
  unfold worker_body, bind.
  destruct (ensure_source_ok test_filename size st0) as (st1 & H & _).
  rewrite H. cbn [snd].
  destruct (upload_phase json_loads filename test_filename st1)
    as [[[file_data [|]]|e] st2]; cbn [negb]; try reflexivity.
  destruct (verify_phase json_loads filename st2) as [[[|]|e] st3];
    reflexivity.
Qed.

Lemma worker_task_unfold size id w :
  worker_task json_loads size id w =
  match worker_body json_loads size (testfile_name id size) (source_name size)
          (mkWstate (mkResult id None None None) w) with
  | (Ok _, st) => (Ok (results st), env st)
  | (Raise e, st) =>
      (Ok (mkResult (worker_id (results st)) (upload (results st))
             (download (results st)) (Some e)),
       log_event (EvLog ("Worker " ++ str_of_nat id ++ " failed: " ++ e))
                 (env st))
  end.
Proof.
  unfold worker_task, try_except, worker_handler, bind, set_error, modify, io,
    Sys.logging_error.
  destruct (worker_body json_loads size (testfile_name id size)
              (source_name size) (mkWstate (mkResult id None None None) w))
    as [[[]|e] st]; reflexivity.
Qed.

(** [worker_task] never raises. *)
Lemma worker_task_returns size id w :
  exists r w', worker_task json_loads size id w = (Ok r, w').
Proof.
  rewrite worker_task_unfold.
  destruct (worker_body json_loads size (testfile_name id size)
              (source_name size) (mkWstate (mkResult id None None None) w))
    as [[[]|e] st]; eauto.
Qed.

(** C7.  A worker whose recorded upload is unsuccessful (its store response
    is then a dict whose status is not OK) ends with the download marked "Upload failed, skipping download" and no error;
    over the whole workflow it opened one connection and wrote one request,
    the UPLOAD frame: no list call and no fetch call was made. *)
Theorem skipped_download (size id : nat) (w w' : world) (r : worker_result)
  (u : upload_outcome) :
  worker_task json_loads size id w = (Ok r, w') ->
  upload r = Some u ->
  up_success u = false ->
  download r = Some (DownloadFailed "Upload failed, skipping download")
  /\ error r = None
  /\ (exists fields,
        up_server_response u = JDict fields
        /\ forall v, Py.lookup "status" fields = Some v ->
                     Py.eq_str v "OK" = false)
  /\ connections (trace w') = S (connections (trace w))
  /\ exists file_data,
       requests (trace w') =
       (requests (trace w)
        ++ [("UPLOAD " ++ testfile_name id size ++ CRLF
             ++ Base64.b64encode file_data ++ CRLF ++ CRLF)%string])%list.
Proof.
  intros Hrun Hup Hfail.
  rewrite worker_task_unfold, worker_body_cases in Hrun.
  set (st0 := mkWstate (mkResult id None None None) w) in *.
  destruct (ensure_source_ok (source_name size) size st0)
    as (st1 & Hens & Hres1 & Htr1 & _).
  rewrite Hens in Hrun. cbn [snd] in Hrun.
  pose proof (upload_phase_cases (testfile_name id size) (source_name size) st1)
    as Hcases.
  destruct (upload_phase json_loads (testfile_name id size) (source_name size)
              st1) as [[[file_data success]|e] st2].
  - destruct Hcases as (u0 & fields & Hres2 & Hsucc & _ & Hresp & Hstatus
                        & _ & Hconn & Hreq).
    rewrite Hres1 in Hres2. cbn [st0 results worker_id download error] in Hres2.
    destruct success.
    + exfalso.
      assert (Hkeep : upload r = Some u0).
      { pose proof (verify_phase_frame (testfile_name id size) st2) as Hv.
        destruct (verify_phase json_loads (testfile_name id size) st2)
          as [[[|]|e] st3]; cbn [snd] in Hv.
        - rewrite download_phase_cases in Hrun. cbv zeta in Hrun.
          destruct (remote_get json_loads (testfile_name id size)
                      (next_tick (env st3))) as [[[d|]|e] w1];
            inversion Hrun; subst; cbn [results upload];
            rewrite Hv, Hres2; reflexivity.
        - unfold set_download, modify in Hrun.
          inversion Hrun; subst; cbn [results upload].
          rewrite Hv, Hres2; reflexivity.
        - inversion Hrun; subst; cbn [results upload].
          rewrite Hv, Hres2; reflexivity. }
      rewrite Hup in Hkeep. inversion Hkeep; subst. congruence.
    + unfold set_download, modify in Hrun. inversion Hrun; subst.
      cbn [results upload download error env] in *.
      rewrite Hres2 in Hup |- *. cbn [upload download error] in *.
      inversion Hup; subst u0.
      repeat split.
      * exists fields. split; [exact Hresp|].
        intros v Hv. rewrite Hv in Hstatus. now symmetry.
      * rewrite Hconn, Htr1. reflexivity.
      * exists file_data. rewrite Hreq, Htr1. reflexivity.
  - exfalso. inversion Hrun; subst. cbn [upload] in Hup.
    rewrite Hcases, Hres1 in Hup. discriminate.
Qed.

(** C6.  For a worker whose upload and list verification succeeded, the
    download is recorded as successful exactly when [remote_get] returned
    bytes rather than [None]; the recorded [data_valid] flag is then true
    exactly when the first 10 bytes of the downloaded payload equal the first
    10 bytes of the source payload, whatever follows them. *)
Theorem download_verdict (size id : nat) (w : world) (file_data : bytes)
  (st2 st3 : wstate) :
  let filename := testfile_name id size in
  let test_filename := source_name size in
  let st0 := mkWstate (mkResult id None None None) w in
  upload_phase json_loads filename test_filename
    (snd (ensure_source test_filename size st0)) = (Ok (file_data, true), st2) ->
  verify_phase json_loads filename st2 = (Ok true, st3) ->
  exists r w',
    worker_task json_loads size id w = (Ok r, w')
    /\ let fetch := fst (remote_get json_loads filename (next_tick (env st3))) in
       (Stats.download_ok r = true <-> exists d, fetch = Ok (Some d))
       /\ (forall d, fetch = Ok (Some d) ->
             exists t valid,
               download r = Some (DownloadOk t (len d) valid)
               /\ (valid = true <-> firstn 10 d = firstn 10 file_data))
       /\ (fetch = Ok None ->
             download r = Some (DownloadFailed "Server returned None"))
       /\ (forall e, fetch = Raise e -> download r = None /\ error r = Some e).
Proof.
  intros filename test_filename st0 Hup Hver.
  rewrite worker_task_unfold, worker_body_cases.
  fold filename test_filename st0. rewrite Hup, Hver.
  rewrite download_phase_cases. cbv zeta.
  pose proof (upload_phase_cases filename test_filename
                (snd (ensure_source test_filename size st0))) as Hcases.
  rewrite Hup in Hcases.
  destruct Hcases as (u0 & fields & Hres2 & _).
  destruct (ensure_source_ok test_filename size st0) as (st1 & Hens & Hres1 & _).
  rewrite Hens in Hres2. cbn [snd] in Hres2. rewrite Hres1 in Hres2.
  cbn [st0 results worker_id download error] in Hres2.
  pose proof (verify_phase_frame filename st2) as Hres3.
  rewrite Hver in Hres3. cbn [snd] in Hres3. rewrite Hres2 in Hres3.
  destruct (remote_get json_loads filename (next_tick (env st3)))
    as [[[d|]|e] w1]; cbn [fst]; eexists; eexists; (split; [reflexivity|]);
    cbn [results download error]; rewrite Hres3; cbn [download error];
    unfold Stats.download_ok; cbn [download dl_success].
  - repeat split.
    + intros _. now exists d.
    + intros d' Hd. inversion Hd; subst d'.
      eexists; eexists; split; [reflexivity|]. apply bytes_eqb_eq.
    + discriminate.
    + discriminate.
    + discriminate.
  - split; [split; [discriminate|intros [d Hd]; discriminate]|].
    split; [discriminate|]. split; [reflexivity|discriminate].
  - split; [split; [discriminate|intros [d Hd]; discriminate]|].
    split; [discriminate|]. split; [discriminate|].
    intros e' He. inversion He; subst e'. split; reflexivity.
Qed.

Lemma worker_body_id size filename test_filename st0 :
  worker_id (results (snd (worker_body json_loads size filename test_filename
                             st0))) = worker_id (results st0).
Proof.
  rewrite worker_body_cases.
  destruct (ensure_source_ok test_filename size st0) as (st1 & Hens & Hres1 & _).
  rewrite Hens. cbn [snd].
  pose proof (upload_phase_cases filename test_filename st1) as Hcases.
  destruct (upload_phase json_loads filename test_filename st1)
    as [[[file_data success]|e] st2].
  - destruct Hcases as (u0 & fields & Hres2 & _).
    assert (Hid : worker_id (results st2) = worker_id (results st0))
      by (rewrite Hres2, Hres1; reflexivity).
    destruct success; [|exact Hid].
    pose proof (verify_phase_frame filename st2) as Hv.
    destruct (verify_phase json_loads filename st2) as [[[|]|e] st3];
      cbn [snd] in Hv.
    + rewrite download_phase_cases. cbv zeta.
      destruct (remote_get json_loads filename (next_tick (env st3)))
        as [[[d|]|e] w1]; cbn [snd results worker_id]; now rewrite Hv.
    + cbn [snd set_download modify results worker_id]. now rewrite Hv.
    + cbn [snd]. now rewrite Hv.
  - cbn [snd]. now rewrite Hcases, Hres1.
Qed.

Lemma worker_task_id size id w r w' :
  worker_task json_loads size id w = (Ok r, w') -> worker_id r = id.
Proof.
  rewrite worker_task_unfold.
  pose proof (worker_body_id size (testfile_name id size) (source_name size)
                (mkWstate (mkResult id None None None) w)) as Hid.
  destruct (worker_body json_loads size (testfile_name id size)
              (source_name size) (mkWstate (mkResult id None None None) w))
    as [[[]|e] st]; intros H; inversion H; subst; exact Hid.
Qed.

(** Collecting the futures yields one result per completed worker, each the
    result of that worker's own task in its own environment. *)
Lemma gather_each size envs completed :
  exists all_results,
    gather json_loads size envs completed = Ok all_results
    /\ List.length all_results = List.length completed
    /\ forall p i, nth_error completed p = Some i ->
         exists r, nth_error all_results p = Some r
                   /\ fst (worker_task json_loads size i (envs i)) = Ok r.
Proof.
  induction completed as [|i rest IH].
  - exists []. repeat split. intros [|p] i H; discriminate.
  - destruct IH as (rs & Hrs & Hlen & Hnth).
    destruct (worker_task_returns size i (envs i)) as (r & w' & Hr).
    exists (r :: rs). cbn [gather]. rewrite Hr, Hrs. cbn [fst].
    repeat split.
    + simpl. now rewrite Hlen.
    + intros [|p] j Hj.
      * inversion Hj; subst j. exists r. rewrite Hr. now split.
      * apply (Hnth p j Hj).
Qed.

(** C3.  With [N > 0] workers, whatever each worker's environment does, the
    pool returns exactly [N] results, one per worker.  A worker's result is
    computed from its own environment alone; a fault raised anywhere in its
    workflow is caught by [worker_task] and recorded as [error] next to what
    the worker had recorded until then; and replacing the environment of one
    worker [k] leaves the result of every other worker as it was. *)
Theorem failure_containment (size N : nat) (envs : nat -> world)
  (completed : list nat) :
  0 < N ->
  Permutation completed (seq 0 N) ->
  exists all_results,
    run_workers json_loads size N envs completed = Ok all_results
    /\ List.length all_results = N
    /\ (forall i, i < N ->
          exists r,
            In r all_results
            /\ fst (worker_task json_loads size i (envs i)) = Ok r
            /\ worker_id r = i
            /\ forall e st,
                 worker_body json_loads size (testfile_name i size)
                   (source_name size)
                   (mkWstate (mkResult i None None None) (envs i))
                 = (Raise e, st) ->
                 error r = Some e
                 /\ upload r = upload (results st)
                 /\ download r = download (results st))
    /\ (forall k envs',
          (forall j, j <> k -> envs' j = envs j) ->
          exists all_results',
            run_workers json_loads size N envs' completed = Ok all_results'
            /\ List.length all_results' = N
            /\ forall p j, nth_error completed p = Some j -> j <> k ->
                 nth_error all_results' p = nth_error all_results p).
Proof.
  intros HN Hperm.
  assert (Hexec : make_executor N = Ok tt).
  { unfold make_executor. destruct N; [lia|reflexivity]. }
  assert (Hlen : List.length completed = N).
  { rewrite (Permutation_length Hperm). apply length_seq. }
  unfold run_workers. rewrite Hexec.
  destruct (gather_each size envs completed) as (rs & Hrs & Hlrs & Hnth).
  exists rs. repeat split.
  - exact Hrs.
  - now rewrite Hlrs.
  - intros i Hi.
    assert (Hin : In i completed).
    { apply (Permutation_in i (Permutation_sym Hperm)). apply in_seq. lia. }
    apply In_nth_error in Hin as (p & Hp).
    destruct (Hnth p i Hp) as (r & Hr & Htask).
    exists r. split; [now apply nth_error_In with p|]. split; [exact Htask|].
    destruct (worker_task json_loads size i (envs i)) as [res w'] eqn:Hrun.
    cbn [fst] in Htask. subst res.
    split; [now apply worker_task_id with size (envs i) w'|].
    intros e st Hbody. rewrite worker_task_unfold, Hbody in Hrun.
    inversion Hrun; subst. repeat split.
  - intros k envs' Hsame.
    destruct (gather_each size envs' completed) as (rs' & Hrs' & Hlrs' & Hnth').
    exists rs'. split; [exact Hrs'|]. split; [now rewrite Hlrs'|].
    intros p j Hp Hj.
    destruct (Hnth p j Hp) as (r & Hr & Htask).
    destruct (Hnth' p j Hp) as (r' & Hr' & Htask').
    rewrite (Hsame j Hj), Htask in Htask'. inversion Htask'; subst r'.
    now rewrite Hr, Hr'.
Qed.

End WorkflowFacts.

(** ** Statistics *)

Module StatsFacts.

Import Stats.

Lemma Qltb_false_le (a b : Q) : Qltb a b = false -> (b <= a)%Q.
Proof.
  unfold Qltb. intros H. apply negb_false_iff in H. now apply Qle_bool_iff.
Qed.

Lemma Qltb_true_lt (a b : Q) : Qltb a b = true -> (a < b)%Q.
Proof.
  unfold Qltb. intros H. apply negb_true_iff in H.
  apply Qnot_le_lt. intros Hle. apply Qle_bool_iff in Hle. congruence.
Qed.

Lemma fold_max_spec (rest : list Q) : forall x,
  let m := fold_left (fun m y => if Qltb m y then y else m) rest x in
  (m = x \/ In m rest) /\ (x <= m)%Q /\ (forall y, In y rest -> (y <= m)%Q).
Proof.
  induction rest as [|y rest IH]; intros x; cbn [fold_left].
  - repeat split; [now left|apply Qle_refl|intros y []].
  - destruct (Qltb x y) eqn:Hxy.
    + destruct (IH y) as (Hin & Hle & Hall). repeat split.
      * right. destruct Hin as [->|Hin]; [now left|now right].
      * apply Qle_trans with y; [apply Qlt_le_weak, Qltb_true_lt, Hxy|exact Hle].
      * intros z [<-|Hz]; [exact Hle|now apply Hall].
    + destruct (IH x) as (Hin & Hle & Hall). repeat split.
      * destruct Hin as [->|Hin]; [now left|right; now right].
      * exact Hle.
      * intros z [<-|Hz]; [|now apply Hall].
        apply Qle_trans with x; [apply Qltb_false_le, Hxy|exact Hle].
Qed.

(** [max] of a non-empty sequence is one of its elements and bounds them
    all; of an empty sequence it raises. *)
Lemma py_max_spec (xs : list Q) :
  match py_max xs with
  | Ok m => In m xs /\ forall x, In x xs -> (x <= m)%Q
  | Raise _ => xs = []
  end.
Proof.
  destruct xs as [|x rest]; [reflexivity|]. cbn [py_max].
  destruct (fold_max_spec rest x) as (Hin & Hle & Hall). split.
  - destruct Hin as [->|Hin]; [now left|now right].
  - intros y [<-|Hy]; [exact Hle|now apply Hall].
Qed.

(** When both maxima exist, the report carries, for each phase, the sum of
    the bytes of the successful outcomes divided by the maximum elapsed time,
    or 0 when that maximum is not positive. *)
Lemma statistics_throughput size n pool all_results max_up max_down :
  py_max (upload_times all_results) = Ok max_up ->
  py_max (download_times all_results) = Ok max_down ->
  exists rep,
    statistics size n pool all_results = Ok rep
    /\ total_time (upload_stats rep) = max_up
    /\ total_time (download_stats rep) = max_down
    /\ total_bytes (upload_stats rep) = sum (upload_bytes all_results)
    /\ total_bytes (download_stats rep) = sum (download_bytes all_results)
    /\ throughput (upload_stats rep) =
       (if Qltb 0 max_up
        then inject_Z (sum (upload_bytes all_results)) / max_up else 0)%Q
    /\ throughput (download_stats rep) =
       (if Qltb 0 max_down
        then inject_Z (sum (download_bytes all_results)) / max_down else 0)%Q.
Proof.
  intros Hup Hdown. unfold statistics. rewrite Hup, Hdown.
  eexists. repeat split.
Qed.

(** Without a successful download there is no maximum to take, and
    [statistics] raises instead of reporting a throughput of 0. *)
Lemma statistics_no_download size n pool all_results :
  download_times all_results = [] ->
  exists e, statistics size n pool all_results = Raise e.
Proof.
  intros H. unfold statistics. rewrite H.
  destruct (py_max (upload_times all_results)); cbn [py_max]; eauto.
Qed.

End StatsFacts.

(** ** The code at concrete inputs *)

(** C2.  One worker whose upload the server answers with ERROR: its download
    is skipped, no download succeeded, and [run_full_test] raises out of
    [max] instead of reporting a download throughput of 0. *)
Theorem throughput_without_successful_download :
  Stats.download_times [failed_upload_result] = []
  /\ Stats.statistics 10 1 false [failed_upload_result]
     = Raise "max() arg is an empty sequence"
  /\ run_full_test sample_loads 0 1 false
       (fun _ => fresh_world (answering "err") no_files) [0]
     = Raise "max() arg is an empty sequence".
Proof. repeat split; vm_compute; reflexivity. Qed.

(** Three successes of 10 MB in 1 s, 2 s and 1.5 s: 30 MB / 2 s = 15 MB/s. *)
Example three_successes_throughput :
  exists rep,
    Stats.statistics 10 3 false three_successes = Ok rep
    /\ (Stats.total_time (Stats.download_stats rep) == 2)%Q
    /\ Stats.total_bytes (Stats.download_stats rep) = 31457280%Z
    /\ (Stats.throughput (Stats.download_stats rep) == 15728640 # 1)%Q
    /\ (Stats.throughput (Stats.upload_stats rep) == 15728640 # 1)%Q.
Proof. eexists. repeat split; vm_compute; reflexivity. Qed.

(** The stub server: upload accepted, file listed, bytes echoed. *)
Example end_to_end_scenario :
  fst (worker_task sample_loads 0 0 (fresh_world stub_server no_files)) =
  Ok (mkResult 0
        (Some (mkUpload true 1 0 (JDict [("status", JStr "OK")])))
        (Some (DownloadOk 1 0 true))
        None).
Proof. vm_compute. reflexivity. Qed.

(** C4, as stated, fails: with the server unreachable [send_command] raises
    the connection error and returns no response at all. *)
Lemma send_command_unreachable_raises :
  let w := fresh_world unreachable no_files in
  let command_str := "LIST" ++ CRLF ++ CRLF in
  net w (conns w) = Refused "[Errno 111] Connection refused"
  /\ fst (send_command sample_loads command_str w)
     = Raise "[Errno 111] Connection refused"
  /\ ~ exists hasil, fst (send_command sample_loads command_str w) = Ok hasil.
Proof.
  cbv zeta. split; [reflexivity|]. split; [vm_compute; reflexivity|].
  intros [hasil H]. vm_compute in H. discriminate.
Qed.

(** C8, as stated, fails: an OK response whose payload is the single
    character [A] cannot be decoded, and [remote_get] raises the decoder's
    exception rather than returning [None]. *)
Lemma fetch_undecodable_payload_raises :
  let w := fresh_world (answering "cut") no_files in
  fst (send_command sample_loads ("GET f" ++ CRLF ++ CRLF) w)
    = Ok (JDict [("status", JStr "OK"); ("data_file", JStr "A")])
  /\ fst (remote_get sample_loads "f" w)
     = Raise "Invalid base64-encoded string: number of data characters (1) cannot be 1 more than a multiple of 4"
  /\ fst (remote_get sample_loads "f" w) <> Ok None.
Proof.
  cbv zeta. split; [vm_compute; reflexivity|]. split; [vm_compute; reflexivity|].
  intros H. vm_compute in H. discriminate.
Qed.

(** *** Instances of the theorems that have premises *)


Lemma reads_until_frame_or_close_witness :
  let w := fresh_world stub_server no_files in
  let serve := fun _ : string => Replies (one_by_one ("file" ++ terminator)) in
  let w2 := mkWorld (net w) 2 (clock w) 0 (fs w) (entropy w) 0 [] in
  let events := one_by_one ("file" ++ terminator) in
  net w2 (conns w2) = Accepted serve
  /\ serve "GET f" = Replies events
  /\ recv_loop events "" = Ok ("file" ++ terminator)
  /\ exists k,
       (forall j, j < k ->
          exists data, nth_error events j = Some (RecvText data)
                       /\ truthy data = true)
       /\ (forall j, 0 < j < k ->
             contains terminator (joined (firstn j events)) = false)
       /\ (((contains terminator (joined (firstn k events)) = true
             \/ peer_closed events k)
            /\ recv_loop events "" = Ok (joined (firstn k events))
            /\ fst (send_command sample_loads "GET f" w2) =
               match sample_loads (joined (firstn k events)) with
               | Ok hasil => Ok hasil
               | Raise e => Ok (error_response e)
               end)
           \/ (exists msg,
                 nth_error events k = Some (RecvRaise msg)
                 /\ contains terminator (joined (firstn k events)) = false
                 /\ recv_loop events "" = Raise msg
                 /\ fst (send_command sample_loads "GET f" w2)
                    = Ok (error_response msg))).
Proof.
  cbv zeta. split; [reflexivity|]. split; [reflexivity|].
  split; [reflexivity|].
  apply (reads_until_frame_or_close sample_loads "GET f"
           (mkWorld stub_server 2 (fun n => inject_Z (Z.of_nat n)) 0 no_files
                    (fun _ => x00) 0 [])
           (fun _ => Replies (one_by_one ("file" ++ terminator)))
           (one_by_one ("file" ++ terminator)));
    reflexivity.
Defined.

(** Eight one-character reads are accumulated before the decoder runs. *)
Example one_byte_chunks :
  recv_loop (one_by_one ("file" ++ terminator)) "" = Ok ("file" ++ terminator)
  /\ recv_loop [RecvText "fi"; RecvText "le"; RecvText CRLF; RecvText CRLF;
                RecvText "late"] ""
     = Ok ("file" ++ terminator)
  /\ recv_loop [RecvText "fi"; RecvText "le"; RecvText ""; RecvText "late"] ""
     = Ok "file".
Proof. repeat split. Qed.

Lemma fetch_outcomes_witness :
  remote_get sample_loads "f" (fresh_world (answering "file") no_files)
  = (Ok (Some []),
     snd (send_command sample_loads ("GET f" ++ CRLF ++ CRLF)
            (fresh_world (answering "file") no_files)))
  /\ remote_get sample_loads "f" (fresh_world (answering "err") no_files)
     = (Ok None,
        snd (send_command sample_loads ("GET f" ++ CRLF ++ CRLF)
               (fresh_world (answering "err") no_files)))
  /\ fst (remote_get sample_loads "f" (fresh_world (answering "cut") no_files))
     = Raise "Invalid base64-encoded string: number of data characters (1) cannot be 1 more than a multiple of 4".
Proof.
  split; [|split].
  - apply (proj1 (fetch_outcomes sample_loads "f"
                    (fresh_world (answering "file") no_files) _
                    [("status", JStr "OK"); ("data_file", JStr "")]
                    eq_refl) "" []); reflexivity.
  - apply (proj1 (proj2 (fetch_outcomes sample_loads "f"
                           (fresh_world (answering "err") no_files) _
                           [("status", JStr "ERROR");
                            ("data", JStr "File not found")]
                           eq_refl)) (JStr "ERROR")); reflexivity.
  - rewrite (proj2 (proj2 (fetch_outcomes sample_loads "f"
                             (fresh_world (answering "cut") no_files) _
                             [("status", JStr "OK"); ("data_file", JStr "A")]
                             eq_refl)) "A"
               "Invalid base64-encoded string: number of data characters (1) cannot be 1 more than a multiple of 4"
               eq_refl eq_refl eq_refl).
    reflexivity.
Defined.

Lemma skipped_download_witness :
  let w := fresh_world (answering "err") no_files in
  let u := mkUpload false 1 0
             (JDict [("status", JStr "ERROR"); ("data", JStr "File not found")]) in
  let r := mkResult 0 (Some u)
             (Some (DownloadFailed "Upload failed, skipping download")) None in
  worker_task sample_loads 0 0 w = (Ok r, snd (worker_task sample_loads 0 0 w))
  /\ upload r = Some u
  /\ up_success u = false
  /\ connections (trace (snd (worker_task sample_loads 0 0 w))) = 1
  /\ exists file_data,
       requests (trace (snd (worker_task sample_loads 0 0 w))) =
       [("UPLOAD testfile_0_0mb.dat" ++ CRLF ++ Base64.b64encode file_data
         ++ CRLF ++ CRLF)%string].
Proof.
  cbv zeta.
  assert (Hrun :
    worker_task sample_loads 0 0 (fresh_world (answering "err") no_files) =
    (Ok (mkResult 0
           (Some (mkUpload false 1 0
                    (JDict [("status", JStr "ERROR");
                            ("data", JStr "File not found")])))
           (Some (DownloadFailed "Upload failed, skipping download")) None),
     snd (worker_task sample_loads 0 0
            (fresh_world (answering "err") no_files))))
    by (vm_compute; reflexivity).
  split; [exact Hrun|]. split; [reflexivity|]. split; [reflexivity|].
  destruct (skipped_download sample_loads 0 0 _ _ _ _ Hrun eq_refl eq_refl)
    as (_ & _ & _ & Hconn & Hreq).
  split; [exact Hconn|exact Hreq].
Defined.

Lemma download_verdict_witness :
  let w := fresh_world stub_server no_files in
  let st0 := mkWstate (mkResult 0 None None None) w in
  let st1 := snd (ensure_source (source_name 0) 0 st0) in
  let st2 := snd (upload_phase sample_loads (testfile_name 0 0) (source_name 0)
                    st1) in
  let st3 := snd (verify_phase sample_loads (testfile_name 0 0) st2) in
  upload_phase sample_loads (testfile_name 0 0) (source_name 0) st1
    = (Ok ([], true), st2)
  /\ verify_phase sample_loads (testfile_name 0 0) st2 = (Ok true, st3)
  /\ exists r,
       fst (worker_task sample_loads 0 0 w) = Ok r
       /\ Stats.download_ok r = true
       /\ exists t, download r = Some (DownloadOk t 0 true).
Proof.
  cbv zeta.
  assert (Hup :
    upload_phase sample_loads (testfile_name 0 0) (source_name 0)
      (snd (ensure_source (source_name 0) 0
              (mkWstate (mkResult 0 None None None)
                 (fresh_world stub_server no_files))))
    = (Ok ([], true),
       snd (upload_phase sample_loads (testfile_name 0 0) (source_name 0)
              (snd (ensure_source (source_name 0) 0
                      (mkWstate (mkResult 0 None None None)
                         (fresh_world stub_server no_files)))))))
    by (vm_compute; reflexivity).
  assert (Hver :
    verify_phase sample_loads (testfile_name 0 0)
      (snd (upload_phase sample_loads (testfile_name 0 0) (source_name 0)
              (snd (ensure_source (source_name 0) 0
                      (mkWstate (mkResult 0 None None None)
                         (fresh_world stub_server no_files))))))
    = (Ok true,
       snd (verify_phase sample_loads (testfile_name 0 0)
              (snd (upload_phase sample_loads (testfile_name 0 0)
                      (source_name 0)
                      (snd (ensure_source (source_name 0) 0
                              (mkWstate (mkResult 0 None None None)
                                 (fresh_world stub_server no_files)))))))))
    by (vm_compute; reflexivity).
  split; [exact Hup|]. split; [exact Hver|].
  destruct (download_verdict sample_loads 0 0 _ _ _ _ Hup Hver)
    as (r & w' & Hrun & Hok & Hvalid & _).
  exists r. split; [now rewrite Hrun|].
  split; [apply Hok; exists []; vm_compute; reflexivity|].
  destruct (Hvalid [] ltac:(vm_compute; reflexivity))
    as (t & valid & Hdl & Hiff).
  exists t. rewrite Hdl.
  replace valid with true by (symmetry; apply Hiff; reflexivity).
  reflexivity.
Defined.

Lemma failure_containment_witness :
  let envs := fun i : nat =>
                match i with
                | 0 => fresh_world unreachable no_files
                | _ => fresh_world (answering "err") no_files
                end in
  0 < 2
  /\ Permutation [1; 0] (seq 0 2)
  /\ exists all_results,
       run_workers sample_loads 0 2 envs [1; 0] = Ok all_results
       /\ List.length all_results = 2.
Proof.
  cbv zeta. split; [lia|]. split; [apply perm_swap|].
  destruct (failure_containment sample_loads 0 2
              (fun i : nat =>
                 match i with
                 | 0 => fresh_world unreachable no_files
                 | _ => fresh_world (answering "err") no_files
                 end)
              [1; 0] ltac:(lia) (perm_swap 0 1 []))
    as (all_results & Hrun & Hlen & _).
  exists all_results. split; [exact Hrun|exact Hlen].
Defined.

(** * Further properties of the client *)

Section MoreClient.

Variable json_loads : string -> result json.

(** X1.  What a call of [send_command] does to the world: it opens one
    connection; when the connection is accepted it writes the request once,
    logs the exception of a failed exchange, and closes the socket, whether
    the exchange failed or not; when the connection is refused the socket is
    not closed.  Clock, files and random source are left alone. *)
Theorem send_command_trace (command_str : string) (w : world) :
  let w' := snd (send_command json_loads command_str w) in
  trace w' =
    (trace w ++
     match net w (conns w) with
     | Refused _ => [EvConnect]
     | Accepted serve =>
         [EvConnect; EvSendall command_str]
         ++ match exchange json_loads serve command_str with
            | Ok _ => []
            | Raise e => [EvLog ("Error: " ++ e)]
            end
         ++ [EvClose]
     end)%list
  /\ conns w' = S (conns w)
  /\ net w' = net w
  /\ ticks w' = ticks w
  /\ fs w' = fs w
  /\ drawn w' = drawn w.
Proof.
  cbv zeta.
  destruct (net w (conns w)) as [msg|serve] eqn:H.
  - rewrite (send_command_refused _ _ _ _ H). repeat split.
  - rewrite (send_command_accepted _ _ _ _ H). cbv zeta.
    destruct (exchange json_loads serve command_str); cbn [snd];
      repeat split; cbn [trace log_event next_conn];
      rewrite <- !app_assoc; reflexivity.
Qed.

(** X2.  When the connection is accepted but the exchange fails (the write
    fails, a read raises, or the received text does not parse), [remote_get]
    returns [None]: the failure is not raised to the caller. *)
Theorem fetch_after_failed_exchange (filename : string) (w : world)
  (serve : string -> session) (e : string) :
  net w (conns w) = Accepted serve ->
  exchange json_loads serve ("GET " ++ filename ++ CRLF ++ CRLF) = Raise e ->
  fst (remote_get json_loads filename w) = Ok None.
Proof.
  intros Hnet Hex. unfold remote_get, bind, lift_result, ret.
  rewrite (send_command_accepted _ _ _ _ Hnet). cbv zeta. rewrite Hex.
  reflexivity.
Qed.

End MoreClient.

Lemma fetch_after_failed_exchange_witness :
  let w := fresh_world (answering "garbled") no_files in
  let serve := fun _ : string => Replies [RecvText ("garbled" ++ terminator)] in
  net w (conns w) = Accepted serve
  /\ exchange sample_loads serve ("GET f" ++ CRLF ++ CRLF)
     = Raise "Expecting value: line 1 column 1 (char 0)"
  /\ fst (remote_get sample_loads "f" w) = Ok None.
Proof.
  cbv zeta. split; [reflexivity|]. split; [reflexivity|].
  apply (fetch_after_failed_exchange sample_loads "f"
           (fresh_world (answering "garbled") no_files)
           (fun _ => Replies [RecvText ("garbled" ++ terminator)])
           "Expecting value: line 1 column 1 (char 0)");
    reflexivity.
Defined.

Section MoreWorkflow.

Variable json_loads : string -> result json.

Lemma len_nonneg (b : bytes) : (0 <= len b)%Z.
Proof. unfold len. apply Nat2Z.is_nonneg. Qed.

(** How the [try] block of a fresh worker ends: normally, with an upload and
    a download recorded, the download successful only after a successful
    upload; or by an exception, with no download recorded. *)
Lemma worker_body_shape size id w :
  let st0 := mkWstate (mkResult id None None None) w in
  match worker_body json_loads size (testfile_name id size) (source_name size)
          st0 with
  | (Ok _, st) =>
      error (results st) = None
      /\ exists u d,
           upload (results st) = Some u
           /\ download (results st) = Some d
           /\ (dl_success d = true -> up_success u = true)
           /\ (0 <= up_bytes u)%Z
           /\ (forall t n v, d = DownloadOk t n v -> (0 <= n)%Z)
  | (Raise _, st) =>
      error (results st) = None
      /\ download (results st) = None
      /\ forall u, upload (results st) = Some u -> (0 <= up_bytes u)%Z
  end.
Proof.
  intros st0. rewrite worker_body_cases.
  destruct (ensure_source_ok (source_name size) size st0)
    as (st1 & Hens & Hres1 & _).
  rewrite Hens. cbn [snd].
  pose proof (upload_phase_cases json_loads (testfile_name id size)
                (source_name size) st1) as Hcases.
  destruct (upload_phase json_loads (testfile_name id size) (source_name size)
              st1) as [[[file_data success]|e] st2].
  - destruct Hcases as (u0 & fields & Hres2 & Hsucc & Hbytes & _).
    rewrite Hres1 in Hres2. cbn [st0 results worker_id download error] in Hres2.
    assert (Hu0 : (0 <= up_bytes u0)%Z) by (rewrite Hbytes; apply len_nonneg).
    destruct success.
    + pose proof (verify_phase_frame json_loads (testfile_name id size) st2)
        as Hv.
      destruct (verify_phase json_loads (testfile_name id size) st2)
        as [[[|]|e] st3]; cbn [snd] in Hv.
      * rewrite download_phase_cases. cbv zeta.
        destruct (remote_get json_loads (testfile_name id size)
                    (next_tick (env st3))) as [[[d|]|e] w1];
          cbn [results error upload download]; rewrite Hv, Hres2;
          cbn [error upload download].
        -- split; [reflexivity|]. eexists; eexists.
           split; [reflexivity|]. split; [reflexivity|].
           split; [intros _; exact Hsucc|]. split; [exact Hu0|].
           intros t n v Hd. inversion Hd; subst. apply len_nonneg.
        -- split; [reflexivity|]. eexists; eexists.
           split; [reflexivity|]. split; [reflexivity|].
           split; [intros _; exact Hsucc|]. split; [exact Hu0|].
           intros t n v Hd. discriminate.
        -- split; [reflexivity|]. split; [reflexivity|].
           intros u Hu. inversion Hu; subst. exact Hu0.
      * cbn [set_download modify results error upload download].
        rewrite Hv, Hres2. cbn [error upload download].
        split; [reflexivity|]. eexists; eexists.
        split; [reflexivity|]. split; [reflexivity|].
        split; [intros _; exact Hsucc|]. split; [exact Hu0|].
        intros t n v Hd. discriminate.
      * rewrite Hv, Hres2. cbn [error upload download].
        split; [reflexivity|]. split; [reflexivity|].
        intros u Hu. inversion Hu; subst. exact Hu0.
    + cbn [set_download modify results error upload download].
      rewrite Hres2. cbn [error upload download].
      split; [reflexivity|]. eexists; eexists.
      split; [reflexivity|]. split; [reflexivity|].
      split; [intros Hd; discriminate|]. split; [exact Hu0|].
      intros t n v Hd. discriminate.
  - rewrite Hcases, Hres1. cbn [st0 results error download upload].
    split; [reflexivity|]. split; [reflexivity|].
    intros u Hu. discriminate.
Qed.

Lemma worker_result_invariant size id w r w' :
  worker_task json_loads size id w = (Ok r, w') ->
  ((error r = None
    /\ exists u d,
         upload r = Some u /\ download r = Some d
         /\ (dl_success d = true -> up_success u = true))
   \/ (exists e, error r = Some e /\ download r = None))
  /\ (forall u, upload r = Some u -> (0 <= up_bytes u)%Z)
  /\ (forall t n v, download r = Some (DownloadOk t n v) -> (0 <= n)%Z).
Proof.
  intros Hrun. rewrite worker_task_unfold in Hrun.
  pose proof (worker_body_shape size id w) as Hshape. cbv zeta in Hshape.
  destruct (worker_body json_loads size (testfile_name id size)
              (source_name size) (mkWstate (mkResult id None None None) w))
    as [[[]|e] st]; inversion Hrun; subst; clear Hrun.
  - destruct Hshape as (Herr & u & d & Hu & Hd & Himp & Hub & Hdb).
    split; [left; split; [exact Herr|]; exists u, d; repeat split; assumption|].
    split.
    + intros u' Hu'. rewrite Hu in Hu'. inversion Hu'; subst. exact Hub.
    + intros t n v Hd'. rewrite Hd in Hd'. inversion Hd'; subst.
      now apply (Hdb t n v).
  - destruct Hshape as (_ & Hd & Hub). cbn [error download upload].
    split; [right; exists e; split; [reflexivity|exact Hd]|].
    split; [exact Hub|]. intros t n v Hd'. rewrite Hd in Hd'. discriminate.
Qed.

Lemma download_needs_upload size id w r w' :
  worker_task json_loads size id w = (Ok r, w') ->
  Stats.download_ok r = true -> Stats.upload_ok r = true.
Proof.
  intros Hrun Hd.
  destruct (worker_result_invariant size id w r w' Hrun) as (Hshape & _).
  unfold Stats.download_ok, Stats.upload_ok in *.
  destruct Hshape as [(_ & u & d & Hu & Hdl & Himp)|(e & _ & Hnone)].
  - rewrite Hu. rewrite Hdl in Hd. now apply Himp.
  - rewrite Hnone in Hd. discriminate.
Qed.

(** X3.  The shape of every worker result: [worker_task] returns, keeps the
    worker's id, and records either an upload and a download and no error
    (the download successful only after a successful upload), or an error
    and no download.  Byte counts are never negative. *)
Theorem worker_result_shape (size id : nat) (w : world) :
  exists r w',
    worker_task json_loads size id w = (Ok r, w')
    /\ worker_id r = id
    /\ ((error r = None
         /\ exists u d,
              upload r = Some u /\ download r = Some d
              /\ (dl_success d = true -> up_success u = true))
        \/ (exists e, error r = Some e /\ download r = None))
    /\ (forall u, upload r = Some u -> (0 <= up_bytes u)%Z)
    /\ (forall t n v, download r = Some (DownloadOk t n v) -> (0 <= n)%Z).
Proof.
  destruct (worker_task_returns json_loads size id w) as (r & w' & Hrun).
  exists r, w'. split; [exact Hrun|].
  split; [exact (worker_task_id json_loads size id w r w' Hrun)|].
  exact (worker_result_invariant size id w r w' Hrun).
Qed.

End MoreWorkflow.

(** ** The report of [run_full_test] *)

Module MoreStats.

Import Stats.

Lemma py_max_raises xs e : py_max xs = Raise e ->
  xs = [] /\ e = "max() arg is an empty sequence".
Proof. destruct xs; cbn [py_max]; intros H; inversion H. now split. Qed.

Lemma py_max_some xs : xs <> [] -> exists m, py_max xs = Ok m.
Proof. destruct xs; [congruence|]. intros _. cbn [py_max]. eauto. Qed.

Lemma download_times_nil all_results :
  download_times all_results = [] <->
  forall r, In r all_results -> download_ok r = false.
Proof.
  unfold download_times, download_ok.
  induction all_results as [|r rs IH]; cbn [flat_map].
  - split; [intros _ r []|reflexivity].
  - split.
    + intros H. apply app_eq_nil in H as [Hr Hrs].
      intros r' [<-|Hin]; [|now apply IH].
      destruct (download r) as [[|]|]; [reflexivity|discriminate|reflexivity].
    + intros H. rewrite (proj2 IH) by (intros r' Hr'; apply H; now right).
      specialize (H r (or_introl eq_refl)).
      destruct (download r) as [[|]|]; [reflexivity|discriminate|reflexivity].
Qed.

Lemma upload_times_nil all_results :
  upload_times all_results = [] <->
  forall r, In r all_results -> upload r = None.
Proof.
  unfold upload_times.
  induction all_results as [|r rs IH]; cbn [flat_map].
  - split; [intros _ r []|reflexivity].
  - split.
    + intros H. apply app_eq_nil in H as [Hr Hrs].
      intros r' [<-|Hin]; [|now apply IH].
      destruct (upload r); [discriminate|reflexivity].
    + intros H. rewrite (proj2 IH) by (intros r' Hr'; apply H; now right).
      now rewrite (H r (or_introl eq_refl)).
Qed.

Lemma sum_shift (xs : list Z) : forall a, fold_left Z.add xs a = (a + sum xs)%Z.
Proof.
  unfold sum. induction xs as [|x xs IH]; intros a; cbn [fold_left].
  - lia.
  - rewrite IH, (IH (0 + x)%Z). lia.
Qed.

Lemma sum_cons x xs : sum (x :: xs) = (x + sum xs)%Z.
Proof. unfold sum at 1. cbn [fold_left]. rewrite sum_shift. lia. Qed.

Lemma sum_app xs ys : sum (xs ++ ys) = (sum xs + sum ys)%Z.
Proof.
  induction xs as [|x xs IH]; [reflexivity|].
  cbn [app]. rewrite !sum_cons, IH. lia.
Qed.

Lemma sum_nonneg xs : (forall x, In x xs -> (0 <= x)%Z) -> (0 <= sum xs)%Z.
Proof.
  induction xs as [|x xs IH]; intros H; [reflexivity|].
  rewrite sum_cons.
  assert ((0 <= x)%Z) by (apply H; now left).
  assert ((0 <= sum xs)%Z) by (apply IH; intros y Hy; apply H; now right).
  lia.
Qed.

Lemma filter_length_le {A} (f : A -> bool) l :
  List.length (filter f l) <= List.length l.
Proof.
  induction l as [|x l IH]; [reflexivity|].
  cbn [filter]. destruct (f x); simpl; lia.
Qed.

Lemma filter_length_mono {A} (f g : A -> bool) l :
  (forall x, In x l -> f x = true -> g x = true) ->
  List.length (filter f l) <= List.length (filter g l).
Proof.
  induction l as [|x l IH]; intros H; [reflexivity|].
  cbn [filter].
  assert (Hl : List.length (filter f l) <= List.length (filter g l))
    by (apply IH; intros y Hy; apply H; now right).
  destruct (f x) eqn:Hf.
  - rewrite (H x (or_introl eq_refl) Hf). simpl. lia.
  - destruct (g x); simpl; lia.
Qed.

Lemma throughput_of_nonneg total max_time :
  (0 <= total)%Z -> (0 <= throughput_of total max_time)%Q.
Proof.
  intros H. unfold throughput_of.
  destruct (Qltb 0 max_time) eqn:Hm; [|apply Qle_refl].
  apply StatsFacts.Qltb_true_lt in Hm.
  apply Qle_shift_div_l; [exact Hm|].
  rewrite Qmult_0_l. unfold Qle. simpl. lia.
Qed.

End MoreStats.

Section MoreReport.

Variable json_loads : string -> result json.

(** The results gathered from the pool are the results of the workers
    [0 .. N-1], each in its own environment. *)
Lemma gathered_results size N envs completed :
  0 < N ->
  Permutation completed (seq 0 N) ->
  exists all_results,
    run_workers json_loads size N envs completed = Ok all_results
    /\ List.length all_results = N
    /\ (forall r, In r all_results ->
          exists i w', i < N
                       /\ worker_task json_loads size i (envs i) = (Ok r, w'))
    /\ (forall i r, i < N ->
          fst (worker_task json_loads size i (envs i)) = Ok r ->
          In r all_results).
Proof.
  intros HN Hperm.
  assert (Hexec : make_executor N = Ok tt)
    by (unfold make_executor; destruct N; [lia|reflexivity]).
  unfold run_workers. rewrite Hexec.
  destruct (gather_each json_loads size envs completed)
    as (rs & Hrs & Hlen & Hnth).
  exists rs. split; [exact Hrs|]. split.
  { rewrite Hlen, (Permutation_length Hperm). apply length_seq. }
  split.
  - intros r Hin. apply In_nth_error in Hin as (p & Hp).
    assert (Hlt : p < List.length completed).
    { rewrite <- Hlen. apply nth_error_Some. congruence. }
    destruct (nth_error completed p) as [i|] eqn:Hi;
      [|apply nth_error_None in Hi; lia].
    destruct (Hnth p i Hi) as (r' & Hr' & Htask).
    rewrite Hp in Hr'. inversion Hr'; subst r'.
    exists i. destruct (worker_task json_loads size i (envs i)) as [res w'].
    cbn [fst] in Htask. subst res. exists w'. split; [|reflexivity].
    apply nth_error_In in Hi. apply (Permutation_in i Hperm) in Hi.
    apply in_seq in Hi. lia.
  - intros i r Hi Htask.
    assert (Hin : In i completed).
    { apply (Permutation_in i (Permutation_sym Hperm)). apply in_seq. lia. }
    apply In_nth_error in Hin as (p & Hp).
    destruct (Hnth p i Hp) as (r' & Hr' & Htask').
    rewrite Htask in Htask'. inversion Htask'; subst r'.
    now apply nth_error_In with p.
Qed.

(** X4.  [run_full_test] returns a report exactly when the download of at
    least one worker succeeded; when none did, it raises the [ValueError] of
    [max] on an empty sequence, however many uploads succeeded. *)
Theorem report_needs_a_download (size N : nat) (pool : bool)
  (envs : nat -> world) (completed : list nat) :
  0 < N ->
  Permutation completed (seq 0 N) ->
  match run_full_test json_loads size N pool envs completed with
  | Ok rep =>
      exists i r, i < N
                  /\ fst (worker_task json_loads size i (envs i)) = Ok r
                  /\ Stats.download_ok r = true
  | Raise e =>
      e = "max() arg is an empty sequence"
      /\ forall i r, i < N ->
           fst (worker_task json_loads size i (envs i)) = Ok r ->
           Stats.download_ok r = false
  end.
Proof.
  intros HN Hperm.
  destruct (gathered_results size N envs completed HN Hperm)
    as (rs & Hrun & _ & Hfrom & Hto).
  unfold run_full_test. rewrite Hrun. unfold Stats.statistics.
  destruct (Stats.py_max (Stats.upload_times rs)) as [mu|e] eqn:Hup.
  - destruct (Stats.py_max (Stats.download_times rs)) as [md|e] eqn:Hdown.
    + destruct (Stats.download_times rs) as [|t ts] eqn:Hts;
        [discriminate|].
      assert (Hsome : exists r, In r rs /\ Stats.download_ok r = true).
      { destruct (existsb Stats.download_ok rs) eqn:Hex.
        - apply existsb_exists in Hex. exact Hex.
        - exfalso.
          assert (Hnil : Stats.download_times rs = []).
          { apply MoreStats.download_times_nil. intros r Hr.
            destruct (Stats.download_ok r) eqn:Hr'; [|reflexivity].
            assert (existsb Stats.download_ok rs = true)
              by (apply existsb_exists; now exists r).
            congruence. }
          congruence. }
      destruct Hsome as (r & Hin & Hok).
      destruct (Hfrom r Hin) as (i & w' & Hi & Htask).
      exists i, r. split; [exact Hi|]. split; [now rewrite Htask|exact Hok].
    + apply MoreStats.py_max_raises in Hdown as [Hnil He].
      split; [exact He|]. intros i r Hi Htask.
      apply (proj1 (MoreStats.download_times_nil rs) Hnil).
      now apply (Hto i r).
  - apply MoreStats.py_max_raises in Hup as [Hnil He].
    split; [exact He|]. intros i r Hi Htask.
    destruct (Stats.download_ok r) eqn:Hok; [|reflexivity].
    exfalso.
    destruct (worker_task json_loads size i (envs i)) as [res w'] eqn:Hrun'.
    cbn [fst] in Htask. subst res.
    pose proof (download_needs_upload json_loads size i (envs i) r w' Hrun' Hok)
      as Hupok.
    pose proof (proj1 (MoreStats.upload_times_nil rs) Hnil r
                  (Hto i r Hi ltac:(now rewrite Hrun'))) as Hnone.
    unfold Stats.upload_ok in Hupok. rewrite Hnone in Hupok. discriminate.
Qed.

(** X5.  A report that [run_full_test] returns is consistent: it echoes the
    file size and the worker count; in each phase the successful and the
    failed counts add up to the worker count and neither is negative; no more
    downloads than uploads succeeded; byte totals and throughputs are not
    negative; and the reported time of a phase bounds the time of every
    worker's recorded upload, respectively successful download. *)
Theorem report_sanity (size N : nat) (pool : bool) (envs : nat -> world)
  (completed : list nat) (rep : Stats.report) :
  0 < N ->
  Permutation completed (seq 0 N) ->
  run_full_test json_loads size N pool envs completed = Ok rep ->
  let up := Stats.upload_stats rep in
  let down := Stats.download_stats rep in
  Stats.file_size_mb rep = size
  /\ Stats.num_workers rep = N
  /\ (Z.of_nat (Stats.successful up) + Stats.failed up = Z.of_nat N)%Z
  /\ (0 <= Stats.failed up)%Z
  /\ (Z.of_nat (Stats.successful down) + Stats.failed down = Z.of_nat N)%Z
  /\ (0 <= Stats.failed down)%Z
  /\ Stats.successful down <= Stats.successful up
  /\ (0 <= Stats.total_bytes up)%Z
  /\ (0 <= Stats.total_bytes down)%Z
  /\ (0 <= Stats.throughput up)%Q
  /\ (0 <= Stats.throughput down)%Q
  /\ forall i r, i < N ->
       fst (worker_task json_loads size i (envs i)) = Ok r ->
       (forall u, upload r = Some u ->
                  (up_time u <= Stats.total_time up)%Q)
       /\ (forall t n v, download r = Some (DownloadOk t n v) ->
                         (t <= Stats.total_time down)%Q).
Proof.
  intros HN Hperm Hrep.
  destruct (gathered_results size N envs completed HN Hperm)
    as (rs & Hrun & Hlen & Hfrom & Hto).
  unfold run_full_test in Hrep. rewrite Hrun in Hrep.
  unfold Stats.statistics in Hrep.
  pose proof (StatsFacts.py_max_spec (Stats.upload_times rs)) as Hmu.
  pose proof (StatsFacts.py_max_spec (Stats.download_times rs)) as Hmd.
  destruct (Stats.py_max (Stats.upload_times rs)) as [mu|e]; [|discriminate].
  destruct (Stats.py_max (Stats.download_times rs)) as [md|e]; [|discriminate].
  inversion Hrep; subst rep; clear Hrep. cbv zeta.
  cbn [Stats.upload_stats Stats.download_stats Stats.file_size_mb
       Stats.num_workers Stats.successful Stats.failed Stats.total_bytes
       Stats.throughput Stats.total_time].
  pose proof (MoreStats.filter_length_le Stats.upload_ok rs) as Hfu.
  pose proof (MoreStats.filter_length_le Stats.download_ok rs) as Hfd.
  assert (Hmono : List.length (filter Stats.download_ok rs)
                  <= List.length (filter Stats.upload_ok rs)).
  { apply MoreStats.filter_length_mono. intros r Hin Hok.
    destruct (Hfrom r Hin) as (i & w' & _ & Htask).
    exact (download_needs_upload json_loads size i (envs i) r w' Htask Hok). }
  assert (Hub : (0 <= Stats.sum (Stats.upload_bytes rs))%Z).
  { apply MoreStats.sum_nonneg. intros x Hx.
    unfold Stats.upload_bytes in Hx.
    apply in_flat_map in Hx as (r & Hin & Hx).
    destruct (Hfrom r Hin) as (i & w' & _ & Htask).
    destruct (worker_result_invariant json_loads size i (envs i) r w' Htask)
      as (_ & Hnn & _).
    destruct (upload r) as [u|] eqn:Hu; [|destruct Hx].
    destruct (up_success u); [|destruct Hx].
    destruct Hx as [<-|[]]. now apply Hnn. }
  assert (Hdb : (0 <= Stats.sum (Stats.download_bytes rs))%Z).
  { apply MoreStats.sum_nonneg. intros x Hx.
    unfold Stats.download_bytes in Hx.
    apply in_flat_map in Hx as (r & Hin & Hx).
    destruct (Hfrom r Hin) as (i & w' & _ & Htask).
    destruct (worker_result_invariant json_loads size i (envs i) r w' Htask)
      as (_ & _ & Hnn).
    destruct (download r) as [[msg|t n v]|] eqn:Hd;
      [destruct Hx| |destruct Hx].
    destruct Hx as [<-|[]]. now apply (Hnn t n v). }
  split; [reflexivity|]. split; [reflexivity|].
  split; [lia|]. split; [lia|]. split; [lia|]. split; [lia|].
  split; [exact Hmono|]. split; [exact Hub|]. split; [exact Hdb|].
  split; [now apply MoreStats.throughput_of_nonneg|].
  split; [now apply MoreStats.throughput_of_nonneg|].
  intros i r Hi Htask. pose proof (Hto i r Hi Htask) as Hin. split.
  - intros u Hu. apply (proj2 Hmu).
    unfold Stats.upload_times. apply in_flat_map.
    exists r. split; [exact Hin|]. rewrite Hu. now left.
  - intros t n v Hd. apply (proj2 Hmd).
    unfold Stats.download_times. apply in_flat_map.
    exists r. split; [exact Hin|]. rewrite Hd. now left.
Qed.

End MoreReport.

(** ** The order of completion *)

Module OrderFacts.

Import Stats.

Lemma filter_length_perm {A} (f : A -> bool) l l' :
  Permutation l l' -> List.length (filter f l) = List.length (filter f l').
Proof.
  induction 1 as [|x l l' _ IH|x y l|l l' l'' _ IH1 _ IH2].
  - reflexivity.
  - cbn [filter]. destruct (f x); simpl; now rewrite IH.
  - cbn [filter]. destruct (f x), (f y); reflexivity.
  - now rewrite IH1.
Qed.

Lemma sum_perm xs ys : Permutation xs ys -> sum xs = sum ys.
Proof.
  induction 1 as [|x l l' _ IH|x y l|l l' l'' _ IH1 _ IH2].
  - reflexivity.
  - now rewrite !MoreStats.sum_cons, IH.
  - rewrite !MoreStats.sum_cons. lia.
  - now rewrite IH1.
Qed.

Lemma py_max_perm xs ys :
  Permutation xs ys ->
  match py_max xs, py_max ys with
  | Ok m, Ok m' => (m == m')%Q
  | Raise e, Raise e' => e = e'
  | _, _ => False
  end.
Proof.
  intros Hperm.
  pose proof (StatsFacts.py_max_spec xs) as Hx.
  pose proof (StatsFacts.py_max_spec ys) as Hy.
  destruct (py_max xs) as [m|e] eqn:Hmx, (py_max ys) as [m'|e'] eqn:Hmy.
  - destruct Hx as [Hin Hle], Hy as [Hin' Hle'].
    apply Qle_antisym.
    + apply Hle'. now apply (Permutation_in m Hperm).
    + apply Hle. now apply (Permutation_in m' (Permutation_sym Hperm)).
  - subst ys. apply Permutation_sym, Permutation_nil in Hperm. subst xs.
    discriminate.
  - subst xs. apply Permutation_nil in Hperm. subst ys. discriminate.
  - apply MoreStats.py_max_raises in Hmx as [_ ->].
    apply MoreStats.py_max_raises in Hmy as [_ ->]. reflexivity.
Qed.

Lemma Qltb_compat a b b' : (b == b')%Q -> Qltb a b = Qltb a b'.
Proof.
  intros H. unfold Qltb. f_equal.
  apply eq_true_iff_eq. rewrite !Qle_bool_iff. now rewrite H.
Qed.

Lemma throughput_of_compat total m m' :
  (m == m')%Q -> (throughput_of total m == throughput_of total m')%Q.
Proof.
  intros H. unfold throughput_of. rewrite (Qltb_compat 0 m m' H).
  destruct (Qltb 0 m'); [now rewrite H|reflexivity].
Qed.

(** The statistics of a rearranged list of results. *)
Lemma statistics_perm size n pool l l' :
  Permutation l l' ->
  match statistics size n pool l, statistics size n pool l' with
  | Ok r, Ok r' => same_report r r'
  | Raise e, Raise e' => e = e'
  | _, _ => False
  end.
Proof.
  intros Hperm. unfold statistics.
  pose proof (py_max_perm _ _
                (Permutation_flat_map
                   (fun r => match upload r with
                             | Some u => [up_time u]
                             | None => []
                             end) Hperm)) as Hup.
  pose proof (py_max_perm _ _
                (Permutation_flat_map
                   (fun r => match download r with
                             | Some (DownloadOk t _ _) => [t]
                             | _ => []
                             end) Hperm)) as Hdown.
  fold (upload_times l) (upload_times l') in Hup.
  fold (download_times l) (download_times l') in Hdown.
  assert (Hub : sum (upload_bytes l) = sum (upload_bytes l'))
    by (apply sum_perm; unfold upload_bytes;
        now apply Permutation_flat_map).
  assert (Hdb : sum (download_bytes l) = sum (download_bytes l'))
    by (apply sum_perm; unfold download_bytes;
        now apply Permutation_flat_map).
  destruct (py_max (upload_times l)) as [mu|e],
           (py_max (upload_times l')) as [mu'|e']; try contradiction.
  - destruct (py_max (download_times l)) as [md|e],
             (py_max (download_times l')) as [md'|e']; try contradiction.
    + unfold same_report, same_phase.
      cbn [file_size_mb num_workers pool_type upload_stats download_stats
           successful failed total_bytes total_time throughput].
      rewrite (filter_length_perm upload_ok l l' Hperm),
              (filter_length_perm download_ok l l' Hperm), Hub, Hdb.
      repeat split; try assumption; now apply throughput_of_compat.
    + exact Hdown.
  - exact Hup.
Qed.

End OrderFacts.

Section MoreOrder.

Variable json_loads : string -> result json.

Lemma gather_map size envs completed :
  exists f : nat -> worker_result,
    (forall i, fst (worker_task json_loads size i (envs i)) = Ok (f i))
    /\ gather json_loads size envs completed = Ok (map f completed).
Proof.
  exists (fun i => match fst (worker_task json_loads size i (envs i)) with
                   | Ok r => r
                   | Raise _ => mkResult i None None None
                   end).
  assert (Hf : forall i,
             fst (worker_task json_loads size i (envs i)) =
             Ok match fst (worker_task json_loads size i (envs i)) with
                | Ok r => r
                | Raise _ => mkResult i None None None
                end).
  { intros i.
    destruct (worker_task_returns json_loads size i (envs i))
      as (r & w' & Hr).
    now rewrite Hr. }
  split; [exact Hf|].
  induction completed as [|i rest IH]; [reflexivity|].
  cbn [gather map]. rewrite IH.
  destruct (worker_task_returns json_loads size i (envs i)) as (r & w' & Hr).
  rewrite Hr. reflexivity.
Qed.

(** X6.  The report does not depend on the order in which the workers
    complete: two runs of the same workers that differ only in the order in
    which [as_completed] yields them give reports with the same counts and
    byte totals and equal times and throughputs, or both raise the same
    exception. *)
Theorem report_order_independent (size N : nat) (pool : bool)
  (envs : nat -> world) (completed completed' : list nat) :
  0 < N ->
  Permutation completed (seq 0 N) ->
  Permutation completed' (seq 0 N) ->
  match run_full_test json_loads size N pool envs completed,
        run_full_test json_loads size N pool envs completed' with
  | Ok rep, Ok rep' => same_report rep rep'
  | Raise e, Raise e' => e = e'
  | _, _ => False
  end.
Proof.
  intros HN Hperm Hperm'.
  assert (Hexec : make_executor N = Ok tt)
    by (unfold make_executor; destruct N; [lia|reflexivity]).
  unfold run_full_test, run_workers. rewrite Hexec.
  destruct (gather_map size envs completed) as (f & Hf & Hg).
  destruct (gather_map size envs completed') as (f' & Hf' & Hg').
  rewrite Hg, Hg'.
  assert (Hsame : map f' completed' = map f completed').
  { apply map_ext. intros i. pose proof (Hf i) as H1. rewrite Hf' in H1.
    now inversion H1. }
  rewrite Hsame.
  apply OrderFacts.statistics_perm. apply Permutation_map.
  apply (Permutation_trans Hperm). now apply Permutation_sym.
Qed.

End MoreOrder.

(** ** A server that honours the protocol *)

Section EchoServer.

Variable json_loads : string -> result json.

(** A call on an accepted connection whose exchange succeeds. *)
Lemma send_command_ok command_str w serve hasil :
  net w (conns w) = Accepted serve ->
  exchange json_loads serve command_str = Ok hasil ->
  exists w',
    send_command json_loads command_str w = (Ok hasil, w')
    /\ net w' = net w
    /\ conns w' = S (conns w)
    /\ fs w' = fs w.
Proof.
  intros Hnet Hex. rewrite (send_command_accepted _ _ _ _ Hnet). cbv zeta.
  rewrite Hex. eexists. split; [reflexivity|]. repeat split.
Qed.

Lemma ensure_source_present test_filename size st data :
  fs (env st) test_filename = Some data ->
  ensure_source test_filename size st = (Ok tt, st).
Proof.
  intros H. unfold ensure_source, bind, io, Sys.path_exists, gets, ret.
  rewrite H. destruct st. reflexivity.
Qed.

Lemma upload_phase_ok filename test_filename st file_data serve fields :
  fs (env st) test_filename = Some file_data ->
  net (env st) (conns (env st)) = Accepted serve ->
  exchange json_loads serve
    ("UPLOAD " ++ filename ++ CRLF ++ Base64.b64encode file_data
     ++ CRLF ++ CRLF) = Ok (JDict fields) ->
  let success := match Py.lookup "status" fields with
                 | Some v => Py.eq_str v "OK"
                 | None => false
                 end in
  exists st' t,
    upload_phase json_loads filename test_filename st
    = (Ok (file_data, success), st')
    /\ results st' =
       mkResult (worker_id (results st))
         (Some (mkUpload success t (len file_data) (JDict fields)))
         (download (results st)) (error (results st))
    /\ net (env st') = net (env st)
    /\ conns (env st') = S (conns (env st))
    /\ fs (env st') = fs (env st).
Proof.
  intros Hfs Hnet Hex success.
  unfold upload_phase, bind, io, Sys.time_time, Sys.read_file, lift_result,
    set_upload, modify, ret, remote_upload.
  cbn [env results fs next_tick]. rewrite Hfs. cbn [env results].
  destruct (send_command_ok _ (next_tick (env st)) serve (JDict fields)
              Hnet Hex) as (w1 & Hsend & Hn1 & Hc1 & Hf1).
  rewrite Hsend. cbn [Py.dict_get env results].
  eexists; eexists. split; [reflexivity|]. cbn [results env].
  split; [reflexivity|]. repeat split; assumption.
Qed.

Lemma verify_phase_ok filename st serve fields :
  net (env st) (conns (env st)) = Accepted serve ->
  exchange json_loads serve ("LIST" ++ CRLF ++ CRLF) = Ok (JDict fields) ->
  exists st',
    verify_phase json_loads filename st =
    (Py.str_in filename (match Py.lookup "data" fields with
                         | Some v => v
                         | None => JList []
                         end), st')
    /\ results st' = results st
    /\ net (env st') = net (env st)
    /\ conns (env st') = S (conns (env st)).
Proof.
  intros Hnet Hex.
  unfold verify_phase, bind, io, lift_result, remote_list.
  destruct (send_command_ok _ (env st) serve (JDict fields) Hnet Hex)
    as (w1 & Hsend & Hn1 & Hc1 & _).
  rewrite Hsend. cbn [Py.dict_get env results].
  eexists. split; [reflexivity|]. repeat split; assumption.
Qed.

Lemma remote_get_ok filename w serve fields payload :
  net w (conns w) = Accepted serve ->
  exchange json_loads serve ("GET " ++ filename ++ CRLF ++ CRLF)
    = Ok (JDict fields) ->
  Py.lookup "status" fields = Some (JStr "OK") ->
  Py.lookup "data_file" fields = Some (JStr (Base64.b64encode payload)) ->
  exists w', remote_get json_loads filename w = (Ok (Some payload), w').
Proof.
  intros Hnet Hex Hst Hdf.
  destruct (send_command_ok _ w serve (JDict fields) Hnet Hex)
    as (w1 & Hsend & _).
  unfold remote_get, bind, lift_result, ret. rewrite Hsend.
  cbn [Py.getitem]. rewrite Hst. cbn [Py.eq_str].
  change (("OK" =? "OK")%string) with true. cbv iota.
  rewrite Hdf. cbn [Py.b64decode].
  rewrite Base64Facts.b64decode_b64encode. now exists w1.
Qed.

(** X7.  Against a server that honours the protocol, the workflow succeeds
    end to end, whatever the payload: if the source file holds [file_data],
    the server answers the UPLOAD with status OK, lists the uploaded name,
    and answers the GET with status OK and the base64 text of [file_data],
    then the worker records a successful upload of [len file_data] bytes and
    a successful download of as many bytes with [data_valid] true, and no
    error. *)
Theorem echo_server_round_trip (size id : nat) (w : world) (file_data : bytes)
  (s1 s2 s3 : string -> session) (f1 f2 f3 : list (string * json))
  (names : list json) :
  let filename := testfile_name id size in
  fs w (source_name size) = Some file_data ->
  net w (conns w) = Accepted s1 ->
  exchange json_loads s1
    ("UPLOAD " ++ filename ++ CRLF ++ Base64.b64encode file_data
     ++ CRLF ++ CRLF) = Ok (JDict f1) ->
  Py.lookup "status" f1 = Some (JStr "OK") ->
  net w (S (conns w)) = Accepted s2 ->
  exchange json_loads s2 ("LIST" ++ CRLF ++ CRLF) = Ok (JDict f2) ->
  Py.lookup "data" f2 = Some (JList names) ->
  In (JStr filename) names ->
  net w (S (S (conns w))) = Accepted s3 ->
  exchange json_loads s3 ("GET " ++ filename ++ CRLF ++ CRLF)
    = Ok (JDict f3) ->
  Py.lookup "status" f3 = Some (JStr "OK") ->
  Py.lookup "data_file" f3 = Some (JStr (Base64.b64encode file_data)) ->
  exists r w' t t',
    worker_task json_loads size id w = (Ok r, w')
    /\ r = mkResult id
             (Some (mkUpload true t (len file_data) (JDict f1)))
             (Some (DownloadOk t' (len file_data) true))
             None.
Proof.
  intros filename Hfs Hn1 Hx1 Hst1 Hn2 Hx2 Hdata Hin Hn3 Hx3 Hst3 Hdf.
  rewrite worker_task_unfold, worker_body_cases. fold filename.
  set (st0 := mkWstate (mkResult id None None None) w).
  rewrite (ensure_source_present (source_name size) size st0 file_data Hfs).
  cbn [snd].
  destruct (upload_phase_ok filename (source_name size) st0 file_data s1 f1
              Hfs Hn1 Hx1) as (st2 & t & Hup & Hres2 & Hnet2 & Hconn2 & _).
  rewrite Hst1 in Hup, Hres2. cbn [Py.eq_str] in Hup, Hres2.
  change (("OK" =? "OK")%string) with true in Hup, Hres2.
  rewrite Hup.
  assert (Hn2' : net (env st2) (conns (env st2)) = Accepted s2)
    by (rewrite Hnet2, Hconn2; exact Hn2).
  destruct (verify_phase_ok filename st2 s2 f2 Hn2' Hx2)
    as (st3 & Hver & Hres3 & Hnet3 & Hconn3).
  rewrite Hdata in Hver. cbn [Py.str_in] in Hver.
  assert (Hlisted : existsb (fun x => Py.eq_str x filename) names = true).
  { apply existsb_exists. exists (JStr filename). split; [exact Hin|].
    cbn [Py.eq_str]. apply String.eqb_refl. }
  rewrite Hlisted in Hver. rewrite Hver.
  rewrite download_phase_cases. cbv zeta.
  assert (Hn3' : net (next_tick (env st3)) (conns (next_tick (env st3)))
                 = Accepted s3).
  { cbn [net conns next_tick]. rewrite Hnet3, Hconn3, Hnet2, Hconn2.
    exact Hn3. }
  destruct (remote_get_ok filename (next_tick (env st3)) s3 f3 file_data
              Hn3' Hx3 Hst3 Hdf) as (w4 & Hget).
  rewrite Hget. cbn [results env].
  rewrite Hres3, Hres2. cbn [worker_id upload download error st0 results].
  assert (Hvalid : bytes_eqb (firstn 10 file_data) (firstn 10 file_data) = true)
    by now apply bytes_eqb_eq.
  rewrite Hvalid.
  eexists; eexists; eexists; eexists. split; reflexivity.
Qed.

End EchoServer.

(** ** The source fixture and the file names *)

(** X8.  [ensure_source] leaves a readable source file behind and touches
    nothing else: an existing file is kept as it is and no random bytes are
    drawn; a missing file is created with exactly [size_mb * 1024 * 1024]
    bytes; every other file, the results and the trace are unchanged; and the
    read that follows in the upload phase cannot fail. *)
Theorem source_fixture (test_filename : string) (size_mb : nat) (st : wstate) :
  let st' := snd (ensure_source test_filename size_mb st) in
  fst (ensure_source test_filename size_mb st) = Ok tt
  /\ results st' = results st
  /\ trace (env st') = trace (env st)
  /\ (forall other, other <> test_filename ->
        fs (env st') other = fs (env st) other)
  /\ exists data,
       Sys.read_file test_filename (env st') = (Ok data, env st')
       /\ match fs (env st) test_filename with
          | Some old => data = old /\ drawn (env st') = drawn (env st)
          | None =>
              List.length data = size_mb * 1024 * 1024
              /\ drawn (env st') = size_mb * 1024 * 1024 + drawn (env st)
          end.
Proof.
  cbv zeta.
  unfold ensure_source, generate_test_file, bind, io, Sys.path_exists, gets,
    Sys.urandom, Sys.write_file, modify, ret, Sys.read_file.
  destruct (fs (env st) test_filename) as [old|] eqn:Hfs; cbn [fst snd env results].
  - split; [reflexivity|]. split; [reflexivity|]. split; [reflexivity|].
    split; [reflexivity|]. exists old. rewrite Hfs. now split.
  - split; [reflexivity|]. split; [reflexivity|]. split; [reflexivity|].
    split.
    + intros other Hother. cbn [fs store_file draw].
      destruct (String.eqb_spec other test_filename); [contradiction|reflexivity].
    + eexists. cbn [fs store_file draw drawn]. rewrite String.eqb_refl.
      split; [reflexivity|]. split; [|reflexivity].
      now rewrite length_map, length_seq.
Qed.

Lemma length_append (a b : string) :
  String.length (a ++ b) = String.length a + String.length b.
Proof. induction a as [|x a IH]; [reflexivity|]. simpl. now rewrite IH. Qed.

Lemma append_cancel_r (a b c : string) : a ++ c = b ++ c -> a = b.
Proof.
  revert b. induction a as [|x a IH]; intros [|y b] H.
  - reflexivity.
  - exfalso. apply (f_equal String.length) in H.
    simpl in H. rewrite length_append in H. lia.
  - exfalso. apply (f_equal String.length) in H.
    simpl in H. rewrite length_append in H. lia.
  - simpl in H. inversion H; subst. f_equal. now apply IH.
Qed.

(** Text is cut at the first [c] in one way only. *)
Lemma cut_unique (c : ascii) (a a' r r' : string) :
  lacks c a = true -> lacks c a' = true ->
  a ++ String c r = a' ++ String c r' -> a = a' /\ r = r'.
Proof.
  revert a'. induction a as [|x a IH]; intros [|y a'] Ha Ha' H;
    cbn [lacks] in Ha, Ha'; simpl in H.
  - inversion H. now split.
  - inversion H; subst y. apply andb_prop in Ha' as [Hy _].
    rewrite Ascii.eqb_refl in Hy. discriminate.
  - inversion H; subst x. apply andb_prop in Ha as [Hx _].
    rewrite Ascii.eqb_refl in Hx. discriminate.
  - inversion H; subst y.
    apply andb_prop in Ha as [_ Ha]. apply andb_prop in Ha' as [_ Ha'].
    destruct (IH a' Ha Ha' H2) as [-> ->]. now split.
Qed.

Lemma digits_lack (c : ascii) (d : Decimal.uint) :
  (N_of_ascii c <? 48)%N || (57 <? N_of_ascii c)%N = true ->
  lacks c (NilEmpty.string_of_uint d) = true.
Proof.
  intros Hc.
  assert (Hne : forall x : ascii,
             (48 <=? N_of_ascii x)%N && (N_of_ascii x <=? 57)%N = true ->
             negb (Ascii.eqb x c) = true).
  { intros x Hx. apply negb_true_iff, Ascii.eqb_neq. intros ->.
    apply andb_prop in Hx as [H1 H2].
    apply N.leb_le in H1. apply N.leb_le in H2.
    apply orb_prop in Hc as [H|H]; apply N.ltb_lt in H; lia. }
  induction d; cbn [NilEmpty.string_of_uint lacks]; [reflexivity|..];
    rewrite IHd, andb_true_r; apply Hne; reflexivity.
Qed.

Lemma str_of_nat_inj (n m : nat) : str_of_nat n = str_of_nat m -> n = m.
Proof.
  unfold str_of_nat. intros H.
  apply DecimalNat.Unsigned.to_uint_inj.
  assert (Hs : Some (Nat.to_uint n) = Some (Nat.to_uint m))
    by (rewrite <- !NilEmpty.usu; now rewrite H).
  now inversion Hs.
Qed.

(** X9.  The remote file name identifies the worker and the size: two
    workers never upload under the same name, and the name never clashes
    with the name of a local source file. *)
Theorem testfile_name_injective (i j size size' : nat) :
  (testfile_name i size = testfile_name j size' -> i = j /\ size = size')
  /\ testfile_name i size <> source_name size'.
Proof.
  split.
  - unfold testfile_name. intros H.
    cbn [String.append] in H. inversion H as [H0]. clear H.
    apply cut_unique in H0 as [Hi Hs];
      [|apply digits_lack; reflexivity|apply digits_lack; reflexivity].
    split; [now apply str_of_nat_inj|].
    apply append_cancel_r in Hs. now apply str_of_nat_inj.
  - unfold testfile_name, source_name. intros H. simpl in H. discriminate.
Qed.

(** ** Transport failures inside the workflow *)

Section FailureModes.

Variable json_loads : string -> result json.

(** X11.  How a failure of the upload's transport shows in the worker
    result, the source file being present.  A refused connection is recorded
    as the worker's [error], with no upload and no download entry.  A
    failure after the connection was accepted (write, read or parse) is
    recorded as an unsuccessful upload that keeps the exception text in its
    server response, with the download skipped and no [error]. *)
Theorem upload_failure_modes (size id : nat) (w : world) (file_data : bytes) :
  fs w (source_name size) = Some file_data ->
  match net w (conns w) with
  | Refused msg =>
      fst (worker_task json_loads size id w)
      = Ok (mkResult id None None (Some msg))
  | Accepted serve =>
      forall e,
        exchange json_loads serve
          ("UPLOAD " ++ testfile_name id size ++ CRLF
           ++ Base64.b64encode file_data ++ CRLF ++ CRLF) = Raise e ->
        fst (worker_task json_loads size id w)
        = Ok (mkResult id
                (Some (mkUpload false
                         (clock w (S (ticks w)) - clock w (ticks w))%Q
                         (len file_data)
                         (JDict [("status", JStr "ERROR");
                                 ("data", JStr e)])))
                (Some (DownloadFailed "Upload failed, skipping download"))
                None)
  end.
Proof.
  intros Hfs.
  rewrite worker_task_unfold, worker_body_cases.
  set (st0 := mkWstate (mkResult id None None None) w).
  rewrite (ensure_source_present (source_name size) size st0 file_data Hfs).
  cbn [snd].
  unfold upload_phase, bind, io, Sys.time_time, Sys.read_file, lift_result,
    set_upload, modify, ret, remote_upload.
  cbn [st0 env results fs next_tick]. rewrite Hfs. cbn [env results].
  destruct (net w (conns w)) as [msg|serve] eqn:Hnet.
  - rewrite (send_command_refused json_loads _ (next_tick w) msg Hnet).
    reflexivity.
  - intros e Hex.
    rewrite (send_command_accepted json_loads _ (next_tick w) serve Hnet).
    cbv zeta. rewrite Hex. reflexivity.
Qed.

(** X12.  A LIST exchange that fails after a successful upload is not an
    error of the worker: the transport's error response carries the
    exception text as its [data], the file name is looked for in that text,
    and, not being found there, the download is recorded as failed with
    "File not found on server after upload". *)
Theorem list_failure_mode (size id : nat) (w : world) (file_data : bytes)
  (s1 s2 : string -> session) (f1 : list (string * json)) (e : string) :
  let filename := testfile_name id size in
  fs w (source_name size) = Some file_data ->
  net w (conns w) = Accepted s1 ->
  exchange json_loads s1
    ("UPLOAD " ++ filename ++ CRLF ++ Base64.b64encode file_data
     ++ CRLF ++ CRLF) = Ok (JDict f1) ->
  Py.lookup "status" f1 = Some (JStr "OK") ->
  net w (S (conns w)) = Accepted s2 ->
  exchange json_loads s2 ("LIST" ++ CRLF ++ CRLF) = Raise e ->
  contains filename e = false ->
  exists r w' t,
    worker_task json_loads size id w = (Ok r, w')
    /\ r = mkResult id
             (Some (mkUpload true t (len file_data) (JDict f1)))
             (Some (DownloadFailed "File not found on server after upload"))
             None
    /\ connections (trace w') = 2 + connections (trace w).
Proof.
  intros filename Hfs Hn1 Hx1 Hst1 Hn2 Hx2 Hnot.
  rewrite worker_task_unfold, worker_body_cases. fold filename.
  set (st0 := mkWstate (mkResult id None None None) w).
  rewrite (ensure_source_present (source_name size) size st0 file_data Hfs).
  cbn [snd].
  pose proof (upload_phase_cases json_loads filename (source_name size) st0)
    as Hcases.
  destruct (upload_phase_ok json_loads filename (source_name size) st0
              file_data s1 f1 Hfs Hn1 Hx1)
    as (st2 & t & Hup & Hres2 & Hnet2 & Hconn2 & _).
  rewrite Hup in Hcases.
  destruct Hcases as (_ & _ & _ & _ & _ & _ & _ & _ & Htr2 & _).
  rewrite Hst1 in Hup, Hres2. cbn [Py.eq_str] in Hup, Hres2.
  change (("OK" =? "OK")%string) with true in Hup, Hres2.
  rewrite Hup.
  assert (Hn2' : net (env st2) (conns (env st2)) = Accepted s2)
    by (rewrite Hnet2, Hconn2; exact Hn2).
  pose proof (send_command_connections json_loads ("LIST" ++ CRLF ++ CRLF)
                (env st2)) as Htr3.
  unfold verify_phase, bind, io, lift_result, remote_list.
  rewrite (send_command_accepted json_loads _ (env st2) s2 Hn2') in Htr3 |- *.
  cbv zeta in Htr3 |- *. rewrite Hx2 in Htr3 |- *.
  cbn [snd] in Htr3. cbn [env results Py.dict_get error_response Py.lookup].
  change (("status" =? "data")%string) with false.
  change (("data" =? "data")%string) with true. cbv iota.
  cbn [Py.str_in]. rewrite Hnot.
  cbn [negb set_download modify results env].
  rewrite Hres2. cbn [worker_id upload download error st0 results].
  eexists; eexists; eexists. split; [reflexivity|]. split; [reflexivity|].
  rewrite Htr3, Htr2. reflexivity.
Qed.

End FailureModes.

(** ** The shape of encoded payloads *)

Module PayloadFacts.

Import Base64.
Local Open Scope N_scope.

Lemma b2a_code s : s < 64 -> 43 <= N_of_ascii (b2a s).
Proof.
  intros H. apply N.leb_le.
  apply (Base64Facts.below_check 64 (fun s => 43 <=? N_of_ascii (b2a s)));
    [now vm_compute|exact H].
Qed.

Lemma b2a_differs (c : ascii) s :
  N_of_ascii c < 43 -> s < 64 -> negb (Ascii.eqb (b2a s) c) = true.
Proof.
  intros Hc Hs. apply negb_true_iff, Ascii.eqb_neq. intros Heq.
  pose proof (b2a_code s Hs) as H. rewrite Heq in H. lia.
Qed.

Lemma encoded_lacks (c : ascii) (bs : bytes) :
  N_of_ascii c < 43 -> lacks c (b64encode bs) = true.
Proof.
  intros Hc.
  assert (Hpad : negb (Ascii.eqb pad c) = true).
  { apply negb_true_iff, Ascii.eqb_neq. intros <-. vm_compute in Hc.
    discriminate. }
  induction bs as [|a|a b|a b d rest IH] using Base64Facts.bytes_ind3.
  - reflexivity.
  - pose proof (Base64Facts.to_N_below a) as Ha.
    cbn [b64encode lacks]. rewrite Hpad.
    rewrite !b2a_differs; [reflexivity|exact Hc| |exact Hc|].
    + apply Base64Facts.sextet1_below; [exact Ha|reflexivity].
    + now apply Base64Facts.sextet0_below.
  - pose proof (Base64Facts.to_N_below a) as Ha.
    pose proof (Base64Facts.to_N_below b) as Hb.
    cbn [b64encode lacks]. rewrite Hpad.
    rewrite !b2a_differs; [reflexivity|exact Hc| |exact Hc| |exact Hc|].
    + apply Base64Facts.sextet2_below; [exact Hb|reflexivity].
    + now apply Base64Facts.sextet1_below.
    + now apply Base64Facts.sextet0_below.
  - pose proof (Base64Facts.to_N_below a) as Ha.
    pose proof (Base64Facts.to_N_below b) as Hb.
    pose proof (Base64Facts.to_N_below d) as Hd.
    cbn [b64encode lacks]. rewrite IH.
    rewrite !b2a_differs; [reflexivity|exact Hc| |exact Hc| |exact Hc|
                           |exact Hc|].
    + now apply Base64Facts.sextet3_below.
    + now apply Base64Facts.sextet2_below.
    + now apply Base64Facts.sextet1_below.
    + now apply Base64Facts.sextet0_below.
Qed.

Lemma encoded_length (bs : bytes) :
  String.length (b64encode bs) = (4 * ((List.length bs + 2) / 3))%nat.
Proof.
  induction bs as [|a|a b|a b d rest IH] using Base64Facts.bytes_ind3;
    try reflexivity.
  cbn [b64encode String.length List.length]. rewrite IH.
  replace (S (S (S (List.length rest))) + 2)%nat
    with (List.length rest + 2 + 1 * 3)%nat by lia.
  rewrite Nat.div_add by lia. lia.
Qed.

(** X10.  The payload line of an UPLOAD request is plain text that cannot
    break the frame: for every byte sequence, its encoding has
    [4 * ceil(n / 3)] characters, all of them ASCII, none of them a carriage
    return, a line feed or a space. *)
Theorem encoded_payload_text (bs : bytes) :
  String.length (b64encode bs) = (4 * ((List.length bs + 2) / 3))%nat
  /\ all_ascii (b64encode bs) = true
  /\ lacks CR (b64encode bs) = true
  /\ lacks LF (b64encode bs) = true
  /\ lacks " " (b64encode bs) = true.
Proof.
  split; [apply encoded_length|].
  split; [apply Base64Facts.encoded_all_ascii|].
  split; [|split]; apply encoded_lacks; vm_compute; reflexivity.
Qed.

End PayloadFacts.

(** ** Instances of the further properties *)

Lemma report_needs_a_download_witness :
  0 < 1
  /\ Permutation [0] (seq 0 1)
  /\ match run_full_test sample_loads 0 1 false
             (fun _ => fresh_world stub_server no_files) [0] with
     | Ok rep =>
         exists i r,
           i < 1
           /\ fst (worker_task sample_loads 0 i
                     (fresh_world stub_server no_files)) = Ok r
           /\ Stats.download_ok r = true
     | Raise e =>
         e = "max() arg is an empty sequence"
         /\ forall i r, i < 1 ->
              fst (worker_task sample_loads 0 i
                     (fresh_world stub_server no_files)) = Ok r ->
              Stats.download_ok r = false
     end.
Proof.
  split; [lia|]. split; [apply Permutation_refl|].
  exact (report_needs_a_download sample_loads 0 1 false
           (fun _ => fresh_world stub_server no_files) [0]
           ltac:(lia) (Permutation_refl _)).
Defined.

Lemma report_sanity_witness :
  let envs := fun _ : nat => fresh_world stub_server no_files in
  exists rep,
    run_full_test sample_loads 0 1 false envs [0] = Ok rep
    /\ Stats.num_workers rep = 1
    /\ Stats.successful (Stats.download_stats rep)
       <= Stats.successful (Stats.upload_stats rep)
    /\ (0 <= Stats.throughput (Stats.download_stats rep))%Q.
Proof.
  cbv zeta.
  destruct (run_full_test sample_loads 0 1 false
              (fun _ => fresh_world stub_server no_files) [0])
    as [rep|e] eqn:Hrun; [|vm_compute in Hrun; discriminate].
  exists rep. split; [reflexivity|].
  destruct (report_sanity sample_loads 0 1 false
              (fun _ => fresh_world stub_server no_files) [0] rep
              ltac:(lia) (Permutation_refl _) Hrun)
    as (_ & Hn & _ & _ & _ & _ & Hle & _ & _ & _ & Hthr & _).
  split; [exact Hn|]. split; [exact Hle|exact Hthr].
Defined.

Lemma report_order_independent_witness :
  let envs := fun i : nat =>
                match i with
                | 0 => fresh_world stub_server no_files
                | _ => fresh_world (answering "err") no_files
                end in
  0 < 2
  /\ Permutation [0; 1] (seq 0 2)
  /\ Permutation [1; 0] (seq 0 2)
  /\ match run_full_test sample_loads 0 2 false envs [0; 1],
           run_full_test sample_loads 0 2 false envs [1; 0] with
     | Ok rep, Ok rep' => same_report rep rep'
     | Raise e, Raise e' => e = e'
     | _, _ => False
     end.
Proof.
  cbv zeta. split; [lia|]. split; [apply Permutation_refl|].
  split; [apply perm_swap|].
  exact (report_order_independent sample_loads 0 2 false
           (fun i : nat =>
              match i with
              | 0 => fresh_world stub_server no_files
              | _ => fresh_world (answering "err") no_files
              end)
           [0; 1] [1; 0] ltac:(lia) (Permutation_refl _) (perm_swap 0 1 [])).
Defined.

Lemma echo_server_round_trip_witness :
  let w := fresh_world man_server (one_file "source_0mb.dat" [x4d; x61; x6e]) in
  fs w (source_name 0) = Some [x4d; x61; x6e]
  /\ exists r w' t t',
       worker_task man_loads 0 0 w = (Ok r, w')
       /\ r = mkResult 0
                (Some (mkUpload true t 3 (JDict [("status", JStr "OK")])))
                (Some (DownloadOk t' 3 true))
                None.
Proof.
  cbv zeta. split; [reflexivity|].
  apply (echo_server_round_trip man_loads 0 0
           (fresh_world man_server (one_file "source_0mb.dat" [x4d; x61; x6e]))
           [x4d; x61; x6e]
           (fun _ => Replies [RecvText ("ok" ++ terminator)])
           (fun _ => Replies [RecvText ("list" ++ terminator)])
           (fun _ => Replies [RecvText ("man" ++ terminator)])
           [("status", JStr "OK")]
           [("status", JStr "OK"); ("data", JList [JStr "testfile_0_0mb.dat"])]
           [("status", JStr "OK"); ("data_file", JStr "TWFu")]
           [JStr "testfile_0_0mb.dat"]);
    try reflexivity.
  left. reflexivity.
Defined.

Lemma upload_failure_modes_witness :
  let files := one_file "source_0mb.dat" [x4d; x61; x6e] in
  fs (fresh_world unreachable files) (source_name 0) = Some [x4d; x61; x6e]
  /\ fst (worker_task sample_loads 0 0 (fresh_world unreachable files))
     = Ok (mkResult 0 None None (Some "[Errno 111] Connection refused"))
  /\ fst (worker_task sample_loads 0 0
            (fresh_world (answering "garbled") files))
     = Ok (mkResult 0
             (Some (mkUpload false (1 - 0)%Q 3
                      (JDict [("status", JStr "ERROR");
                              ("data",
                               JStr "Expecting value: line 1 column 1 (char 0)")])))
             (Some (DownloadFailed "Upload failed, skipping download"))
             None).
Proof.
  cbv zeta. split; [reflexivity|]. split.
  - exact (upload_failure_modes sample_loads 0 0
             (fresh_world unreachable
                (one_file "source_0mb.dat" [x4d; x61; x6e]))
             [x4d; x61; x6e] eq_refl).
  - exact (upload_failure_modes sample_loads 0 0
             (fresh_world (answering "garbled")
                (one_file "source_0mb.dat" [x4d; x61; x6e]))
             [x4d; x61; x6e] eq_refl
             "Expecting value: line 1 column 1 (char 0)" eq_refl).
Defined.

Lemma list_failure_mode_witness :
  let w := fresh_world garbling_server
             (one_file "source_0mb.dat" [x4d; x61; x6e]) in
  fs w (source_name 0) = Some [x4d; x61; x6e]
  /\ contains (testfile_name 0 0) "Expecting value: line 1 column 1 (char 0)"
     = false
  /\ exists r w' t,
       worker_task sample_loads 0 0 w = (Ok r, w')
       /\ r = mkResult 0
                (Some (mkUpload true t 3 (JDict [("status", JStr "OK")])))
                (Some (DownloadFailed "File not found on server after upload"))
                None
       /\ connections (trace w') = 2 + connections (trace w).
Proof.
  cbv zeta. split; [reflexivity|]. split; [reflexivity|].
  apply (list_failure_mode sample_loads 0 0
           (fresh_world garbling_server
              (one_file "source_0mb.dat" [x4d; x61; x6e]))
           [x4d; x61; x6e]
           (fun _ => Replies [RecvText ("ok" ++ terminator)])
           (fun _ => Replies [RecvText ("garbled" ++ terminator)])
           [("status", JStr "OK")]
           "Expecting value: line 1 column 1 (char 0)");
    reflexivity.
Defined.

(** * The test driver *)

(** ** Text operations *)

Module TextFacts.

Import Text.

Example text_vectors :
  split_on LF ("a" ++ String LF "" ++ "b" ++ String LF "") = ["a"; "b"; ""]
  /\ strip "  Total Time  " = "Total Time"
  /\ strip_chars "= " "=== Upload Statistics ===" = "Upload Statistics"
  /\ lower "Upload Statistics" = "upload statistics"
  /\ replace " " "_" "upload statistics" = "upload_statistics"
  /\ replace "aa" "b" "aaaaa" = "bba"
  /\ replace "" "-" "ab" = "-a-b-"
  /\ split_once ":" "a: b:c" = Some ("a", " b:c")
  /\ split_ws "  1.50   seconds " = ["1.50"; "seconds"]
  /\ split_ws "   " = []
  /\ endswith "total_time" "upload_total_time" = true
  /\ endswith "total_time" "total_time_s" = false.
Proof. repeat split. Qed.

Lemma rstrip_by_id p s : ends_outside p s = true -> rstrip_by p s = s.
Proof.
  induction s as [|c s IH]; [discriminate|].
  destruct s as [|c' s'].
  - cbn. intros H. apply negb_true_iff in H. now rewrite H.
  - intros H. change (ends_outside p (String c (String c' s')))
      with (ends_outside p (String c' s')) in H.
    cbn [rstrip_by] in IH |- *. rewrite (IH H). reflexivity.
Qed.

Lemma ends_outside_app p a b :
  ends_outside p b = true -> ends_outside p (a ++ b) = true.
Proof.
  intros H. induction a as [|c a IH]; [exact H|].
  change (String c a ++ b) with (String c (a ++ b)).
  destruct (a ++ b) as [|c' r] eqn:Hab; [discriminate|exact IH].
Qed.

Lemma lstrip_by_head p c s : p c = false -> lstrip_by p (String c s) = String c s.
Proof. intros H. cbn. now rewrite H. Qed.

(** Text that starts and ends outside the stripped set is left as it is. *)
Lemma strip_id c s :
  is_space c = false -> ends_outside is_space (String c s) = true ->
  strip (String c s) = String c s.
Proof.
  intros Hc He. unfold strip. rewrite (lstrip_by_head _ _ _ Hc).
  now apply rstrip_by_id.
Qed.

Lemma contains_absent c needle s :
  lacks c s = true -> contains (String c needle) s = false.
Proof.
  induction s as [|x s IH]; intros H; [reflexivity|].
  cbn [lacks] in H. apply andb_prop in H as [Hx Hs].
  apply negb_true_iff, Ascii.eqb_neq in Hx.
  cbn [contains String.prefix].
  destruct (ascii_dec c x) as [Heq|_]; [now subst|now apply IH].
Qed.

Lemma contains_past c needle a t :
  lacks c a = true ->
  contains (String c needle) (a ++ t) = contains (String c needle) t.
Proof.
  induction a as [|x a IH]; intros H; [reflexivity|].
  cbn [lacks] in H. apply andb_prop in H as [Hx Ha].
  apply negb_true_iff, Ascii.eqb_neq in Hx.
  change (String x a ++ t) with (String x (a ++ t)).
  cbn [contains String.prefix].
  destruct (ascii_dec c x) as [Heq|_]; [now subst|now apply IH].
Qed.

Lemma contains_found c s :
  contains (String c "") s = true -> lacks c s = false.
Proof.
  intros H. destruct (lacks c s) eqn:Hl; [|reflexivity].
  rewrite (contains_absent c "" s Hl) in H. discriminate.
Qed.

Lemma split_once_cut c a b :
  lacks c a = true -> split_once c (a ++ String c b) = Some (a, b).
Proof.
  induction a as [|x a IH]; intros H.
  - cbn. now rewrite Ascii.eqb_refl.
  - cbn [lacks] in H. apply andb_prop in H as [Hx Ha].
    apply negb_true_iff in Hx.
    change (String x a ++ String c b) with (String x (a ++ String c b)).
    cbn [split_once]. now rewrite Hx, (IH Ha).
Qed.

Lemma split_once_some c s :
  lacks c s = false -> exists a b, split_once c s = Some (a, b).
Proof.
  induction s as [|x s IH]; intros H; [discriminate|].
  cbn [lacks] in H. cbn [split_once].
  destruct (Ascii.eqb x c) eqn:Hx; [eauto|].
  cbn in H. destruct (IH H) as (a & b & Hab). rewrite Hab. eauto.
Qed.

Lemma split_on_cut c a b :
  lacks c a = true -> split_on c (a ++ String c b) = a :: split_on c b.
Proof.
  induction a as [|x a IH]; intros H.
  - cbn. now rewrite Ascii.eqb_refl.
  - cbn [lacks] in H. apply andb_prop in H as [Hx Ha].
    apply negb_true_iff in Hx.
    change (String x a ++ String c b) with (String x (a ++ String c b)).
    cbn [split_on]. now rewrite Hx, (IH Ha).
Qed.

(** Without a word there is only white space. *)
Lemma no_words s c :
  split_ws s = [] -> is_space c = false -> lacks c s = true.
Proof.
  unfold split_ws. intros H Hc.
  assert (Hw : words_from s = (EmptyString, []))
    by (destruct (words_from s) as [[|x w] ws]; [now subst|discriminate]).
  clear H. induction s as [|x s IH]; [reflexivity|].
  cbn [words_from] in Hw. destruct (words_from s) as [w ws].
  destruct (is_space x) eqn:Hx; [|discriminate].
  cbn [lacks]. rewrite IH.
  - rewrite andb_true_r. apply negb_true_iff, Ascii.eqb_neq. intros ->.
    congruence.
  - destruct w; [now inversion Hw|discriminate].
Qed.

End TextFacts.

(** ** [parse_result] *)

Module DriverFacts.

Import Text Driver.

Lemma clean_value_returns value : exists v, clean_value value = Ok v.
Proof.
  unfold clean_value.
  destruct (existsb (fun unit => contains unit value) units) eqn:Hu; [|eauto].
  destruct (split_ws value) as [|first rest] eqn:Hws; [|eauto].
  exfalso. apply existsb_exists in Hu as (unit & Hin & Hc).
  assert (Hhead : exists c needle,
             unit = String c needle /\ is_space c = false).
  { destruct Hin as [<-|[<-|[<-|[]]]]; eexists; eexists; split; reflexivity. }
  destruct Hhead as (c & needle & -> & Hsp).
  rewrite (TextFacts.contains_absent c needle value
             (TextFacts.no_words value c Hws Hsp)) in Hc.
  discriminate.
Qed.

Lemma parse_line_returns st line : exists st', parse_line st line = Ok st'.
Proof.
  destruct st as [current_section result]. unfold parse_line.
  destruct (startswith "===" (strip line) && endswith "===" (strip line));
    [eauto|].
  destruct (contains ":" (strip line)) eqn:Hc; [|eauto].
  apply TextFacts.contains_found in Hc.
  destruct (TextFacts.split_once_some _ _ Hc) as (key & value & Hs).
  rewrite Hs.
  destruct (clean_value_returns (strip value)) as (v & Hv). rewrite Hv. eauto.
Qed.

Lemma parse_lines_returns lines : forall st,
  exists d, parse_lines st lines = Ok d.
Proof.
  induction lines as [|line lines IH]; intros st; cbn [parse_lines]; [eauto|].
  destruct (parse_line_returns st line) as (st' & Hst). rewrite Hst.
  apply IH.
Qed.

(** X13.  [parse_result] never raises: whatever text the client printed,
    the [IndexError] of [value.split()[0]] and the [ValueError] of the
    two-way unpacking cannot occur, and a result dict comes back; for no
    output, or empty output, it is the empty dict. *)
Theorem parse_result_returns (output : option string) :
  (exists d, parse_result output = Ok d)
  /\ parse_result None = Ok []
  /\ parse_result (Some "") = Ok [].
Proof.
  split; [|split; reflexivity].
  destruct output as [text|]; cbn [parse_result]; [|eauto].
  destruct (truthy text); [|eauto].
  apply parse_lines_returns.
Qed.

End DriverFacts.

Example fmt2_sample_vectors :
  fmt2_sample (3 # 2) = "1.50" /\ fmt2_sample 0 = "0.00"
  /\ fmt2_sample (1234567 # 1000) = "1234.56".
Proof. repeat split. Qed.

(** ** The report read back *)

Module ReportFacts.

Import Text Driver Report.

Lemma numeral_head v :
  numeral v = true ->
  exists c v', v = String c v' /\ is_space c = false
               /\ numeral_chars v' = true.
Proof.
  unfold numeral. destruct v as [|c v']; [discriminate|].
  cbn [truthy numeral_chars andb]. intros H.
  apply andb_prop in H as [Hc Hv]. exists c, v'.
  split; [reflexivity|]. split; [|exact Hv].
  destruct c as [[] [] [] [] [] [] [] []]; try reflexivity; discriminate.
Qed.

Lemma numeral_chars_lacks c v :
  numeral_char c = false -> numeral_chars v = true -> lacks c v = true.
Proof.
  intros Hc. induction v as [|x v IH]; [reflexivity|].
  cbn [numeral_chars lacks]. intros H. apply andb_prop in H as [Hx Hv].
  rewrite (IH Hv), andb_true_r.
  apply negb_true_iff, Ascii.eqb_neq. intros ->. congruence.
Qed.

Lemma numeral_lacks c v :
  numeral_char c = false -> numeral v = true -> lacks c v = true.
Proof.
  intros Hc H. unfold numeral in H. apply andb_prop in H as [_ H].
  now apply numeral_chars_lacks.
Qed.

Lemma numeral_chars_ends c v :
  numeral_char c = true -> numeral_chars v = true ->
  ends_outside is_space (String c v) = true.
Proof.
  revert c. induction v as [|x v IH]; intros c Hc Hv.
  - cbn. destruct c as [[] [] [] [] [] [] [] []]; try reflexivity;
      discriminate.
  - cbn [numeral_chars] in Hv. apply andb_prop in Hv as [Hx Hv].
    change (ends_outside is_space (String c (String x v)))
      with (ends_outside is_space (String x v)).
    now apply IH.
Qed.

Lemma numeral_ends v : numeral v = true -> ends_outside is_space v = true.
Proof.
  unfold numeral. destruct v as [|c v]; [discriminate|].
  cbn [truthy numeral_chars andb]. intros H. apply andb_prop in H as [Hc Hv].
  now apply numeral_chars_ends.
Qed.

Lemma digits_numeral d : numeral_chars (NilEmpty.string_of_uint d) = true.
Proof. induction d; cbn [NilEmpty.string_of_uint numeral_chars]; auto. Qed.

Lemma digits_truthy d : d <> Decimal.Nil ->
  truthy (NilEmpty.string_of_uint d) = true.
Proof. destruct d; [congruence|..]; reflexivity. Qed.

Lemma str_of_nat_numeral n : numeral (str_of_nat n) = true.
Proof.
  unfold numeral, str_of_nat. rewrite digits_numeral, andb_true_r.
  apply digits_truthy.
  rewrite <- (DecimalNat.Unsigned.of_to n) at 1.
  rewrite DecimalNat.Unsigned.to_of. apply DecimalFacts.unorm_nonnil.
Qed.

Lemma str_of_Z_numeral z : numeral (str_of_Z z) = true.
Proof.
  unfold numeral, str_of_Z. destruct z as [|p|p]; [reflexivity| |].
  - cbn [Z.to_int NilEmpty.string_of_int].
    rewrite digits_numeral, andb_true_r. apply digits_truthy.
    apply DecimalPos.Unsigned.to_uint_nonnil.
  - cbn [Z.to_int NilEmpty.string_of_int truthy numeral_chars].
    now rewrite digits_numeral.
Qed.

(** A numeral followed by a space is the first word. *)
Lemma words_after_numeral v rest :
  numeral_chars v = true ->
  words_from (v ++ String " " rest) = (v, split_ws rest).
Proof.
  induction v as [|c v IH]; intros H.
  - cbn [String.append words_from]. unfold split_ws.
    destruct (words_from rest) as [w ws]. reflexivity.
  - cbn [numeral_chars] in H. apply andb_prop in H as [Hc Hv].
    change (String c v ++ String " " rest)
      with (String c (v ++ String " " rest)).
    cbn [words_from]. rewrite (IH Hv).
    assert (Hsp : is_space c = false)
      by (destruct c as [[] [] [] [] [] [] [] []]; try reflexivity;
          discriminate).
    now rewrite Hsp.
Qed.

Lemma first_word v rest :
  numeral v = true ->
  exists more, split_ws (v ++ String " " rest) = v :: more.
Proof.
  intros H. unfold numeral in H. apply andb_prop in H as [Ht Hv].
  unfold split_ws at 1. rewrite (words_after_numeral v rest Hv).
  destruct v; [discriminate|]. eauto.
Qed.

Lemma contains_colon rest : contains ":" (String ":" rest) = true.
Proof.
  cbn [contains String.prefix].
  destruct (ascii_dec ":" ":") as [_|H]; [|congruence].
  destruct rest; reflexivity.
Qed.

Lemma label_parts label :
  label_ok label = true ->
  exists c l', label = String c l' /\ is_space c = false /\ c <> "="%char
               /\ ends_outside is_space label = true
               /\ lacks ":" label = true.
Proof.
  unfold label_ok. intros H.
  apply andb_prop in H as [H Hcolon]. apply andb_prop in H as [H Hend].
  destruct label as [|c l']; [discriminate|].
  apply andb_prop in H as [Hsp Heq].
  apply negb_true_iff in Hsp. apply negb_true_iff, Ascii.eqb_neq in Heq.
  exists c, l'. repeat split; assumption.
Qed.

(** The head of a line [label: value]: it is not a heading, it has a colon,
    and it is cut into the label and what follows the colon. *)
Lemma line_head label value :
  label_ok label = true ->
  ends_outside is_space value = true ->
  let line := label ++ String ":" value in
  strip line = line
  /\ startswith "===" line = false
  /\ contains ":" line = true
  /\ split_once ":" line = Some (label, value)
  /\ strip label = label.
Proof.
  intros Hl Hv line.
  destruct (label_parts label Hl) as (c & l' & -> & Hsp & Heq & Hend & Hcolon).
  assert (Hline : ends_outside is_space line = true).
  { apply TextFacts.ends_outside_app.
    destruct value as [|x value]; [discriminate|exact Hv]. }
  split; [now apply TextFacts.strip_id|].
  split.
  { unfold line, startswith.
    change (String c l' ++ String ":" value)
      with (String c (l' ++ String ":" value)).
    cbn [String.prefix]. destruct (ascii_dec "=" c); [now subst|reflexivity]. }
  split.
  { unfold line. rewrite (TextFacts.contains_past ":" "" _ _ Hcolon).
    apply contains_colon. }
  split; [now apply TextFacts.split_once_cut|].
  now apply TextFacts.strip_id.
Qed.

Lemma strip_value v :
  ends_outside is_space v = true ->
  (exists c v', v = String c v' /\ is_space c = false) ->
  strip (String " " v) = v.
Proof.
  intros Hend (c & v' & -> & Hc). unfold strip.
  change (lstrip_by is_space (String " " (String c v')))
    with (lstrip_by is_space (String c v')).
  rewrite (TextFacts.lstrip_by_head _ _ _ Hc).
  now apply TextFacts.rstrip_by_id.
Qed.

(** A line [label: number]. *)
Lemma parse_plain_line label v section d :
  label_ok label = true ->
  numeral v = true ->
  parse_line (section, d) (label ++ ": " ++ v) =
  Ok (section,
      dict_set (section_key section
                  (map_key (replace " " "_" (lower label)))) v d).
Proof.
  intros Hl Hv.
  change (label ++ ": " ++ v) with (label ++ String ":" (String " " v)).
  assert (Hend : ends_outside is_space (String " " v) = true).
  { pose proof (numeral_ends v Hv) as H.
    destruct v as [|x v]; [discriminate|exact H]. }
  destruct (line_head label (String " " v) Hl Hend)
    as (Hstrip & Hstart & Hcolon & Hsplit & Hkey).
  unfold parse_line. rewrite Hstrip, Hstart, Hcolon, Hsplit, Hkey.
  cbn [andb].
  assert (Hval : strip (String " " v) = v).
  { apply strip_value; [now apply numeral_ends|].
    destruct (numeral_head v Hv) as (c & v' & -> & Hc & _). eauto. }
  rewrite Hval.
  assert (Hclean : clean_value v = Ok v).
  { unfold clean_value, units. cbn [existsb].
    rewrite !(TextFacts.contains_absent "M"), (TextFacts.contains_absent "s");
      try (apply numeral_lacks; [reflexivity|exact Hv]).
    reflexivity. }
  now rewrite Hclean.
Qed.

(** A line [label: number unit]. *)
Lemma parse_unit_line label v unit section d :
  label_ok label = true ->
  numeral v = true ->
  In unit units ->
  parse_line (section, d) (label ++ ": " ++ v ++ " " ++ unit) =
  Ok (section,
      dict_set (section_key section
                  (map_key (replace " " "_" (lower label)))) v d).
Proof.
  intros Hl Hv Hu.
  change (label ++ ": " ++ v ++ " " ++ unit)
    with (label ++ String ":" (String " " (v ++ String " " unit))).
  assert (Hunit : ends_outside is_space (String " " unit) = true)
    by (destruct Hu as [<-|[<-|[<-|[]]]]; reflexivity).
  assert (Hvend : ends_outside is_space (v ++ String " " unit) = true)
    by now apply TextFacts.ends_outside_app.
  assert (Hend : ends_outside is_space (String " " (v ++ String " " unit))
                 = true).
  { destruct (v ++ String " " unit) as [|x r]; [discriminate|exact Hvend]. }
  destruct (line_head label _ Hl Hend)
    as (Hstrip & Hstart & Hcolon & Hsplit & Hkey).
  unfold parse_line. rewrite Hstrip, Hstart, Hcolon, Hsplit, Hkey.
  cbn [andb].
  assert (Hval : strip (String " " (v ++ String " " unit))
                 = v ++ String " " unit).
  { apply strip_value; [exact Hvend|].
    destruct (numeral_head v Hv) as (c & v' & -> & Hc & _).
    exists c, (v' ++ String " " unit). now split. }
  rewrite Hval.
  assert (Hclean : clean_value (v ++ String " " unit) = Ok v).
  { unfold clean_value, units. cbn [existsb].
    rewrite !(TextFacts.contains_past "M"), (TextFacts.contains_past "s");
      try (apply numeral_lacks; [reflexivity|exact Hv]).
    destruct (first_word v unit Hv) as (more & Hw). rewrite Hw.
    destruct Hu as [<-|[<-|[<-|[]]]]; reflexivity. }
  now rewrite Hclean.
Qed.

End ReportFacts.

Module ReadBack.

Import Text Driver Report.

Lemma split_printed_nil : split_on LF (printed []) = [""].
Proof. reflexivity. Qed.

Lemma split_printed_cons l ls :
  lacks LF l = true ->
  split_on LF (printed (l :: ls)) = l :: split_on LF (printed ls).
Proof. intros H. cbn [printed]. now apply TextFacts.split_on_cut. Qed.

Lemma split_printed_heading h ls :
  lacks LF h = true ->
  split_on LF (printed (String LF h :: ls))
  = "" :: h :: split_on LF (printed ls).
Proof.
  intros H. cbn [printed].
  change (String LF h ++ String LF (printed ls))
    with (String LF (h ++ String LF (printed ls))).
  cbn [split_on]. rewrite Ascii.eqb_refl.
  now rewrite TextFacts.split_on_cut.
Qed.

Lemma parse_blank st : parse_line st "" = Ok st.
Proof. destruct st. reflexivity. Qed.

Lemma parse_headings section d :
  parse_line (section, d) "=== Stress Test Results ==="
  = Ok (Some "stress_test_results", d)
  /\ parse_line (section, d) "=== Upload Statistics ==="
     = Ok (Some "upload_statistics", d)
  /\ parse_line (section, d) "=== Download Statistics ==="
     = Ok (Some "download_statistics", d).
Proof. repeat split. Qed.

Lemma parse_pool_line section d (pool : bool) :
  parse_line (section, d)
    ("Pool Type: " ++ (if pool then "Process" else "Thread"))
  = Ok (section,
        dict_set (section_key section "pool_type")
          (if pool then "Process" else "Thread") d).
Proof. destruct pool; reflexivity. Qed.

(** The lines of one phase, read in section [section]. *)
Lemma parse_phase (section : string) (d : dict) (rest : list string)
  (successful failed total_time throughput total_bytes : string) :
  numeral successful = true -> numeral failed = true ->
  numeral total_time = true -> numeral throughput = true ->
  numeral total_bytes = true ->
  parse_lines (Some section, d)
    (List.app
       (phase_lines successful failed total_time throughput total_bytes) rest)
  = parse_lines
      (Some section,
       dict_set (section_key (Some section) "total_bytes_mb") total_bytes
         (dict_set (section_key (Some section) "throughput_mb_s") throughput
            (dict_set (section_key (Some section) "time_s") total_time
               (dict_set (section_key (Some section) "failed") failed
                  (dict_set (section_key (Some section) "successful")
                     successful d)))))
      rest.
Proof.
  intros H1 H2 H3 H4 H5.
  unfold phase_lines. cbn [List.app parse_lines].
  change ("Successful: " ++ successful)
    with ("Successful" ++ ": " ++ successful).
  rewrite (ReportFacts.parse_plain_line "Successful" successful);
    [|reflexivity|exact H1].
  change ("Failed: " ++ failed) with ("Failed" ++ ": " ++ failed).
  rewrite (ReportFacts.parse_plain_line "Failed" failed);
    [|reflexivity|exact H2].
  change ("Total Time: " ++ total_time ++ " seconds")
    with ("Total Time" ++ ": " ++ total_time ++ " " ++ "seconds").
  rewrite (ReportFacts.parse_unit_line "Total Time" total_time "seconds");
    [|reflexivity|exact H3|right; right; now left].
  change ("Throughput: " ++ throughput ++ " MB/s")
    with ("Throughput" ++ ": " ++ throughput ++ " " ++ "MB/s").
  rewrite (ReportFacts.parse_unit_line "Throughput" throughput "MB/s");
    [|reflexivity|exact H4|now left].
  change ("Total Bytes: " ++ total_bytes ++ " MB")
    with ("Total Bytes" ++ ": " ++ total_bytes ++ " " ++ "MB").
  rewrite (ReportFacts.parse_unit_line "Total Bytes" total_bytes "MB");
    [|reflexivity|exact H5|right; now left].
  reflexivity.
Qed.

Lemma lacks_plain label v :
  lacks LF label = true -> numeral v = true -> lacks LF (label ++ v) = true.
Proof.
  intros Hl Hv. rewrite lacks_app, Hl.
  now rewrite (ReportFacts.numeral_lacks LF v eq_refl Hv).
Qed.

Lemma lacks_unit label v suffix :
  lacks LF label = true -> numeral v = true -> lacks LF suffix = true ->
  lacks LF (label ++ v ++ suffix) = true.
Proof.
  intros Hl Hv Hs. rewrite !lacks_app, Hl, Hs.
  now rewrite (ReportFacts.numeral_lacks LF v eq_refl Hv).
Qed.

Lemma split_phase successful failed total_time throughput total_bytes rest :
  numeral successful = true -> numeral failed = true ->
  numeral total_time = true -> numeral throughput = true ->
  numeral total_bytes = true ->
  split_on LF
    (printed
       (List.app
          (phase_lines successful failed total_time throughput total_bytes)
          rest))
  = List.app
      (phase_lines successful failed total_time throughput total_bytes)
      (split_on LF (printed rest)).
Proof.
  intros H1 H2 H3 H4 H5. unfold phase_lines. cbn [List.app].
  rewrite split_printed_cons by (now apply lacks_plain).
  rewrite split_printed_cons by (now apply lacks_plain).
  rewrite split_printed_cons by (now apply lacks_unit).
  rewrite split_printed_cons by (now apply lacks_unit).
  rewrite split_printed_cons by (now apply lacks_unit).
  reflexivity.
Qed.

Lemma parse_lines_step st line lines st' :
  parse_line st line = Ok st' ->
  parse_lines st (line :: lines) = parse_lines st' lines.
Proof. intros H. cbn [parse_lines]. now rewrite H. Qed.

(** The whole report, given the formatted values. *)
Lemma read_back (pool : bool)
  (file_size workers us uf ut uth ub ds df dt dth db : string) :
  numeral file_size = true -> numeral workers = true ->
  numeral us = true -> numeral uf = true -> numeral ut = true ->
  numeral uth = true -> numeral ub = true ->
  numeral ds = true -> numeral df = true -> numeral dt = true ->
  numeral dth = true -> numeral db = true ->
  parse_result
    (Some (printed
             (List.app
                (head_lines file_size workers
                   (if pool then "Process" else "Thread"))
                (String LF "=== Upload Statistics ==="
                 :: List.app (phase_lines us uf ut uth ub)
                      (String LF "=== Download Statistics ==="
                       :: phase_lines ds df dt dth db)))))
  = Ok [ ("file_size", file_size);
         ("workers", workers);
         ("pool_type", if pool then "Process" else "Thread");
         ("upload_statistics_successful", us);
         ("upload_statistics_failed", uf);
         ("upload_statistics_time_s", ut);
         ("upload_statistics_throughput_mb_s", uth);
         ("upload_statistics_total_bytes_mb", ub);
         ("download_statistics_successful", ds);
         ("download_statistics_failed", df);
         ("download_statistics_time_s", dt);
         ("download_statistics_throughput_mb_s", dth);
         ("download_statistics_total_bytes_mb", db) ].
Proof.
  intros Hfs Hws Hus Huf Hut Huth Hub Hds Hdf Hdt Hdth Hdb.
  unfold parse_result.
  assert (Htruthy : forall h ls, truthy (printed (String LF h :: ls)) = true)
    by reflexivity.
  unfold head_lines. cbn [List.app]. rewrite Htruthy.
  rewrite split_printed_heading by reflexivity.
  rewrite split_printed_cons by (now apply lacks_unit).
  rewrite split_printed_cons by (now apply lacks_plain).
  rewrite split_printed_cons by (destruct pool; reflexivity).
  rewrite split_printed_heading by reflexivity.
  rewrite split_phase by assumption.
  rewrite split_printed_heading by reflexivity.
  rewrite <- (List.app_nil_r (phase_lines ds df dt dth db)).
  rewrite split_phase by assumption.
  rewrite split_printed_nil.
  rewrite (parse_lines_step _ _ _ _ (parse_blank _)).
  rewrite (parse_lines_step _ _ _ _ (proj1 (parse_headings None []))).
  change ("File Size: " ++ file_size ++ " MB")
    with ("File Size" ++ ": " ++ file_size ++ " " ++ "MB").
  rewrite (parse_lines_step _ _ _ _
             (ReportFacts.parse_unit_line "File Size" file_size "MB" _ _
                eq_refl Hfs (or_intror (or_introl eq_refl)))).
  change ("Workers: " ++ workers) with ("Workers" ++ ": " ++ workers).
  rewrite (parse_lines_step _ _ _ _
             (ReportFacts.parse_plain_line "Workers" workers _ _ eq_refl Hws)).
  rewrite (parse_lines_step _ _ _ _ (parse_pool_line _ _ pool)).
  rewrite (parse_lines_step _ _ _ _ (parse_blank _)).
  rewrite (parse_lines_step _ _ _ _ (proj1 (proj2 (parse_headings _ _)))).
  rewrite parse_phase by assumption.
  rewrite (parse_lines_step _ _ _ _ (parse_blank _)).
  rewrite (parse_lines_step _ _ _ _ (proj2 (proj2 (parse_headings _ _)))).
  rewrite parse_phase by assumption.
  rewrite (parse_lines_step _ _ _ _ (parse_blank _)).
  reflexivity.
Qed.

End ReadBack.

(** X14.  The driver reads back what the client prints.  For a report
    computed by [statistics] and printed by the client, with [:.2f]
    producing plain decimal numerals, [parse_result] returns a dict from
    which the statistics columns of the CSV row come out as the printed
    figures: the pool type, and for each phase the successful and failed
    counts, the time, the throughput in MB/s and the total in MB, the units
    removed. *)
Theorem report_read_back (fmt2 : Q -> string) (size n : nat) (pool : bool)
  (all_results : list worker_result) (rep : Stats.report) :
  (forall q, numeral (fmt2 q) = true) ->
  Stats.statistics size n pool all_results = Ok rep ->
  let up := Stats.upload_stats rep in
  let down := Stats.download_stats rep in
  exists result,
    Driver.parse_result (Some (Report.print_report fmt2 rep)) = Ok result
    /\ dict_get "file_size" "" result = str_of_nat size
    /\ dict_get "workers" "" result = str_of_nat n
    /\ row_statistics result =
       [ ("pool_type", if pool then "Process" else "Thread");
         ("upload_successful", str_of_nat (Stats.successful up));
         ("upload_failed", Report.str_of_Z (Stats.failed up));
         ("upload_time_s", fmt2 (Stats.total_time up));
         ("upload_throughput_mb_s",
          fmt2 (Stats.throughput up / 1024 / 1024)%Q);
         ("upload_total_bytes_mb",
          fmt2 (inject_Z (Stats.total_bytes up) / 1024 / 1024)%Q);
         ("download_successful", str_of_nat (Stats.successful down));
         ("download_failed", Report.str_of_Z (Stats.failed down));
         ("download_time_s", fmt2 (Stats.total_time down));
         ("download_throughput_mb_s",
          fmt2 (Stats.throughput down / 1024 / 1024)%Q);
         ("download_total_bytes_mb",
          fmt2 (inject_Z (Stats.total_bytes down) / 1024 / 1024)%Q) ].
Proof.
  intros Hfmt Hstat up down.
  assert (Hpool : Stats.pool_type rep = if pool then "Process" else "Thread").
  { unfold Stats.statistics in Hstat.
    destruct (Stats.py_max (Stats.upload_times all_results)); [|discriminate].
    destruct (Stats.py_max (Stats.download_times all_results));
      [|discriminate].
    inversion Hstat. reflexivity. }
  assert (Hsize : Stats.file_size_mb rep = size
                  /\ Stats.num_workers rep = n).
  { unfold Stats.statistics in Hstat.
    destruct (Stats.py_max (Stats.upload_times all_results)); [|discriminate].
    destruct (Stats.py_max (Stats.download_times all_results));
      [|discriminate].
    inversion Hstat. split; reflexivity. }
  destruct Hsize as [Hsize Hn].
  unfold Report.print_report, Report.phase_prints.
  rewrite Hpool, Hsize, Hn. fold up down.
  rewrite ReadBack.read_back;
    try apply Hfmt; try apply ReportFacts.str_of_nat_numeral;
    try apply ReportFacts.str_of_Z_numeral.
  eexists. split; [reflexivity|]. repeat split.
Qed.

Lemma numeral_chars_app a b :
  numeral_chars (a ++ b) = (numeral_chars a && numeral_chars b)%bool.
Proof.
  induction a as [|c a IH]; [reflexivity|].
  simpl. now rewrite IH, andb_assoc.
Qed.

Lemma fmt2_sample_numeral q : numeral (fmt2_sample q) = true.
Proof.
  unfold fmt2_sample.
  set (cents := (Qnum (q * 100) / Z.pos (Qden (q * 100)))%Z).
  pose proof (ReportFacts.str_of_Z_numeral (cents / 100)) as Hz.
  pose proof (ReportFacts.str_of_nat_numeral
                (Z.to_nat ((cents / 10) mod 10))) as H1.
  pose proof (ReportFacts.str_of_nat_numeral (Z.to_nat (cents mod 10))) as H2.
  unfold numeral in *.
  apply andb_prop in Hz as [Ht Hz]. apply andb_prop in H1 as [_ H1].
  apply andb_prop in H2 as [_ H2].
  rewrite !numeral_chars_app, Hz, H1, H2.
  destruct (Report.str_of_Z (cents / 100)); [discriminate|reflexivity].
Qed.

Lemma report_read_back_witness :
  Stats.statistics 10 3 false three_successes
  = Ok (Stats.mkReport 10 3 "Thread"
          (Stats.mkPhase 3 0 2 (31457280 / 2)%Q 31457280)
          (Stats.mkPhase 3 0 2 (31457280 / 2)%Q 31457280))
  /\ exists result,
       Driver.parse_result
         (Some (Report.print_report fmt2_sample
                  (Stats.mkReport 10 3 "Thread"
                     (Stats.mkPhase 3 0 2 (31457280 / 2)%Q 31457280)
                     (Stats.mkPhase 3 0 2 (31457280 / 2)%Q 31457280))))
       = Ok result
       /\ dict_get "download_statistics_throughput_mb_s" "" result = "15.00"
       /\ dict_get "upload_statistics_time_s" "" result = "2.00"
       /\ dict_get "upload_statistics_total_bytes_mb" "" result = "30.00".
Proof.
  assert (Hstat :
    Stats.statistics 10 3 false three_successes
    = Ok (Stats.mkReport 10 3 "Thread"
            (Stats.mkPhase 3 0 2 (31457280 / 2)%Q 31457280)
            (Stats.mkPhase 3 0 2 (31457280 / 2)%Q 31457280)))
    by reflexivity.
  split; [exact Hstat|].
  destruct (report_read_back fmt2_sample 10 3 false three_successes _
              fmt2_sample_numeral Hstat) as (result & Hparse & _ & _ & Hrow).
  exists result. split; [exact Hparse|].
  split; [exact (f_equal (dict_get "download_throughput_mb_s" "") Hrow)|].
  split; [exact (f_equal (dict_get "upload_time_s" "") Hrow)|].
  exact (f_equal (dict_get "upload_total_bytes_mb" "") Hrow).
Defined.

(** ** The test matrix of the driver *)

Module MatrixFacts.

Import Matrix.

Lemma records_app a b : records (a ++ b) = (records a ++ records b)%list.
Proof.
  induction a as [|e a IH]; [reflexivity|].
  destruct e; cbn [records List.app]; now rewrite ?IH.
Qed.

Lemma server_events_app a b :
  server_events (a ++ b) = (server_events a ++ server_events b)%list.
Proof.
  induction a as [|e a IH]; [reflexivity|].
  destruct e; cbn [server_events List.app]; now rewrite ?IH.
Qed.

Lemma parse_result_ok output : exists d, Driver.parse_result output = Ok d.
Proof.
  destruct output as [text|]; cbn [Driver.parse_result]; [|eauto].
  destruct (truthy text); [|eauto].
  apply DriverFacts.parse_lines_returns.
Qed.

Lemma filter_none {A} (p : A -> bool) l :
  forallb p l = true -> filter (fun x => negb (p x)) l = [].
Proof.
  induction l as [|x l IH]; [reflexivity|].
  cbn [forallb filter]. intros H. apply andb_prop in H as [Hx Hl].
  rewrite Hx. cbn [negb]. now apply IH.
Qed.

Lemma writerow_within row w :
  forallb (fun k => existsb (String.eqb k) fieldnames) (map fst row) = true ->
  writerow fieldnames row w
  = (Ok tt, log [DWriteRecord (map (fun k => dict_get k "" row) fieldnames)] w).
Proof.
  intros H. unfold writerow.
  now rewrite (filter_none (fun k => existsb (String.eqb k) fieldnames)).
Qed.

Lemma extends_refl w : extends w w [].
Proof. split; [reflexivity|]. now rewrite List.app_nil_r. Qed.

Lemma extends_trans w1 w2 w3 a b :
  extends w1 w2 a -> extends w2 w3 b -> extends w1 w3 (a ++ b)%list.
Proof.
  intros [H1 H2] [H3 H4]. split; [congruence|].
  now rewrite H4, H2, List.app_assoc.
Qed.

(** The trace of the world reached is the trace before, and more. *)
Ltac grows :=
  split; [reflexivity|];
  cbn [dtrace log launched launch_error stdout_of launches server_alive
       polls now reads];
  rewrite <- ?List.app_assoc; reflexivity.

Section Cases.

Variable fmt1 : Q -> string.

Lemma case_body_row n fs cw st sw w :
  exists w' mid cells,
    case_body fmt1 n fs cw st sw w = (Ok (S n), w')
    /\ extends w w' mid
    /\ records mid = [cells]
    /\ server_events mid = []
    /\ firstn 5 cells = map snd (case_entries n fs cw st sw)
    /\ List.length cells = 18.
Proof.
  destruct w as [le so l sa p nw r tr].
  unfold case_body, bind, time_time, run_client_test, try_except,
    subprocess_run, bind.
  cbn [launch_error launches reads now].
  destruct (le l (client_cmd "localhost:6666" fs cw false)) as [e|].
  - cbn. eexists. eexists. eexists. split; [reflexivity|].
    split; [grows|].
    repeat split.
  - cbn [launch_error stdout_of launches server_alive polls now reads
           dtrace log launched ret].
    unfold lift_result, poll_is_none.
    destruct (truthy (so l)) eqn:Ht.
    + destruct (parse_result_ok (Some (so l))) as [d Hd]. rewrite Hd.
      cbn. eexists. eexists. eexists. split; [reflexivity|].
      split; [grows|].
      repeat split.
    + cbn. eexists. eexists. eexists. split; [reflexivity|].
      split; [grows|].
      repeat split.
Qed.


Lemma one_case_outcome n fs cw st sw w :
  exists res w' mid,
    one_case fmt1 n ((fs, cw), (st, sw)) w = (res, w')
    /\ extends w w' mid
    /\ ((exists cells,
           res = Ok (S n)
           /\ records mid = [cells]
           /\ firstn 5 cells = case_cells (n, ((fs, cw), (st, sw)))
           /\ List.length cells = 18
           /\ server_events mid = server_span ((fs, cw), (st, sw)))
        \/ (exists e m cmd,
              res = Raise e
              /\ launch_error w m cmd = Some e
              /\ (cmd = pkill_cmd \/ cmd = server_cmd st sw)
              /\ records mid = []
              /\ server_events mid = [])).
Proof.
  destruct w as [le so l sa p nw r tr].
  unfold one_case, bind, act, modify, subprocess_run, start_server,
    subprocess_Popen, try_finally, try_except.
  cbn [launch_error stdout_of launches server_alive polls now reads
       dtrace log launched ret].
  destruct (le l pkill_cmd) as [e|] eqn:Hkill.
  - eexists. eexists. eexists. split; [reflexivity|].
    split; [grows|].
    right. exists e, l, pkill_cmd. repeat split; auto.
  - cbn [launch_error stdout_of launches server_alive polls now reads
         dtrace log launched ret].
    destruct (le (S l) (server_cmd st sw)) as [e|] eqn:Hserver.
    + eexists. eexists. eexists. split; [reflexivity|].
      split; [grows|].
      right. exists e, (S l), (server_cmd st sw). repeat split; auto.
    + cbn [launch_error stdout_of launches server_alive polls now reads
           dtrace log launched ret].
      match goal with
      | |- context [case_body _ _ _ _ _ _ ?W] =>
          destruct (case_body_row n fs cw st sw W)
            as (w' & mid & cells & Hbody & [Hle Htr] & Hrec & Hsrv & H5 & Hlen)
      end.
      rewrite Hbody.
      cbn [dtrace launch_error log launched] in Htr, Hle.
      eexists. eexists. eexists. split; [reflexivity|].
      split.
      { split; [exact Hle|]. unfold case_cleanup. cbn [dtrace log].
        rewrite Htr, <- ?List.app_assoc. reflexivity. }
      left. exists cells. split; [reflexivity|].
      rewrite !records_app, !server_events_app, Hrec, Hsrv.
      repeat split; assumption.
Qed.

(** The loop stops at the first launch that fails, after [k] whole cases. *)
Lemma run_cases_outcome cases : forall n w,
  exists k res w' mid,
    run_cases fmt1 n cases w = (res, w')
    /\ extends w w' mid
    /\ map (firstn 5) (records mid)
       = map case_cells (firstn k (combine (seq n (List.length cases)) cases))
    /\ Forall (fun cells => List.length cells = 18) (records mid)
    /\ server_events mid = flat_map server_span (firstn k cases)
    /\ (res = Ok (n + List.length cases) /\ k = List.length cases
        \/ exists e m cmd,
             res = Raise e /\ k < List.length cases
             /\ launch_error w m cmd = Some e
             /\ (cmd = pkill_cmd
                 \/ exists case, In case cases
                                 /\ cmd = server_cmd (fst (snd case))
                                                     (snd (snd case)))).
Proof.
  induction cases as [|[[fs cw] [st sw]] cases IH]; intros n w.
  - exists 0, (Ok n), w, []. cbn [run_cases ret List.length].
    split; [reflexivity|]. split; [apply extends_refl|].
    repeat split; [constructor|]. left. split; [f_equal; lia|reflexivity].
  - cbn [run_cases]. unfold bind.
    destruct (one_case_outcome n fs cw st sw w)
      as (res & w1 & mid1 & Hone & Hext1 & Hcases).
    rewrite Hone.
    destruct Hcases as [(cells & -> & Hrec & H5 & Hlen & Hsrv)
                       |(e & m & cmd & -> & Hle & Hcmd & Hrec & Hsrv)].
    + destruct (IH (S n) w1)
        as (k & res & w2 & mid2 & Hrun & Hext2 & Hrows & Hall & Hsrv2 & Hend).
      exists (S k), res, w2, (mid1 ++ mid2)%list.
      split; [exact Hrun|]. split; [eapply extends_trans; eassumption|].
      rewrite records_app, server_events_app, Hrec, Hsrv, Hsrv2.
      cbn [List.length seq combine]. rewrite !firstn_cons.
      cbn [map List.app flat_map].
      split; [now rewrite H5, Hrows|].
      split; [constructor; assumption|].
      split; [reflexivity|].
      destruct Hend as [[-> ->]|(e & m & cmd & -> & Hk & Hle & Hcmd)].
      * left. split; [f_equal; lia|reflexivity].
      * right. exists e, m, cmd. split; [reflexivity|]. split; [lia|].
        split; [destruct Hext1 as [<- _]; exact Hle|].
        destruct Hcmd as [->|(case & Hin & ->)]; [now left|].
        right. exists case. split; [now right|reflexivity].
    + exists 0, (Raise e), w1, mid1.
      split; [reflexivity|]. split; [exact Hext1|].
      rewrite Hrec, Hsrv. cbn [List.length firstn map flat_map].
      repeat split; [constructor|].
      right. exists e, m, cmd. split; [reflexivity|]. split; [lia|].
      split; [exact Hle|].
      destruct Hcmd as [-> | ->]; [now left|].
      right. exists ((fs, cw), (st, sw)). split; [now left|reflexivity].
Qed.

Lemma run_cases_complete cases n w :
  launchable w pkill_cmd ->
  (forall s_type s_workers, launchable w (server_cmd s_type s_workers)) ->
  exists w' mid,
    run_cases fmt1 n cases w = (Ok (n + List.length cases), w')
    /\ extends w w' mid
    /\ map (firstn 5) (records mid)
       = map case_cells (combine (seq n (List.length cases)) cases)
    /\ Forall (fun cells => List.length cells = 18) (records mid)
    /\ server_events mid = flat_map server_span cases.
Proof.
  intros Hkill Hserver.
  destruct (run_cases_outcome cases n w)
    as (k & res & w' & mid & Hrun & Hext & Hrows & Hall & Hsrv & Hend).
  destruct Hend as [[-> ->]|(e & m & cmd & _ & _ & Hle & Hcmd)].
  - exists w', mid. split; [exact Hrun|]. split; [exact Hext|].
    rewrite firstn_all2 in Hrows
      by (rewrite length_combine, length_seq; lia).
    rewrite firstn_all in Hsrv. repeat split; assumption.
  - exfalso. destruct Hcmd as [-> | (case & _ & ->)].
    + rewrite (Hkill m) in Hle. discriminate.
    + rewrite (Hserver _ _ m) in Hle. discriminate.
Qed.

End Cases.

Lemma report_dict (fmt2 : Q -> string) (size n : nat) (pool : bool)
  (all_results : list worker_result) (rep : Stats.report) :
  (forall q, numeral (fmt2 q) = true) ->
  Stats.statistics size n pool all_results = Ok rep ->
  let up := Stats.upload_stats rep in
  let down := Stats.download_stats rep in
  Driver.parse_result (Some (Report.print_report fmt2 rep))
  = Ok [ ("file_size", str_of_nat size);
         ("workers", str_of_nat n);
         ("pool_type", if pool then "Process" else "Thread");
         ("upload_statistics_successful", str_of_nat (Stats.successful up));
         ("upload_statistics_failed", Report.str_of_Z (Stats.failed up));
         ("upload_statistics_time_s", fmt2 (Stats.total_time up));
         ("upload_statistics_throughput_mb_s",
          fmt2 (Stats.throughput up / 1024 / 1024)%Q);
         ("upload_statistics_total_bytes_mb",
          fmt2 (inject_Z (Stats.total_bytes up) / 1024 / 1024)%Q);
         ("download_statistics_successful",
          str_of_nat (Stats.successful down));
         ("download_statistics_failed", Report.str_of_Z (Stats.failed down));
         ("download_statistics_time_s", fmt2 (Stats.total_time down));
         ("download_statistics_throughput_mb_s",
          fmt2 (Stats.throughput down / 1024 / 1024)%Q);
         ("download_statistics_total_bytes_mb",
          fmt2 (inject_Z (Stats.total_bytes down) / 1024 / 1024)%Q) ].
Proof.
  intros Hfmt Hstat up down.
  assert (Hhead : Stats.pool_type rep = (if pool then "Process" else "Thread")
                  /\ Stats.file_size_mb rep = size
                  /\ Stats.num_workers rep = n).
  { unfold Stats.statistics in Hstat.
    destruct (Stats.py_max (Stats.upload_times all_results)); [|discriminate].
    destruct (Stats.py_max (Stats.download_times all_results));
      [|discriminate].
    inversion Hstat. repeat split. }
  destruct Hhead as (Hpool & Hsize & Hn).
  unfold Report.print_report, Report.phase_prints.
  rewrite Hpool, Hsize, Hn. fold up down.
  apply ReadBack.read_back;
    try apply Hfmt; try apply ReportFacts.str_of_nat_numeral;
    try apply ReportFacts.str_of_Z_numeral.
Qed.

Lemma report_truthy fmt2 rep : truthy (Report.print_report fmt2 rep) = true.
Proof. reflexivity. Qed.

End MatrixFacts.

(** X15.  With [pkill] and the server scripts launchable, [main] runs the
    whole matrix whatever the clients do: it returns with [test_num] at 55,
    and the CSV file gets the header and then one record of 18 cells per
    case, in the order of the matrix (configurations outermost, then server
    types, then server pool sizes), whose first five cells are the case
    number, counted from 1 without gaps, and the configuration of the
    case.  The row of the [except] branch, which has no configuration,
    is never written. *)
Theorem matrix_rows (fmt1 : Q -> string) (w : Matrix.dworld) :
  Matrix.launchable w Matrix.pkill_cmd ->
  (forall s_type s_workers,
      Matrix.launchable w (Matrix.server_cmd s_type s_workers)) ->
  exists w' rows,
    Matrix.main fmt1 w = (Ok 55, w')
    /\ Matrix.records (Matrix.dtrace w')
       = (Matrix.records (Matrix.dtrace w) ++ Matrix.fieldnames :: rows)%list
    /\ map (firstn 5) rows
       = map Matrix.case_cells (combine (seq 1 54) Matrix.matrix)
    /\ Forall (fun cells => List.length cells = 18) rows.
Proof.
  intros Hkill Hserver.
  unfold Matrix.main, bind, Matrix.act, modify.
  destruct (MatrixFacts.run_cases_complete fmt1 Matrix.matrix 1
              (Matrix.log [Matrix.DWriteRecord Matrix.fieldnames] w))
    as (w' & mid & Hrun & [_ Htr] & Hrows & Hall & _).
  - exact Hkill.
  - exact Hserver.
  - exists w', (Matrix.records mid). split; [exact Hrun|].
    cbn [Matrix.dtrace Matrix.log] in Htr.
    rewrite Htr, !MatrixFacts.records_app.
    cbn [Matrix.records]. rewrite <- List.app_assoc.
    split; [reflexivity|]. split; assumption.
Qed.

Lemma matrix_rows_witness :
  exists w' rows,
    Matrix.main fmt1_sample Matrix.quiet_world = (Ok 55, w')
    /\ Matrix.records (Matrix.dtrace w') = Matrix.fieldnames :: rows
    /\ map (firstn 5) rows
       = map Matrix.case_cells (combine (seq 1 54) Matrix.matrix)
    /\ Forall (fun cells => List.length cells = 18) rows.
Proof.
  apply (matrix_rows fmt1_sample Matrix.quiet_world).
  - intros n. reflexivity.
  - intros s_type s_workers n. reflexivity.
Defined.

(** X16.  [main] never leaves a server running, whatever fails.  In any
    world, the servers started and stopped are those of the first [k] cases
    of the matrix, each stopped before the next is started, and the CSV file
    has the header and [k] rows; either [main] returns and [k] is 54, or a
    launch outside the [try] ([pkill], or a server script) raised, the
    exception leaves [main], and no server is running then. *)
Theorem servers_stopped (fmt1 : Q -> string) (w : Matrix.dworld) :
  exists k res w' mid,
    Matrix.main fmt1 w = (res, w')
    /\ Matrix.dtrace w' = (Matrix.dtrace w ++ mid)%list
    /\ Matrix.server_events mid
       = flat_map Matrix.server_span (firstn k Matrix.matrix)
    /\ List.length (Matrix.records mid) = S k
    /\ (res = Ok 55 /\ k = 54
        \/ exists e m cmd,
             res = Raise e /\ k < 54
             /\ Matrix.launch_error w m cmd = Some e
             /\ (cmd = Matrix.pkill_cmd
                 \/ exists s_type s_workers,
                      cmd = Matrix.server_cmd s_type s_workers)).
Proof.
  unfold Matrix.main, bind, Matrix.act, modify.
  destruct (MatrixFacts.run_cases_outcome fmt1 Matrix.matrix 1
              (Matrix.log [Matrix.DWriteRecord Matrix.fieldnames] w))
    as (k & res & w' & mid & Hrun & [_ Htr] & Hrows & _ & Hsrv & Hend).
  exists k, res, w', (Matrix.DWriteRecord Matrix.fieldnames :: mid).
  split; [exact Hrun|].
  cbn [Matrix.dtrace Matrix.log] in Htr.
  split; [now rewrite Htr, <- List.app_assoc|].
  split; [exact Hsrv|].
  assert (Hk : k <= 54).
  { destruct Hend as [[_ ->]|(e & m & cmd & _ & Hlt & _)].
    - apply Nat.le_refl.
    - apply Nat.lt_le_incl. exact Hlt. }
  split.
  { cbn [Matrix.records List.length]. f_equal.
    rewrite <- (length_map (firstn 5)), Hrows, length_map, length_firstn.
    rewrite length_combine, length_seq. apply Nat.min_l.
    rewrite Nat.min_id. exact Hk. }
  destruct Hend as [[-> ->]|(e & m & cmd & -> & Hlt & Hle & Hcmd)].
  - left. split; reflexivity.
  - right. exists e, m, cmd. split; [reflexivity|]. split; [exact Hlt|].
    split; [exact Hle|].
    destruct Hcmd as [-> | (case & _ & ->)]; [now left|].
    right. eexists. eexists. reflexivity.
Qed.

(** X17.  From the client's report to the CSV row, through one case of the
    driver.  When [pkill], the server and the client can be launched and the
    client prints the report of a run whose statistics exist, [:.2f] giving
    plain decimal numerals, the case writes one row: the case number and the
    configuration of the driver, then the pool type and the ten figures
    exactly as the client printed them, then the server status from the
    poll taken after the client ended, then the time the client took.  The
    next case gets the next number. *)
Theorem case_row_of_report (fmt1 fmt2 : Q -> string)
  (test_num file_size c_workers : nat) (s_type : string) (s_workers : nat)
  (size n : nat) (pool : bool) (all_results : list worker_result)
  (rep : Stats.report) (w : Matrix.dworld) :
  (forall q, numeral (fmt2 q) = true) ->
  Stats.statistics size n pool all_results = Ok rep ->
  Matrix.launch_error w (Matrix.launches w) Matrix.pkill_cmd = None ->
  Matrix.launch_error w (S (Matrix.launches w))
    (Matrix.server_cmd s_type s_workers) = None ->
  Matrix.launch_error w (S (S (Matrix.launches w)))
    (Matrix.client_cmd "localhost:6666" file_size c_workers false) = None ->
  Matrix.stdout_of w (S (S (Matrix.launches w)))
  = Report.print_report fmt2 rep ->
  let up := Stats.upload_stats rep in
  let down := Stats.download_stats rep in
  let elapsed :=
    (Matrix.now w (S (Matrix.reads w)) - Matrix.now w (Matrix.reads w))%Q in
  exists w',
    Matrix.one_case fmt1 test_num
      ((file_size, c_workers), (s_type, s_workers)) w
    = (Ok (S test_num), w')
    /\ Matrix.records (Matrix.dtrace w')
       = (Matrix.records (Matrix.dtrace w)
          ++ [[ str_of_nat test_num; str_of_nat file_size;
                str_of_nat c_workers; s_type; str_of_nat s_workers;
                if pool then "Process" else "Thread";
                str_of_nat (Stats.successful up);
                Report.str_of_Z (Stats.failed up);
                fmt2 (Stats.total_time up);
                fmt2 (Stats.throughput up / 1024 / 1024)%Q;
                fmt2 (inject_Z (Stats.total_bytes up) / 1024 / 1024)%Q;
                str_of_nat (Stats.successful down);
                Report.str_of_Z (Stats.failed down);
                fmt2 (Stats.total_time down);
                fmt2 (Stats.throughput down / 1024 / 1024)%Q;
                fmt2 (inject_Z (Stats.total_bytes down) / 1024 / 1024)%Q;
                if Matrix.server_alive w (Matrix.polls w)
                then "Running" else "Crashed";
                "Completed in " ++ fmt1 elapsed ++ "s" ]%string])%list.
Proof.
  intros Hfmt Hstat Hkill Hserver Hclient Hout up down elapsed.
  pose proof (MatrixFacts.report_dict fmt2 size n pool all_results rep
                Hfmt Hstat) as Hdict.
  cbv zeta in Hdict. fold up down in Hdict.
  subst elapsed.
  destruct w as [le so l sa p nw r tr].
  cbn [Matrix.launch_error Matrix.launches Matrix.stdout_of Matrix.now
       Matrix.reads Matrix.server_alive Matrix.polls Matrix.dtrace] in *.
  unfold Matrix.one_case, bind, Matrix.act, modify, Matrix.subprocess_run,
    Matrix.start_server, Matrix.subprocess_Popen, try_finally, try_except.
  cbn [Matrix.launch_error Matrix.stdout_of Matrix.launches
       Matrix.server_alive Matrix.polls Matrix.now Matrix.reads
       Matrix.dtrace Matrix.log Matrix.launched ret].
  rewrite Hkill.
  cbn [Matrix.launch_error Matrix.stdout_of Matrix.launches
       Matrix.server_alive Matrix.polls Matrix.now Matrix.reads
       Matrix.dtrace Matrix.log Matrix.launched ret].
  rewrite Hserver.
  unfold Matrix.case_body, bind, Matrix.time_time, Matrix.run_client_test,
    try_except, Matrix.subprocess_run, bind.
  cbn [Matrix.launch_error Matrix.stdout_of Matrix.launches
       Matrix.server_alive Matrix.polls Matrix.now Matrix.reads
       Matrix.dtrace Matrix.log Matrix.launched ret].
  rewrite Hclient.
  cbn [Matrix.launch_error Matrix.stdout_of Matrix.launches
       Matrix.server_alive Matrix.polls Matrix.now Matrix.reads
       Matrix.dtrace Matrix.log Matrix.launched ret].
  rewrite Hout, MatrixFacts.report_truthy.
  unfold lift_result. rewrite Hdict.
  unfold Matrix.poll_is_none, Matrix.case_cleanup.
  cbn [Matrix.launch_error Matrix.stdout_of Matrix.launches
       Matrix.server_alive Matrix.polls Matrix.now Matrix.reads
       Matrix.dtrace Matrix.log Matrix.launched ret].
  rewrite MatrixFacts.writerow_within by reflexivity.
  cbn [Matrix.launch_error Matrix.stdout_of Matrix.launches
       Matrix.server_alive Matrix.polls Matrix.now Matrix.reads
       Matrix.dtrace Matrix.log Matrix.launched ret].
  eexists. split; [reflexivity|].
  cbn [Matrix.dtrace Matrix.log].
  rewrite !MatrixFacts.records_app. cbn [Matrix.records].
  rewrite !List.app_nil_r. reflexivity.
Qed.

Lemma case_row_of_report_witness :
  exists w',
    Matrix.one_case fmt1_sample 1 ((10, 1), ("thread", 5)) Matrix.report_world
    = (Ok 2, w')
    /\ Matrix.records (Matrix.dtrace w')
       = [[ "1"; "10"; "1"; "thread"; "5"; "Thread";
            "1"; "0"; "2.00"; "5.00"; "10.00";
            "1"; "0"; "2.00"; "5.00"; "10.00";
            "Running"; "Completed in 1.0s" ]].
Proof.
  exact (case_row_of_report fmt1_sample fmt2_sample 1 10 1 "thread" 5
           10 1 false [success_result 0 2]
           (Stats.mkReport 10 1 "Thread"
              (Stats.mkPhase 1 0 2 (10485760 / 2)%Q 10485760)
              (Stats.mkPhase 1 0 2 (10485760 / 2)%Q 10485760))
           Matrix.report_world fmt2_sample_numeral
           eq_refl eq_refl eq_refl eq_refl eq_refl).
Defined.

(** X18.  A client that says nothing.  When the client cannot be launched,
    or ends without printing anything (as it does when it dies of an
    exception before its report), the case still writes its row: the case
    number and the configuration, the twelve statistics and status cells
    empty, and the note [Test failed - no output]; the server is not
    polled, and the next case gets the next number. *)
Theorem silent_client_row (fmt1 : Q -> string)
  (test_num file_size c_workers : nat) (s_type : string) (s_workers : nat)
  (w : Matrix.dworld) :
  Matrix.launch_error w (Matrix.launches w) Matrix.pkill_cmd = None ->
  Matrix.launch_error w (S (Matrix.launches w))
    (Matrix.server_cmd s_type s_workers) = None ->
  Matrix.launch_error w (S (S (Matrix.launches w)))
    (Matrix.client_cmd "localhost:6666" file_size c_workers false) <> None
  \/ Matrix.stdout_of w (S (S (Matrix.launches w))) = "" ->
  exists w',
    Matrix.one_case fmt1 test_num
      ((file_size, c_workers), (s_type, s_workers)) w
    = (Ok (S test_num), w')
    /\ Matrix.records (Matrix.dtrace w')
       = (Matrix.records (Matrix.dtrace w)
          ++ [([ str_of_nat test_num; str_of_nat file_size;
                 str_of_nat c_workers; s_type; str_of_nat s_workers ]
               ++ repeat ""%string 12
               ++ ["Test failed - no output"%string])%list])%list
    /\ Matrix.polls w' = Matrix.polls w.
Proof.
  intros Hkill Hserver Hsilent.
  destruct w as [le so l sa p nw r tr].
  cbn [Matrix.launch_error Matrix.launches Matrix.stdout_of Matrix.now
       Matrix.reads Matrix.server_alive Matrix.polls Matrix.dtrace] in *.
  unfold Matrix.one_case, bind, Matrix.act, modify, Matrix.subprocess_run,
    Matrix.start_server, Matrix.subprocess_Popen, try_finally, try_except.
  cbn [Matrix.launch_error Matrix.stdout_of Matrix.launches
       Matrix.server_alive Matrix.polls Matrix.now Matrix.reads
       Matrix.dtrace Matrix.log Matrix.launched ret].
  rewrite Hkill.
  cbn [Matrix.launch_error Matrix.stdout_of Matrix.launches
       Matrix.server_alive Matrix.polls Matrix.now Matrix.reads
       Matrix.dtrace Matrix.log Matrix.launched ret].
  rewrite Hserver.
  unfold Matrix.case_body, bind, Matrix.time_time, Matrix.run_client_test,
    try_except, Matrix.subprocess_run, bind, Matrix.no_output, bind,
    Matrix.act, modify, Matrix.case_cleanup.
  cbn [Matrix.launch_error Matrix.stdout_of Matrix.launches
       Matrix.server_alive Matrix.polls Matrix.now Matrix.reads
       Matrix.dtrace Matrix.log Matrix.launched ret].
  destruct (le (S (S l))
              (Matrix.client_cmd "localhost:6666" file_size c_workers false))
    as [e|] eqn:Hclient.
  - cbn [Matrix.launch_error Matrix.stdout_of Matrix.launches
         Matrix.server_alive Matrix.polls Matrix.now Matrix.reads
         Matrix.dtrace Matrix.log Matrix.launched ret].
    rewrite MatrixFacts.writerow_within by reflexivity.
    eexists. split; [reflexivity|].
    cbn [Matrix.dtrace Matrix.log Matrix.launched Matrix.polls].
    rewrite !MatrixFacts.records_app. cbn [Matrix.records].
    rewrite !List.app_nil_r. split; reflexivity.
  - destruct Hsilent as [Hno|Hout]; [now elim Hno|].
    cbn [Matrix.launch_error Matrix.stdout_of Matrix.launches
         Matrix.server_alive Matrix.polls Matrix.now Matrix.reads
         Matrix.dtrace Matrix.log Matrix.launched ret].
    rewrite Hout. cbn [truthy].
    rewrite MatrixFacts.writerow_within by reflexivity.
    eexists. split; [reflexivity|].
    cbn [Matrix.dtrace Matrix.log Matrix.launched Matrix.polls].
    rewrite !MatrixFacts.records_app. cbn [Matrix.records].
    rewrite !List.app_nil_r. split; reflexivity.
Qed.

Lemma silent_client_row_witness :
  exists w',
    Matrix.one_case fmt1_sample 1 ((10, 1), ("thread", 1)) Matrix.quiet_world
    = (Ok 2, w')
    /\ Matrix.records (Matrix.dtrace w')
       = [[ "1"; "10"; "1"; "thread"; "1";
            ""; ""; ""; ""; ""; ""; ""; ""; ""; ""; ""; "";
            "Test failed - no output" ]]
    /\ Matrix.polls w' = 0.
Proof.
  exact (silent_client_row fmt1_sample 1 10 1 "thread" 1 Matrix.quiet_world
           eq_refl eq_refl (or_intror eq_refl)).
Defined.

(** ** Chunks of bytes and the receive loop *)

Module Utf8Facts.

Import Utf8.

(** The decoder's three reasons, and the byte or byte range each error
    names. *)
Example decode_vectors :
  decode [x63; xc3; xa9] = Ok [99%N; 233%N]
  /\ decode [xe2; x82; xac] = Ok [8364%N]
  /\ decode [xff]
     = Raise "'utf-8' codec can't decode byte 0xff in position 0: invalid start byte"
  /\ decode [x63; xc3]
     = Raise "'utf-8' codec can't decode byte 0xc3 in position 1: unexpected end of data"
  /\ decode [xe2; x82]
     = Raise "'utf-8' codec can't decode bytes in position 0-1: unexpected end of data"
  /\ decode [xc3; x28]
     = Raise "'utf-8' codec can't decode byte 0xc3 in position 0: invalid continuation byte"
  /\ decode [xe2; x82; x28]
     = Raise "'utf-8' codec can't decode bytes in position 0-1: invalid continuation byte"
  /\ decode [xed; xa0; x80]
     = Raise "'utf-8' codec can't decode byte 0xed in position 0: invalid continuation byte".
Proof. repeat split. Qed.

(** Decoding the encoding of one character gives the character back and
    goes on with what follows. *)
Lemma decode_from_char (c : ascii) (rest : bytes) (pos : N) :
  exists pos',
    decode_from pos (map Byte.to_N (List.app (encode_char c) rest))
    = point (N_of_ascii c) (decode_from pos' (map Byte.to_N rest)).
Proof.
  destruct c as [b0 b1 b2 b3 b4 b5 b6 b7].
  destruct b0, b1, b2, b3, b4, b5, b6, b7; eexists; reflexivity.
Qed.

(** The code points of a text. *)
Lemma decode_from_encode (s : string) : forall pos,
  decode_from pos (map Byte.to_N (encode s))
  = Ok (map N_of_ascii (list_ascii_of_string s)).
Proof.
  induction s as [|c s IH]; intros pos; [reflexivity|].
  cbn [encode list_ascii_of_string map].
  destruct (decode_from_char c (encode s) pos) as [pos' H].
  rewrite H, IH. reflexivity.
Qed.

Lemma text_of_points (s : string) :
  text_of (map N_of_ascii (list_ascii_of_string s)) = Some s.
Proof.
  induction s as [|c s IH]; [reflexivity|].
  cbn [list_ascii_of_string map text_of].
  pose proof (N_ascii_bounded c) as Hc.
  apply N.ltb_lt in Hc. rewrite Hc, IH. cbn [option_map].
  now rewrite ascii_N_embedding.
Qed.

(** A chunk that is the encoding of a piece of text is read as that text. *)
Lemma chunk_event_encode (s : string) :
  chunk_event (encode s) = Some (RecvText s).
Proof.
  unfold chunk_event, decode.
  rewrite decode_from_encode, text_of_points. reflexivity.
Qed.

Lemma received_encode (pieces : list string) :
  received (map encode pieces) = Some (map RecvText pieces).
Proof.
  induction pieces as [|p pieces IH]; [reflexivity|].
  cbn [map received]. now rewrite chunk_event_encode, IH.
Qed.

End Utf8Facts.

Example repr_vectors :
  Py.repr "missing.dat" = "'missing.dat'"
  /\ Py.repr "it's.dat"
     = String Py.double_quote ("it's.dat" ++ String Py.double_quote "")
  /\ Py.repr (String (ascii_of_nat 9) "a\b")
     = String Py.apostrophe
         (String Py.backslash
            ("ta" ++ String Py.backslash
                       (String Py.backslash
                          ("b" ++ String Py.apostrophe ""))))
  /\ Py.repr (String (ascii_of_nat 1) (String (ascii_of_nat 233) ""))
     = String Py.apostrophe
         (String Py.backslash
            ("x01" ++ String (ascii_of_nat 233) (String Py.apostrophe ""))).
Proof. repeat split. Qed.

(** The terminator is not in a proper prefix of a frame whose body has no
    carriage return. *)
Lemma proper_prefix_lacks (body : string) : forall p q,
  lacks CR body = true ->
  p ++ q = body ++ terminator ->
  q <> "" ->
  contains terminator p = false.
Proof.
  induction body as [|c body IH]; intros p q Hbody Heq Hq.
  - cbn [String.append] in Heq.
    destruct p as [|a [|b [|c [|d p]]]]; cbn [String.append] in Heq;
      try (inversion Heq; subst; reflexivity).
    inversion Heq; subst.
    destruct p; [|discriminate]. cbn [String.append] in *.
    now elim Hq.
  - cbn [lacks] in Hbody. apply andb_prop in Hbody as [Hc Hbody].
    destruct p as [|a p]; [reflexivity|].
    cbn [String.append] in Heq. inversion Heq; subst a.
    apply negb_true_iff, Ascii.eqb_neq in Hc.
    cbn [contains]. change terminator with (String CR (String LF CRLF)).
    cbn [String.prefix].
    destruct (ascii_dec CR c) as [Hcr|_]; [now elim Hc|].
    change (String CR (String LF CRLF)) with terminator.
    destruct p as [|a p]; [reflexivity|].
    now apply (IH (String a p) q).
Qed.

Lemma cat_app (a b : list string) : cat (a ++ b) = cat a ++ cat b.
Proof.
  induction a as [|p a IH]; [reflexivity|].
  cbn [cat List.app]. now rewrite IH, append_assoc.
Qed.

(** Pieces that are not empty are accumulated whole when no accumulation
    before the last holds the terminator. *)
Lemma recv_loop_pieces (pieces : list string) : forall acc,
  Forall (fun p => truthy p = true) pieces ->
  (forall front back, pieces = (front ++ back)%list -> back <> [] ->
     front <> [] -> contains terminator (acc ++ cat front) = false) ->
  recv_loop (map RecvText pieces) acc = Ok (acc ++ cat pieces).
Proof.
  induction pieces as [|p pieces IH]; intros acc Hne Hearly.
  - cbn [map recv_loop cat]. now rewrite append_nil_r.
  - inversion Hne as [|? ? Hp Hrest]; subst.
    cbn [map recv_loop cat]. rewrite Hp.
    destruct pieces as [|p' pieces].
    + cbn [map recv_loop cat]. rewrite append_nil_r.
      destruct (contains terminator (acc ++ p)); reflexivity.
    + assert (H1 : contains terminator (acc ++ p) = false).
      { pose proof (Hearly [p] (p' :: pieces) eq_refl) as H1.
        cbn [cat] in H1. rewrite append_nil_r in H1.
        apply H1; discriminate. }
      rewrite H1, IH; [now rewrite append_assoc|exact Hrest|].
      intros front back Hsplit Hback Hfront.
      rewrite append_assoc.
      apply (Hearly (p :: front) back); [|exact Hback|discriminate].
      cbn [List.app]. now rewrite Hsplit.
Qed.

Lemma cat_truthy (pieces : list string) :
  Forall (fun p => truthy p = true) pieces -> pieces <> [] ->
  cat pieces <> "".
Proof.
  intros Hne Hnil. destruct pieces as [|p pieces]; [now elim Hnil|].
  inversion Hne as [|? ? Hp _]; subst.
  destruct p; [discriminate|]. cbn [cat String.append]. discriminate.
Qed.

Section Chunking.

Variable json_loads : string -> result json.

(** X20.  A response cut between characters is parsed as if it had come in
    one piece.  For a frame whose body has no carriage return (as the text
    of [json.dumps] has none), delivered as the UTF-8 bytes of any pieces of
    its text that are not empty, one byte at a time for an ASCII body
    included, the receive loop accumulates every piece and the decoder is
    given the whole frame: the result is what parsing the frame gives,
    whatever the cuts. *)
Theorem frame_cut_between_characters (command_str : string) (w : world)
  (serve : string -> session) (events : list recv_event)
  (body : string) (pieces : list string) :
  lacks CR body = true ->
  Forall (fun p => truthy p = true) pieces ->
  cat pieces = body ++ terminator ->
  received (map Utf8.encode pieces) = Some events ->
  net w (conns w) = Accepted serve ->
  serve command_str = Replies events ->
  recv_loop events "" = Ok (body ++ terminator)
  /\ fst (send_command json_loads command_str w)
     = match json_loads (body ++ terminator) with
       | Ok hasil => Ok hasil
       | Raise e => Ok (error_response e)
       end.
Proof.
  intros Hbody Hne Hcat Hrecv Hnet Hserve.
  rewrite Utf8Facts.received_encode in Hrecv. inversion Hrecv; subst events.
  assert (Hloop : recv_loop (map RecvText pieces) "" = Ok (body ++ terminator)).
  { rewrite recv_loop_pieces; [now rewrite <- Hcat|exact Hne|].
    intros front back Hsplit Hback Hfront. cbn [String.append].
    apply (proper_prefix_lacks body (cat front) (cat back)).
    - exact Hbody.
    - rewrite <- Hcat, Hsplit. symmetry. apply cat_app.
    - apply cat_truthy; [|exact Hback].
      rewrite Hsplit in Hne. apply Forall_app in Hne. apply Hne. }
  split; [exact Hloop|].
  rewrite send_command_result, Hnet. unfold exchange.
  rewrite Hserve, Hloop. reflexivity.
Qed.

End Chunking.

Lemma frame_cut_between_characters_witness :
  let pieces := ["f"; "i"; "l"; "e"; String CR ""; String LF "";
                 String CR ""; String LF ""] in
  let events := one_by_one ("file" ++ terminator) in
  let w := fresh_world (replying events) no_files in
  map Utf8.encode pieces
  = [[x66]; [x69]; [x6c]; [x65]; [x0d]; [x0a]; [x0d]; [x0a]]
  /\ received (map Utf8.encode pieces) = Some events
  /\ recv_loop events "" = Ok ("file" ++ terminator)
  /\ fst (send_command sample_loads "GET f" w)
     = Ok (JDict [("status", JStr "OK"); ("data_file", JStr "")]).
Proof.
  cbv zeta. split; [reflexivity|]. split; [reflexivity|].
  apply (frame_cut_between_characters sample_loads "GET f"
           (fresh_world (replying (one_by_one ("file" ++ terminator)))
              no_files)
           (fun _ => Replies (one_by_one ("file" ++ terminator)))
           (one_by_one ("file" ++ terminator)) "file"
           ["f"; "i"; "l"; "e"; String CR ""; String LF "";
            String CR ""; String LF ""]).
  - reflexivity.
  - repeat constructor.
  - reflexivity.
  - reflexivity.
  - reflexivity.
  - reflexivity.
Defined.
